(** * The resume editor's document store, path updater, identifier generator
      and persistence, embedded from the JavaScript sources

    Sources embedded here:
    - [src/lib/utils/deepSet.ts]   ([deepSet])
    - [src/lib/utils/ids.ts]       ([uid])
    - the editor store             ([loadFromStorage], [saveToStorage], [setDoc],
      [updateField], [addBlock], [removeBlock], [reorderSections], [setTheme],
      [setTemplate], [resetToSample])

    Conventions of the embedding.
    - A document is JSON data.  Field values, themes and stored documents are
      [JValue] trees; numbers are integers (time stamps, sizes, counts).
    - A JavaScript object is its table of own properties in the order of
      their creation ([own_keys] gives the order in which they are listed);
      [undefined] is [None] in a slot of type [option JValue].
    - The clock ([Date.now()]), the random source ([Math.random()]) and the
      host's [JSON.parse], [JSON.stringify] and [localStorage] are inputs of
      the operations that use them.
    - The pending autosave timer is part of the state; the event loop runs it
      through [run_timers]. *)

From Stdlib Require Import ZArith String Ascii List Lia DecimalString.
From stdpp Require Import base strings list gmap.
From Stdlib Require HexadecimalString.
Import ListNotations.
Local Open Scope string_scope.
Local Open Scope list_scope.
Set Warnings "-register-all".

(** ** JSON values *)

Inductive JValue : Type :=
| JNull
| JBool (b : bool)
| JNum (n : Z)
| JStr (s : string)
| JArr (items : list JValue)
| JObj (props : list (string * JValue)).

Abbreviation Props := (list (string * JValue)).

(** [typeof x]; [None] is [undefined]. *)
Definition typeof (x : option JValue) : string :=
  match x with
  | None => "undefined"
  | Some JNull => "object"
  | Some (JBool _) => "boolean"
  | Some (JNum _) => "number"
  | Some (JStr _) => "string"
  | Some (JArr _) => "object"
  | Some (JObj _) => "object"
  end.

(** Truthiness, as used by [!x], [x && y] and [if (x)]. *)
Definition truthy (x : option JValue) : bool :=
  match x with
  | None => false
  | Some JNull => false
  | Some (JBool b) => b
  | Some (JNum n) => negb (Z.eqb n 0)
  | Some (JStr s) => negb (String.eqb s EmptyString)
  | Some (JArr _) => true
  | Some (JObj _) => true
  end.

(** The test [!x || typeof x !== 'object'] of [deepSet], lines 14 and 30. *)
Definition not_an_object (x : option JValue) : bool :=
  negb (truthy x) || negb (String.eqb (typeof x) "object").

(** ** Property tables *)

Fixpoint assoc_get {A : Type} (k : string) (ps : list (string * A)) : option A :=
  match ps with
  | [] => None
  | (k', v) :: rest => if String.eqb k' k then Some v else assoc_get k rest
  end.

(** [o[k] = v] on a property table.  The table records the properties in
    the order of their creation: an existing key keeps its place, a new key
    goes last.  The order in which JavaScript lists the keys is derived from
    it by [own_keys]. *)
Fixpoint assoc_set {A : Type} (ps : list (string * A)) (k : string) (v : A)
  : list (string * A) :=
  match ps with
  | [] => [(k, v)]
  | (k', v') :: rest =>
      if String.eqb k' k then (k, v) :: rest else (k', v') :: assoc_set rest k v
  end.

(** A key is an array index when it is the canonical decimal form of an
    integer below 2^32 - 1 ("0", "7", "12", but not "07" or "-1"). *)
Definition array_index (k : string) : option N :=
  match NilEmpty.uint_of_string k with
  | Some d =>
      let n := N.of_uint d in
      if String.eqb (NilEmpty.string_of_uint (N.to_uint n)) k
         && N.ltb n 4294967295
      then Some n else None
  | None => None
  end.

Definition index_key (i : N) : string :=
  NilEmpty.string_of_uint (N.to_uint i).

(** ** Outcomes of a call

    A call returns a value, throws, or leaves what this development
    describes ([OffModel], see [js_get] and [js_put]); nothing is stated
    about a call with the last outcome. *)

Inductive Outcome (A : Type) : Type :=
| Returned (a : A)
| Thrown (msg : string)
| OffModel.
Arguments Returned {A} a.
Arguments Thrown {A} msg.
Arguments OffModel {A}.

Definition bindO {A B : Type} (x : Outcome A) (f : A -> Outcome B) : Outcome B :=
  match x with
  | Returned a => f a
  | Thrown msg => Thrown msg
  | OffModel => OffModel
  end.

(** ** Reading and writing one property of an object or array

    The data are JSON data: records whose prototype is [Object.prototype],
    and arrays without holes and without named properties.  An access that
    such data answer is [Returned]; an error that the engine raises is
    [Thrown]; the outcome is [OffModel] where the access leaves these data or
    needs a conversion that is not embedded:
    - a read of [__proto__] where it is no own property (the read gives the
      prototype object), and an assignment of an object, an array or [null]
      there (the assignment replaces the prototype);
    - an assignment to an array under a name that is neither an index nor
      [length] (a named property), or at an index past the end (holes);
    - [length] assigned a number above the current length (holes), or a
      string or an array (the conversion of a text to a number).
    Inherited methods ([toString], [map], ...) are functions: like an absent
    slot they fail the [typeof x === 'object'] test and are shadowed by an
    assignment, so a read of such a key is modelled as [undefined]. *)

(** The messages of the engine's errors, in the wording of V8: the
    [RangeError] for an array length that is no integer in [0, 2^32), and the
    [TypeError] for an object that has no callable [valueOf] or [toString]. *)
Definition invalid_array_length : string := "Invalid array length".
Definition cannot_convert_object : string :=
  "Cannot convert object to primitive value".

Definition js_get (o : JValue) (k : string) : Outcome (option JValue) :=
  match o with
  | JObj ps =>
      match assoc_get k ps with
      | Some v => Returned (Some v)
      | None => if String.eqb k "__proto__" then OffModel else Returned None
      end
  | JArr items =>
      match array_index k with
      | Some i =>
          if N.ltb i (N.of_nat (length items))
          then Returned (items !! N.to_nat i) else Returned None
      | None =>
          if String.eqb k "length"
          then Returned (Some (JNum (Z.of_nat (length items))))
          else if String.eqb k "__proto__" then OffModel
          else Returned None
      end
  | _ => OffModel
  end.

Definition is_primitive (v : JValue) : bool :=
  match v with
  | JBool _ | JNum _ | JStr _ => true
  | JNull | JArr _ | JObj _ => false
  end.

(** [o.__proto__ = v] where [__proto__] is no own property of [o]: the
    setter of [Object.prototype] does nothing when [v] is a primitive value. *)
Definition set_prototype (o v : JValue) : Outcome JValue :=
  if is_primitive v then Returned o else OffModel.

(** [items.length = v].  The value is converted to a number; a length below
    the current one cuts the array.  An object is converted through its
    [valueOf] and [toString]: the inherited ones give "[object Object]",
    which is no number, and an own property [toString] is data and cannot be
    called. *)
Definition set_length (items : list JValue) (v : JValue) : Outcome JValue :=
  match v with
  | JNum n =>
      if (0 <=? n)%Z && (n <? 4294967296)%Z then
        if (n <=? Z.of_nat (length items))%Z
        then Returned (JArr (firstn (Z.to_nat n) items))
        else OffModel
      else Thrown invalid_array_length
  | JNull => Returned (JArr [])
  | JBool false => Returned (JArr [])
  | JBool true =>
      match items with
      | [] => OffModel
      | x :: _ => Returned (JArr [x])
      end
  | JObj ps =>
      match assoc_get "toString" ps with
      | Some _ => Thrown cannot_convert_object
      | None => Thrown invalid_array_length
      end
  | JStr _ => OffModel
  | JArr _ => OffModel
  end.

Definition js_put (o : JValue) (k : string) (v : JValue) : Outcome JValue :=
  match o with
  | JObj ps =>
      match assoc_get k ps with
      | Some _ => Returned (JObj (assoc_set ps k v))
      | None =>
          if String.eqb k "__proto__" then set_prototype o v
          else Returned (JObj (assoc_set ps k v))
      end
  | JArr items =>
      match array_index k with
      | Some i =>
          if N.ltb i (N.of_nat (length items))
          then Returned (JArr (<[N.to_nat i := v]> items))
          else if N.eqb i (N.of_nat (length items)) then Returned (JArr (items ++ [v]))
          else OffModel
      | None =>
          if String.eqb k "length" then set_length items v
          else if String.eqb k "__proto__" then set_prototype o v
          else OffModel
      end
  | _ => OffModel
  end.

(** The order in which JavaScript lists the own keys of a record whose
    table is [ps]: the keys that are array indices first, in ascending
    numeric order, then the other keys in the order of their creation. *)
Fixpoint insert_index (i : N) (l : list N) : list N :=
  match l with
  | [] => [i]
  | j :: l' => if N.leb i j then i :: l else j :: insert_index i l'
  end.

Definition index_keys (ps : Props) : list N :=
  foldl (fun acc i => insert_index i acc) [] (omap array_index (map fst ps)).

Definition is_name (k : string) : bool :=
  match array_index k with
  | Some _ => false
  | None => true
  end.

Definition name_keys (ps : Props) : list string :=
  List.filter is_name (map fst ps).

Definition own_keys (ps : Props) : list string :=
  map index_key (index_keys ps) ++ name_keys ps.

(** ** [String.prototype.split] on a one-character separator *)

Fixpoint split (sep : ascii) (s : string) : list string :=
  match s with
  | EmptyString => [EmptyString]
  | String c rest =>
      if Ascii.eqb c sep then EmptyString :: split sep rest
      else match split sep rest with
           | [] => [String c EmptyString]
           | h :: t => String c h :: t
           end
  end.

(** ** deepSet *)

(** The loop of [deepSet] walks a reference [current] down the tree rooted
    at [obj] and assigns through it.  [current] is kept as the list of keys
    from [obj] to the node it points to: reading [current[key]] is a lookup
    along that path, and an assignment [current[key] = v] rewrites the tree at
    that place, which is what the caller observes through [obj].  The nodes
    on the way are records and arrays; a slot that holds nothing has nothing
    below it. *)

Fixpoint lookup_path (o : JValue) (p : list string) : Outcome (option JValue) :=
  match p with
  | [] => Returned (Some o)
  | k :: p' =>
      bindO (js_get o k) (fun slot =>
        match slot with
        | Some c => lookup_path c p'
        | None => Returned None
        end)
  end.

Fixpoint write_path (o : JValue) (p : list string) (k : string) (v : JValue)
  : Outcome JValue :=
  match p with
  | [] => js_put o k v
  | q :: p' =>
      bindO (js_get o q) (fun slot =>
        match slot with
        | Some c => bindO (write_path c p' k v) (fun c' => js_put o q c')
        | None => OffModel
        end)
  end.

Record Walk := { root : JValue; current : list string }.

(** One iteration of the loop at lines 26-35. *)
Definition deepSet_step (w : Walk) (key : string) : Outcome Walk :=
  bindO (lookup_path (root w) (current w ++ [key])) (fun slot =>
    bindO (if not_an_object slot
           then write_path (root w) (current w) key (JObj [])
           else Returned (root w))
      (fun r => Returned {| root := r; current := current w ++ [key] |})).

Fixpoint deepSet_loop (keys : list string) (w : Walk) : Outcome Walk :=
  match keys with
  | [] => Returned w
  | key :: keys' => bindO (deepSet_step w key) (deepSet_loop keys')
  end.

(** [path] is a string by its type, so the guard at line 18 cannot fire. *)
Definition deepSet (obj : JValue) (path : string) (value : JValue)
  : Outcome JValue :=
  if not_an_object (Some obj) then Thrown "deepSet: target must be an object"
  else
    let keys := split "." path in
    bindO (deepSet_loop (removelast keys) {| root := obj; current := [] |})
      (fun w => write_path (root w) (current w) (List.last keys EmptyString) value).

(** The path updater in the words of its specification: descend key by
    key, first replacing by an empty record a slot that is absent or does not
    hold what [keeps] admits, and assign at the last key.  [repair] gives the
    target after the replacement, if any, and the node to descend into. *)
Definition repair (keeps : option JValue -> bool) (o : JValue) (k : string)
  : Outcome (JValue * JValue) :=
  bindO (js_get o k) (fun slot =>
    match slot with
    | Some c =>
        if keeps slot then Returned (o, c)
        else bindO (js_put o k (JObj [])) (fun o1 => Returned (o1, JObj []))
    | None => bindO (js_put o k (JObj [])) (fun o1 => Returned (o1, JObj []))
    end).

Fixpoint descend (keeps : option JValue -> bool) (o : JValue)
    (keys : list string) (value : JValue) : Outcome JValue :=
  match keys with
  | [] => Returned o
  | [k] => js_put o k value
  | k :: rest =>
      bindO (repair keeps o k) (fun oc =>
        bindO (descend keeps (snd oc) rest value) (fun c' => js_put (fst oc) k c'))
  end.

(** A record in the sense of the data model: a mapping from names to
    values, as opposed to a sequence. *)
Definition is_record (x : option JValue) : bool :=
  match x with
  | Some (JObj _) => true
  | _ => false
  end.

(** What the test of the loop keeps: records and arrays. *)
Definition is_object (x : option JValue) : bool := negb (not_an_object x).

(** The ways in which an assignment [o[k] = v] returns: a property of a
    record is set, an element of an array is replaced or appended, the
    length of an array is set to a length that is not above the one it has,
    or the assignment is to [__proto__] and does nothing. *)
Inductive Assigned (k : string) (v : JValue) : JValue -> JValue -> Prop :=
| assigned_property ps :
    assoc_get k ps <> None \/ k <> "__proto__" ->
    Assigned k v (JObj ps) (JObj (assoc_set ps k v))
| assigned_element items i :
    array_index k = Some i -> (i < N.of_nat (length items))%N ->
    Assigned k v (JArr items) (JArr (<[N.to_nat i := v]> items))
| assigned_appended items :
    array_index k = Some (N.of_nat (length items)) ->
    Assigned k v (JArr items) (JArr (items ++ [v]))
| assigned_length items n :
    k = "length" -> is_object (Some v) = false -> (n <= length items)%nat ->
    Assigned k v (JArr items) (JArr (firstn n items))
| assigned_nothing o :
    k = "__proto__" -> is_primitive v = true -> is_object (Some o) = true ->
    Assigned k v o o.

(** A value without arrays: records of records and primitive values. *)
Fixpoint array_free (v : JValue) : bool :=
  match v with
  | JArr _ => false
  | JObj ps => forallb (fun kv => array_free (snd kv)) ps
  | _ => true
  end.

(** ** uid *)

(** [s.slice(from, to)] for indices that are not negative. *)
Definition slice (s : string) (from to : nat) : string :=
  substring from (to - from) s.

(** [rnd36] is [Math.random().toString(36)], the base-36 rendering of a
    number in [0, 1): "0", or "0." followed by its fractional digits.  The
    default value of [prefix] applies when the argument is [undefined]. *)
Definition uid (rnd36 : string) (prefix : option string) : string :=
  (match prefix with Some p => p | None => "id" end) +:+ "_" +:+ slice rnd36 2 10.

(** ** Documents *)

Record Block := {
  block_id : string;
  block_type : string;
  fields : JValue }.

Record Section := {
  section_id : string;
  section_type : string;
  section_title : string;
  blocks : list Block;
  hidden : option bool }.

Record Meta := {
  title : string;
  createdAt : Z;
  updatedAt : Z }.

Record ResumeDoc := {
  doc_id : string;
  meta : Meta;
  theme : Props;
  sections : list Section }.

Definition with_blocks (s : Section) (bs : list Block) : Section :=
  {| section_id := section_id s; section_type := section_type s;
     section_title := section_title s; blocks := bs; hidden := hidden s |}.

Definition with_fields (b : Block) (f : JValue) : Block :=
  {| block_id := block_id b; block_type := block_type b; fields := f |}.

Definition with_sections (d : ResumeDoc) (ss : list Section) : ResumeDoc :=
  {| doc_id := doc_id d; meta := meta d; theme := theme d; sections := ss |}.

Definition with_theme (d : ResumeDoc) (t : Props) : ResumeDoc :=
  {| doc_id := doc_id d; meta := meta d; theme := t; sections := sections d |}.

(** The JavaScript value of a document, as [JSON.parse] would build it. *)
Definition block_to_json (b : Block) : JValue :=
  JObj [("id", JStr (block_id b)); ("type", JStr (block_type b));
        ("fields", fields b)].

Definition section_to_json (s : Section) : JValue :=
  JObj ([("id", JStr (section_id s)); ("type", JStr (section_type s));
         ("title", JStr (section_title s));
         ("blocks", JArr (map block_to_json (blocks s)))]
        ++ match hidden s with
           | Some h => [("hidden", JBool h)]
           | None => []
           end).

Definition doc_to_json (d : ResumeDoc) : JValue :=
  JObj [("id", JStr (doc_id d));
        ("meta", JObj [("title", JStr (title (meta d)));
                       ("createdAt", JNum (createdAt (meta d)));
                       ("updatedAt", JNum (updatedAt (meta d)))]);
        ("theme", JObj (theme d));
        ("sections", JArr (map section_to_json (sections d)))].

(** [JSON.parse(JSON.stringify(x))]: a fresh copy of the tree. *)
Fixpoint clone_value (v : JValue) : JValue :=
  match v with
  | JNull => JNull
  | JBool b => JBool b
  | JNum n => JNum n
  | JStr s => JStr s
  | JArr items => JArr (map clone_value items)
  | JObj ps => JObj (map (fun kv => (fst kv, clone_value (snd kv))) ps)
  end.

Definition clone_block (b : Block) : Block :=
  {| block_id := block_id b; block_type := block_type b;
     fields := clone_value (fields b) |}.

Definition clone_section (s : Section) : Section :=
  {| section_id := section_id s; section_type := section_type s;
     section_title := section_title s;
     blocks := map clone_block (blocks s); hidden := hidden s |}.

Definition JSON_clone (d : ResumeDoc) : ResumeDoc :=
  {| doc_id := doc_id d;
     meta := {| title := title (meta d); createdAt := createdAt (meta d);
                updatedAt := updatedAt (meta d) |};
     theme := map (fun kv => (fst kv, clone_value (snd kv))) (theme d);
     sections := map clone_section (sections d) |}.

(** Object spread [{...acc, ...src}]: the own enumerable properties of [src]
    are assigned onto [acc] in order; [undefined], [null], numbers and
    booleans contribute nothing, arrays and strings their indexed slots. *)
Fixpoint indexed {A : Type} (i : N) (l : list A) : list (string * A) :=
  match l with
  | [] => []
  | x :: rest => (index_key i, x) :: indexed (N.succ i) rest
  end.

Fixpoint chars (s : string) : list JValue :=
  match s with
  | EmptyString => []
  | String c rest => JStr (String c EmptyString) :: chars rest
  end.

Definition own_props (src : option JValue) : Props :=
  match src with
  | Some (JObj ps) => ps
  | Some (JArr items) => indexed 0 items
  | Some (JStr s) => indexed 0 (chars s)
  | _ => []
  end.

Definition spread (acc : Props) (src : option JValue) : Props :=
  fold_left (fun a kv => assoc_set a (fst kv) (snd kv)) (own_props src) acc.

(** ** The default theme and the sample document *)

Definition defaultTheme : Props :=
  [("fontFamily", JStr "Inter, ui-sans-serif, system-ui");
   ("fontScale", JNum 1);
   ("colors", JObj [("primary", JStr "hsl(var(--brand))");
                    ("accent", JStr "hsl(var(--accent))");
                    ("muted", JStr "hsl(var(--muted))")]);
   ("spacing", JObj [("sectionY", JNum 20); ("itemY", JNum 8)]);
   ("layout", JObj [("paper", JStr "A4"); ("columns", JNum 1);
                    ("gutter", JNum 24); ("showIcons", JBool false)])].

(** The two time stamps are the readings of the clock when the module that
    defines the sample is loaded. *)
Definition sampleResume (loaded1 loaded2 : Z) : ResumeDoc :=
  {| doc_id := "sample_resume_001";
     meta := {| title := "John Anderson Resume";
                createdAt := loaded1; updatedAt := loaded2 |};
     theme := defaultTheme;
     sections :=
       [ {| section_id := "header_section"; section_type := "header";
            section_title := "Header"; hidden := None;
            blocks :=
              [ {| block_id := "header_block_001"; block_type := "header";
                   fields := JObj
                     [("name", JStr "John Anderson");
                      ("title", JStr "Senior Software Engineer");
                      ("email", JStr "john.anderson@email.com");
                      ("phone", JStr "+1 (555) 123-4567");
                      ("location", JStr "San Francisco, CA");
                      ("linkedin", JStr "linkedin.com/in/johnanderson");
                      ("website", JStr EmptyString)] |} ] |};
         {| section_id := "summary_section"; section_type := "summary";
            section_title := "Professional Summary"; hidden := None;
            blocks :=
              [ {| block_id := "summary_block_001"; block_type := "summary";
                   fields := JObj
                     [("content", JStr "Experienced software engineer with 8+ years of expertise in full-stack development, cloud architecture, and team leadership. Proven track record of delivering scalable solutions that drive business growth and improve user experience. Passionate about mentoring junior developers and implementing best practices in agile environments.")] |} ] |};
         {| section_id := "experience_section"; section_type := "experience";
            section_title := "Professional Experience"; hidden := None;
            blocks :=
              [ {| block_id := "experience_block_001";
                   block_type := "experience";
                   fields := JObj
                     [("role", JStr "Senior Software Engineer");
                      ("company", JStr "TechCorp Solutions");
                      ("location", JStr "San Francisco, CA");
                      ("startDate", JStr "Jan 2020");
                      ("endDate", JStr "Present");
                      ("highlights", JArr
                         [JStr "Led development of microservices architecture serving 1M+ daily active users";
                          JStr "Reduced system latency by 40% through optimization of database queries and caching strategies";
                          JStr "Mentored 5 junior developers and established code review best practices";
                          JStr "Architected and implemented CI/CD pipeline reducing deployment time by 60%"])] |} ] |};
         {| section_id := "skills_section"; section_type := "skills";
            section_title := "Technical Skills"; hidden := None;
            blocks :=
              [ {| block_id := "skills_block_001"; block_type := "skills";
                   fields := JObj
                     [("items", JArr
                         [JObj [("category", JStr "Languages");
                                ("skills", JStr "JavaScript, TypeScript, Python, Java, Go")];
                          JObj [("category", JStr "Frameworks");
                                ("skills", JStr "React, Node.js, Express, Django, Spring Boot")];
                          JObj [("category", JStr "Databases");
                                ("skills", JStr "PostgreSQL, MongoDB, Redis, Elasticsearch")];
                          JObj [("category", JStr "Cloud & DevOps");
                                ("skills", JStr "AWS, Docker, Kubernetes, Terraform, Jenkins")]])] |} ] |} ] |}.

(** ** The editor store *)

Definition STORAGE_KEY : string := "resume_doc_v1".
Definition AUTOSAVE_DELAY : Z := 500.

Inductive Template := classic | modern.

(** The data of the store: the current document and template. *)
Record EditorState := {
  doc : ResumeDoc;
  template : Template }.

(** The store with what surrounds it: the item of [localStorage] under
    [STORAGE_KEY], the autosave timer still pending (its due time and the
    document its callback captured), the texts passed to
    [localStorage.setItem] so far (oldest first) and the console. *)
Record World := {
  store : EditorState;
  storage : option string;
  saveTimeout : option (Z * ResumeDoc);
  writes : list string;
  console : list string }.

(** Updaters return the new document together with the warnings they log. *)
Inductive Updater :=
| NewDoc (d : ResumeDoc)
| Update (f : ResumeDoc -> Outcome (ResumeDoc * list string)).

(** The first element that satisfies [p] is changed in place: the effect of
    mutating the object that [Array.prototype.find] returned. *)
Fixpoint update_first {A : Type} (p : A -> bool) (f : A -> A) (l : list A)
  : list A :=
  match l with
  | [] => []
  | x :: rest => if p x then f x :: rest else x :: update_first p f rest
  end.

Definition has_section_id (sectionId : string) (s : Section) : bool :=
  String.eqb (section_id s) sectionId.

Definition has_block_id (blockId : string) (b : Block) : bool :=
  String.eqb (block_id b) blockId.

Definition section_not_found (sectionId : string) : string :=
  "Section " +:+ sectionId +:+ " not found".

Definition block_not_found (blockId sectionId : string) : string :=
  "Block " +:+ blockId +:+ " not found in section " +:+ sectionId.

Section Host.

(** [JSON.stringify] on documents, and whether [localStorage.setItem]
    accepts a text (it throws when the quota is exceeded). *)
Variable JSON_stringify : ResumeDoc -> string.
Variable setItem_accepts : string -> bool.

(** The callback of the autosave timer, lines 60-66. *)
Definition save_callback (d : ResumeDoc) (w : World) : World :=
  let text := JSON_stringify d in
  if setItem_accepts text then
    {| store := store w; storage := Some text; saveTimeout := None;
       writes := writes w ++ [text]; console := console w |}
  else
    {| store := store w; storage := storage w; saveTimeout := None;
       writes := writes w ++ [text];
       console := console w ++ ["Failed to save resume to localStorage:"] |}.

(** The event loop at time [t]: a pending timer runs once it is due. *)
Definition run_timers (t : Z) (w : World) : World :=
  match saveTimeout w with
  | Some (due, d) => if Z.leb due t then save_callback d w else w
  | None => w
  end.

(** [clearTimeout] of the pending timer, then [setTimeout]. *)
Definition saveToStorage (now : Z) (d : ResumeDoc) (w : World) : World :=
  {| store := store w; storage := storage w;
     saveTimeout := Some ((now + AUTOSAVE_DELAY)%Z, d);
     writes := writes w; console := console w |}.

(** [{...newDoc, meta: {...newDoc.meta, updatedAt: Date.now()}}], lines 83-89. *)
Definition stamp (now : Z) (d : ResumeDoc) : ResumeDoc :=
  {| doc_id := doc_id d;
     meta := {| title := title (meta d); createdAt := createdAt (meta d);
                updatedAt := now |};
     theme := theme d; sections := sections d |}.

(** [setDoc], lines 80-93: the updater's result is stamped, its save is
    scheduled and it becomes the store's document; an updater that throws
    leaves everything as it was. *)
Definition setDoc (now : Z) (updater : Updater) (w : World) : Outcome World :=
  bindO (match updater with
         | Update f => f (doc (store w))
         | NewDoc d => Returned (d, [])
         end)
    (fun r =>
       let updatedDoc := stamp now (fst r) in
       Returned
         (saveToStorage now updatedDoc
            {| store := {| doc := updatedDoc; template := template (store w) |};
               storage := storage w; saveTimeout := saveTimeout w;
               writes := writes w; console := console w ++ snd r |})).

(** The function that [updateField] hands to [setDoc], lines 104-120: on a
    miss it warns and returns [doc] itself; otherwise [deepSet] assigns
    inside the fields of the block found in the copy. *)
Definition updateField_updater (sectionId blockId path : string)
    (value : JValue) (d : ResumeDoc) : Outcome (ResumeDoc * list string) :=
  let newDoc := JSON_clone d in
  match List.find (has_section_id sectionId) (sections newDoc) with
  | None => Returned (d, [section_not_found sectionId])
  | Some section =>
      match List.find (has_block_id blockId) (blocks section) with
      | None => Returned (d, [block_not_found blockId sectionId])
      | Some block =>
          bindO (deepSet (fields block) path value)
            (fun fields' =>
               Returned
                 (with_sections newDoc
                    (update_first (has_section_id sectionId)
                       (fun s =>
                          with_blocks s
                            (update_first (has_block_id blockId)
                               (fun b => with_fields b fields') (blocks s)))
                       (sections newDoc)), []))
      end
  end.

Definition updateField (now : Z) (sectionId blockId path : string)
    (value : JValue) : World -> Outcome World :=
  setDoc now (Update (updateField_updater sectionId blockId path value)).

(** Lines 130-144: [{...blockTemplate, id: uid(blockTemplate.type)}] is
    pushed onto the blocks of the section found in the copy. *)
Definition addBlock_updater (rnd36 : string) (sectionId : string)
    (blockTemplate : Block) (d : ResumeDoc)
  : Outcome (ResumeDoc * list string) :=
  let newDoc := JSON_clone d in
  match List.find (has_section_id sectionId) (sections newDoc) with
  | None => Returned (d, [section_not_found sectionId])
  | Some section =>
      let newBlock :=
        {| block_id := uid rnd36 (Some (block_type blockTemplate));
           block_type := block_type blockTemplate;
           fields := fields blockTemplate |} in
      Returned
        (with_sections newDoc
           (update_first (has_section_id sectionId)
              (fun s => with_blocks s (blocks s ++ [newBlock]))
              (sections newDoc)), [])
  end.

Definition addBlock (rnd36 : string) (now : Z) (sectionId : string)
    (blockTemplate : Block) : World -> Outcome World :=
  setDoc now (Update (addBlock_updater rnd36 sectionId blockTemplate)).

(** Lines 154-164: the blocks of the section found in the copy are
    filtered on [b.id !== blockId]. *)
Definition removeBlock_updater (sectionId blockId : string) (d : ResumeDoc)
  : Outcome (ResumeDoc * list string) :=
  let newDoc := JSON_clone d in
  match List.find (has_section_id sectionId) (sections newDoc) with
  | None => Returned (d, [section_not_found sectionId])
  | Some section =>
      Returned
        (with_sections newDoc
           (update_first (has_section_id sectionId)
              (fun s =>
                 with_blocks s
                   (List.filter (fun b => negb (has_block_id blockId b))
                      (blocks s)))
              (sections newDoc)), [])
  end.

Definition removeBlock (now : Z) (sectionId blockId : string)
  : World -> Outcome World :=
  setDoc now (Update (removeBlock_updater sectionId blockId)).

(** [new Map(sections.map(s => [s.id, s]))]: a later entry with the same
    id replaces an earlier one. *)
Definition sectionMap (ss : list Section) : gmap string Section :=
  foldl (fun m s => <[section_id s := s]> m) ∅ ss.

(** Lines 173-182: [newOrderIds.map(id => sectionMap.get(id)).filter(Boolean)];
    an id the map does not know yields [undefined], which the filter drops. *)
Definition reorderSections_updater (newOrderIds : list string) (d : ResumeDoc)
  : Outcome (ResumeDoc * list string) :=
  let newDoc := JSON_clone d in
  let m := sectionMap (sections newDoc) in
  Returned (with_sections newDoc (omap (fun id => m !! id) newOrderIds), []).

Definition reorderSections (now : Z) (newOrderIds : list string)
  : World -> Outcome World :=
  setDoc now (Update (reorderSections_updater newOrderIds)).

(** [{...doc.theme?.group, ...partialTheme.group}], lines 197-208. *)
Definition merge_group (group : string) (old patch : Props) : JValue :=
  JObj (spread (spread [] (assoc_get group old)) (assoc_get group patch)).

(** The object literal of lines 193-209: the theme, then the patch, then
    the three merged groups. *)
Definition setTheme_updater (partialTheme : Props) (d : ResumeDoc)
  : Outcome (ResumeDoc * list string) :=
  let t0 := spread (spread [] (Some (JObj (theme d))))
              (Some (JObj partialTheme)) in
  let t1 := assoc_set t0 "colors" (merge_group "colors" (theme d) partialTheme) in
  let t2 := assoc_set t1 "spacing" (merge_group "spacing" (theme d) partialTheme) in
  let t3 := assoc_set t2 "layout" (merge_group "layout" (theme d) partialTheme) in
  Returned (with_theme d t3, []).

Definition setTheme (now : Z) (partialTheme : Props) : World -> Outcome World :=
  setDoc now (Update (setTheme_updater partialTheme)).

Definition setTemplate (t : Template) (w : World) : World :=
  {| store := {| doc := doc (store w); template := t |};
     storage := storage w; saveTimeout := saveTimeout w;
     writes := writes w; console := console w |}.

(** The clock readings in [sampleResume]; [resetToSample] reads the clock
    twice more. *)
Variables loaded1 loaded2 : Z.

(** Lines 224-238: the stored item is removed and the store is set
    directly; the timer of [saveToStorage] is not touched. *)
Definition resetToSample (rnd36 : string) (now1 now2 : Z) (w : World) : World :=
  {| store :=
       {| doc := {| doc_id := uid rnd36 (Some "resume");
                    meta := {| title := title (meta (sampleResume loaded1 loaded2));
                               createdAt := now1; updatedAt := now2 |};
                    theme := theme (sampleResume loaded1 loaded2);
                    sections := sections (sampleResume loaded1 loaded2) |};
          template := classic |};
     storage := None; saveTimeout := saveTimeout w;
     writes := writes w; console := console w |}.

(** [stored] is what [localStorage.getItem] does at line 40 (it may throw,
    and returns [null] for a missing item); [JSON_parse] is [None] where
    [JSON.parse] throws. *)
Variable JSON_parse : string -> option JValue.

(** [v.k] for the keys [id] and [sections], which only an object can have. *)
Definition prop (v : option JValue) (k : string) : option JValue :=
  match v with
  | Some (JObj ps) => assoc_get k ps
  | _ => None
  end.

(** Lines 38-52; an exception of [getItem] or [JSON.parse] is caught and
    leads to the sample. *)
Definition loadFromStorage (stored : Outcome (option string)) : JValue :=
  match stored with
  | Returned (Some text) =>
      if truthy (Some (JStr text)) then
        match JSON_parse text with
        | Some parsed =>
            if truthy (Some parsed) && truthy (prop (Some parsed) "id")
               && truthy (prop (Some parsed) "sections")
               && match prop (Some parsed) "sections" with
                  | Some (JArr _) => true
                  | _ => false
                  end
            then parsed
            else doc_to_json (sampleResume loaded1 loaded2)
        | None => doc_to_json (sampleResume loaded1 loaded2)
        end
      else doc_to_json (sampleResume loaded1 loaded2)
  | _ => doc_to_json (sampleResume loaded1 loaded2)
  end.

(** A run of [setDoc] calls, each at its own time; the event loop gets to
    run the timers that are due before each call. *)
Fixpoint burst (calls : list (Z * Updater)) (w : World) : Outcome World :=
  match calls with
  | [] => Returned w
  | (now, updater) :: rest =>
      bindO (setDoc now updater (run_timers now w)) (burst rest)
  end.

End Host.

(** Consecutive times are in order and less than the autosave delay apart. *)
Fixpoint within_delay (times : list Z) : Prop :=
  match times with
  | t :: ((t' :: _) as rest) =>
      (t <= t' < t + AUTOSAVE_DELAY)%Z /\ within_delay rest
  | _ => True
  end.

(** No autosave is due at time [t] or before. *)
Definition quiet_until (t : Z) (w : World) : Prop :=
  match saveTimeout w with
  | Some (due, _) => (t < due)%Z
  | None => True
  end.

(** ** Example data *)

Definition world_of (d : ResumeDoc) : World :=
  {| store := {| doc := d; template := classic |};
     storage := None; saveTimeout := None; writes := []; console := [] |}.

Definition section_named (id : string) : Section :=
  {| section_id := id; section_type := "custom"; section_title := id;
     blocks := []; hidden := None |}.

Definition threeSections : ResumeDoc :=
  {| doc_id := "resume_k3v9x2ab";
     meta := {| title := "Resume"; createdAt := 1699999990000;
                updatedAt := 1699999990000 |};
     theme := defaultTheme;
     sections := [section_named "s1"; section_named "s2"; section_named "s3"] |}.

(** A document whose theme has the colours of the theme-merge example, and
    the patch of that example. *)
Definition plainColors : ResumeDoc :=
  with_theme threeSections
    [("fontFamily", JStr "Inter, ui-sans-serif, system-ui");
     ("fontScale", JNum 1);
     ("colors", JObj [("primary", JStr "#000"); ("accent", JStr "#fff");
                      ("muted", JStr "#888")]);
     ("spacing", JObj [("sectionY", JNum 20); ("itemY", JNum 8)]);
     ("layout", JObj [("paper", JStr "A4"); ("columns", JNum 1);
                      ("gutter", JNum 24); ("showIcons", JBool false)])].

Definition accentPatch : Props := [("colors", JObj [("accent", JStr "#111")])].

(** The block template of the end-to-end scenario. *)
Definition engineerTemplate : Block :=
  {| block_id := "tmp"; block_type := "experience";
     fields := JObj [("role", JStr "Eng")] |}.

(** Targets for the path updater: two fields of the sample's header block,
    and the object of the test for array indices. *)
Definition headerFields : JValue :=
  JObj [("name", JStr "John Anderson");
        ("title", JStr "Senior Software Engineer")].

Definition itemsTarget : JValue :=
  JObj [("items", JArr [JObj [("name", JStr "first")]])].

Definition js_get_slot (o : JValue) (k : string) : option JValue :=
  match js_get o k with
  | Returned slot => slot
  | _ => None
  end.

(** ** Definitions used in the statements *)

(** What [setDoc] commits when the updater returns. *)
Definition committed (now : Z) (newDoc : ResumeDoc) (warnings : list string)
    (w : World) : World :=
  {| store := {| doc := stamp now newDoc; template := template (store w) |};
     storage := storage w;
     saveTimeout := Some ((now + AUTOSAVE_DELAY)%Z, stamp now newDoc);
     writes := writes w;
     console := console w ++ warnings |}.

Definition unique_keys {A : Type} (ps : list (string * A)) : Prop :=
  List.NoDup (map fst ps).

Definition theme_groups : list string := ["colors"; "spacing"; "layout"].

(** The document committed by a call that misses: the current one with
    [meta.updatedAt] set to the time of the call. *)
Definition restamped (now : Z) (d : ResumeDoc) : ResumeDoc :=
  {| doc_id := doc_id d;
     meta := {| title := title (meta d); createdAt := createdAt (meta d);
                updatedAt := now |};
     theme := theme d;
     sections := sections d |}.

(** The validation as the specification words it: [id] is present and a
    string, [sections] is present and a sequence. *)
Definition valid_as_specified (v : JValue) : bool :=
  match v with
  | JObj ps =>
      match assoc_get "id" ps, assoc_get "sections" ps with
      | Some (JStr _), Some (JArr _) => true
      | _, _ => false
      end
  | _ => false
  end.

(** A [JSON.parse] known on the listed texts only. *)
Definition parse_table (known : list (string * JValue)) (text : string)
  : option JValue :=
  assoc_get text known.

Definition quote : string := String "034" EmptyString.

(** The text [{"id":42,"sections":[]}] and its parse. *)
Definition numericIdText : string :=
  "{" +:+ quote +:+ "id" +:+ quote +:+ ":42," +:+ quote +:+ "sections" +:+ quote +:+ ":[]}".

Definition numericIdDoc : JValue :=
  JObj [("id", JNum 42); ("sections", JArr [])].

(** The text [{"id":"resume_k3v9x2ab","sections":[]}] and its parse. *)
Definition storedText : string :=
  "{" +:+ quote +:+ "id" +:+ quote +:+ ":" +:+ quote +:+ "resume_k3v9x2ab" +:+ quote
  +:+ "," +:+ quote +:+ "sections" +:+ quote +:+ ":[]}".

Definition storedProps : Props :=
  [("id", JStr "resume_k3v9x2ab"); ("sections", JArr [])].

(** A serialiser for the examples: JSON text without white space, with
    quotes and backslashes escaped. *)
Fixpoint escape (s : string) : string :=
  match s with
  | EmptyString => EmptyString
  | String c rest =>
      if Ascii.eqb c "034" || Ascii.eqb c "\"
      then String "\" (String c (escape rest))
      else String c (escape rest)
  end.

Definition quoted (s : string) : string := quote +:+ escape s +:+ quote.

Definition digits (n : Z) : string := NilEmpty.string_of_int (Z.to_int n).

Fixpoint json_text (v : JValue) : string :=
  match v with
  | JNull => "null"
  | JBool true => "true"
  | JBool false => "false"
  | JNum n => digits n
  | JStr s => quoted s
  | JArr items =>
      "[" +:+ String.concat "," (map json_text items) +:+ "]"
  | JObj ps =>
      "{" +:+ String.concat ","
                (map (fun kv => quoted (fst kv) +:+ ":" +:+ json_text (snd kv)) ps)
      +:+ "}"
  end.

Definition example_stringify (d : ResumeDoc) : string := json_text (doc_to_json d).

Definition always_accepts (text : string) : bool := true.

Definition earlierCommits : list (Z * Updater) :=
  [(1700000000000%Z, Update (setTheme_updater accentPatch));
   (1700000000200%Z, Update (reorderSections_updater ["s3"; "s2"; "s1"]))].

Definition pendingWorld : World :=
  committed 1700000000000 threeSections [] (world_of threeSections).

(** The loop of [deepSet] followed by the final assignment. *)
Definition deepSet_run (keys : list string) (lastKey : string) (value : JValue)
    (w : Walk) : Outcome JValue :=
  bindO (deepSet_loop keys w)
    (fun w' => write_path (root w') (current w') lastKey value).

(** ** Mutations as data

    The five mutating operations of the store, to speak of sequences of
    calls. *)

Inductive Mutation :=
| UpdateField (sectionId blockId path : string) (value : JValue)
| AddBlock (rnd36 : string) (sectionId : string) (blockTemplate : Block)
| RemoveBlock (sectionId blockId : string)
| ReorderSections (newOrderIds : list string)
| SetTheme (partialTheme : Props).

Definition mutate (now : Z) (m : Mutation) : World -> Outcome World :=
  match m with
  | UpdateField sectionId blockId path value =>
      updateField now sectionId blockId path value
  | AddBlock rnd36 sectionId blockTemplate =>
      addBlock rnd36 now sectionId blockTemplate
  | RemoveBlock sectionId blockId => removeBlock now sectionId blockId
  | ReorderSections newOrderIds => reorderSections now newOrderIds
  | SetTheme partialTheme => setTheme now partialTheme
  end.

(** Calls made one after the other, each at its own time; a call that
    throws ends the run. *)
Fixpoint mutate_all (calls : list (Z * Mutation)) (w : World) : Outcome World :=
  match calls with
  | [] => Returned w
  | (now, m) :: rest => bindO (mutate now m w) (mutate_all rest)
  end.

Definition is_updateField (m : Mutation) : Prop :=
  match m with
  | UpdateField _ _ _ _ => True
  | _ => False
  end.

(** The ids, types and titles of the sections and of their blocks, in
    order: everything of the sections but the fields. *)
Definition block_outline (b : Block) : string * string :=
  (block_id b, block_type b).

Definition section_outline (s : Section)
  : string * string * string * option bool * list (string * string) :=
  (section_id s, section_type s, section_title s, hidden s,
   map block_outline (blocks s)).

Definition outline (d : ResumeDoc) := map section_outline (sections d).

(** Runs of calls on the sample document, for the examples. *)
Definition headerEdits : list (Z * Mutation) :=
  [(1700000000000%Z,
    UpdateField "header_section" "header_block_001" "name" (JStr "Jane Doe"));
   (1700000000040%Z,
    UpdateField "experience_section" "experience_block_001" "highlights.0"
      (JStr "Led the platform team"));
   (1700000000090%Z,
    UpdateField "skills_section" "ghost_block" "items" JNull)].

Definition sampleEdits : list (Z * Mutation) :=
  headerEdits ++
  [(1700000000300%Z, AddBlock "0.4fzyo82mvyr" "experience_section" engineerTemplate);
   (1700000000700%Z, ReorderSections ["skills_section"; "header_section"]);
   (1700000000900%Z, SetTheme accentPatch)].

Definition block_named (id : string) : Block :=
  {| block_id := id; block_type := "custom"; fields := JObj [] |}.

(** Three sections, the second with two blocks; and a document whose only
    block has [null] for fields. *)
Definition twoBlocks : ResumeDoc :=
  with_sections threeSections
    [section_named "s1";
     with_blocks (section_named "s2") [block_named "b1"; block_named "b2"];
     section_named "s3"].

Definition nullFields : ResumeDoc :=
  with_sections threeSections
    [with_blocks (section_named "s1") [with_fields (block_named "b1") JNull]].

(** How often a character occurs in a string. *)
Fixpoint count_char (c : ascii) (s : string) : nat :=
  match s with
  | EmptyString => 0
  | String c' rest => (if Ascii.eqb c' c then 1 else 0) + count_char c rest
  end.

Definition never_accepts (text : string) : bool := false.

(** ** Callers of the store

    The handlers of the section editors and of the preview.  A handler
    reads the document that its component rendered, which is the document of
    the store at the time of the call. *)

Definition has_section_type (sectionType : string) (s : Section) : bool :=
  String.eqb (section_type s) sectionType.

(** The block that [handleAddExperience] builds; [rnd36] is the rendering
    of the random number drawn by its [uid('exp')]. *)
Definition newExperienceBlock (rnd36 : string) : Block :=
  {| block_id := uid rnd36 (Some "exp");
     block_type := "experience";
     fields := JObj [("role", JStr EmptyString); ("company", JStr EmptyString);
                     ("location", JStr EmptyString); ("startDate", JStr EmptyString);
                     ("endDate", JStr EmptyString); ("highlights", JArr []);
                     ("description", JStr EmptyString); ("skills", JArr [])] |}.

(** [handleAddExperience]: the handler draws its random number before the
    store draws its own. *)
Definition handleAddExperience (rndHandler rndStore : string) (now : Z) (w : World)
  : Outcome World :=
  match List.find (has_section_type "experience") (sections (doc (store w))) with
  | None => Returned w
  | Some experienceSection =>
      addBlock rndStore now (section_id experienceSection)
        (newExperienceBlock rndHandler) w
  end.

Definition handleDeleteExperience (now : Z) (blockId : string) (w : World)
  : Outcome World :=
  match List.find (has_section_type "experience") (sections (doc (store w))) with
  | None => Returned w
  | Some experienceSection => removeBlock now (section_id experienceSection) blockId w
  end.

(** The block that [handleAddEducation] builds. *)
Definition newEducationBlock (rnd36 : string) : Block :=
  {| block_id := uid rnd36 (Some "edu");
     block_type := "education";
     fields := JObj [("degree", JStr EmptyString); ("school", JStr EmptyString);
                     ("location", JStr EmptyString); ("startDate", JStr EmptyString);
                     ("endDate", JStr EmptyString); ("gpa", JStr EmptyString);
                     ("coursework", JArr []); ("description", JStr EmptyString)] |}.

Definition handleAddEducation (rndHandler rndStore : string) (now : Z) (w : World)
  : Outcome World :=
  match List.find (has_section_type "education") (sections (doc (store w))) with
  | None => Returned w
  | Some educationSection =>
      addBlock rndStore now (section_id educationSection)
        (newEducationBlock rndHandler) w
  end.

Definition handleDeleteEducation (now : Z) (blockId : string) (w : World)
  : Outcome World :=
  match List.find (has_section_type "education") (sections (doc (store w))) with
  | None => Returned w
  | Some educationSection => removeBlock now (section_id educationSection) blockId w
  end.

(** [handlePaperSizeChange] of the preview:
    [setTheme({layout: {...doc.theme?.layout, paper: newSize}})]. *)
Definition handlePaperSizeChange (now : Z) (newSize : string) (w : World)
  : Outcome World :=
  setTheme now
    [("layout",
      JObj (assoc_set (spread [] (assoc_get "layout" (theme (doc (store w)))))
              "paper" (JStr newSize)))] w.

(** [handleFontFamilyChange] and [handleFontScaleChange] of the theme panel. *)
Definition handleFontFamilyChange (now : Z) (value : JValue) : World -> Outcome World :=
  setTheme now [("fontFamily", value)].

Definition handleFontScaleChange (now : Z) (value : JValue) : World -> Outcome World :=
  setTheme now [("fontScale", value)].

(** [handleSectionSpacingChange] of the theme panel:
    [setTheme({spacing: {...theme.spacing, sectionY: value}})]. *)
Definition handleSectionSpacingChange (now : Z) (value : JValue) (w : World)
  : Outcome World :=
  setTheme now
    [("spacing",
      JObj (assoc_set (spread [] (assoc_get "spacing" (theme (doc (store w)))))
              "sectionY" value))] w.

(** A document without a section of type "experience" or "education". *)
Definition headerOnly : ResumeDoc :=
  with_sections (sampleResume 1699999990000 1699999990000)
    (firstn 2 (sections (sampleResume 1699999990000 1699999990000))).

(** A theme in which, as in every JavaScript object, each key occurs once:
    in the theme itself and in its three groups. *)
Definition well_formed_theme (t : Props) : Prop :=
  unique_keys t /\
  forall g, In g theme_groups -> unique_keys (own_props (assoc_get g t)).

(** A section whose block already has the id that the store will generate
    from the rendering "0.4fzyo82mvyr" for a block of type "experience". *)
Definition clashingBlock : ResumeDoc :=
  with_sections threeSections
    [section_named "s1";
     with_blocks (section_named "s2") [block_named "experience_4fzyo82m"]].

(** ** The validators of stored and transmitted documents *)

Definition is_array (x : option JValue) : bool :=
  match x with
  | Some (JArr _) => true
  | _ => false
  end.

(** The condition of [loadFromStorage], line 44. *)
Definition storage_check (parsed : JValue) : bool :=
  truthy (Some parsed) && truthy (prop (Some parsed) "id")
  && truthy (prop (Some parsed) "sections")
  && is_array (prop (Some parsed) "sections").

(** [validateResumeDoc] of the PDF export; its argument may be anything,
    [undefined] included. *)
Definition validateResumeDoc (d : option JValue) : bool :=
  if not_an_object d then false
  else if negb (truthy (prop d "id"))
          || negb (String.eqb (typeof (prop d "id")) "string") then false
  else if negb (is_array (prop d "sections")) then false
  else true.

(** The check of the print page on the parsed document: reading a property
    of [null] throws, which the page catches like its own error. *)
Definition printPage_accepts (parsedDoc : JValue) : bool :=
  match parsedDoc with
  | JNull => false
  | _ =>
      if negb (truthy (prop (Some parsedDoc) "id"))
         || negb (is_array (prop (Some parsedDoc) "sections"))
      then false else true
  end.

(** The options that [exportPdf] computes from the paper size,
    [doc.theme?.layout?.paper || 'A4']. *)
Record PdfOptions := {
  format : string;
  width : option string;
  height : option string;
  margin_top : string;
  margin_right : string;
  margin_bottom : string;
  margin_left : string }.

(** Line 62.  When the document is [null] the function has failed before
    it gets there: line 45 reads [doc.id], and the handler at lines 101-103
    throws again with its own prefix (the text of the [TypeError] is that of
    V8). *)
Definition paperSize (d : JValue) : Outcome JValue :=
  match d with
  | JNull =>
      Thrown "PDF generation failed: Cannot read properties of null (reading 'id')"
  | _ =>
      let paper := prop (prop (prop (Some d) "theme") "layout") "paper" in
      match paper with
      | Some p => Returned (if truthy paper then p else JStr "A4")
      | None => Returned (JStr "A4")
      end
  end.

Definition is_Letter (v : JValue) : bool :=
  match v with
  | JStr s => String.eqb s "Letter"
  | _ => false
  end.

Definition letterOptions : PdfOptions :=
  {| format := "Letter"; width := Some "8.5in"; height := Some "11in";
     margin_top := "0.5in"; margin_right := "0.5in";
     margin_bottom := "0.5in"; margin_left := "0.5in" |}.

Definition a4Options : PdfOptions :=
  {| format := "A4"; width := None; height := None;
     margin_top := "12mm"; margin_right := "12mm";
     margin_bottom := "12mm"; margin_left := "12mm" |}.

Definition pdfOptions (d : JValue) : Outcome PdfOptions :=
  bindO (paperSize d) (fun size =>
    Returned (if is_Letter size then letterOptions else a4Options)).

(** ** Colours *)

(** The class [[a-f\d]] of the expression in [hexToRgb], read with the flag
    [i], and the value that [parseInt(_, 16)] gives a character of it. *)
Definition hex_value (c : ascii) : option N :=
  let n := N_of_ascii c in
  if ((48 <=? n) && (n <=? 57))%N then Some (n - 48)%N
  else if ((97 <=? n) && (n <=? 102))%N then Some (n - 87)%N
  else if ((65 <=? n) && (n <=? 70))%N then Some (n - 55)%N
  else None.

Definition is_hex_digit (c : ascii) : bool :=
  match hex_value c with
  | Some _ => true
  | None => false
  end.

(** [/^#?([a-f\d]{2})([a-f\d]{2})([a-f\d]{2})$/i.exec(hex)]: the three
    groups, or [None] for [null]. *)
Definition exec_hex (hex : string) : option (string * string * string) :=
  let body := match hex with
              | String "#" rest => rest
              | _ => hex
              end in
  if (String.length body =? 6)%nat && forallb is_hex_digit (list_ascii_of_string body)
  then Some (substring 0 2 body, substring 2 2 body, substring 4 2 body)
  else None.

(** [parseInt(s, 16)] on a group of the expression: the digits are read
    from the left, up to the first character that is no digit. *)
Fixpoint parseInt16_from (acc : N) (s : string) : N :=
  match s with
  | EmptyString => acc
  | String c rest =>
      match hex_value c with
      | Some v => parseInt16_from (16 * acc + v)%N rest
      | None => acc
      end
  end.

Definition parseInt16 (s : string) : N := parseInt16_from 0%N s.

Definition hexToRgb (hex : string) : Outcome (N * N * N) :=
  match exec_hex hex with
  | None => Thrown ("Invalid hex color: " +:+ hex)
  | Some (g1, g2, g3) => Returned (parseInt16 g1, parseInt16 g2, parseInt16 g3)
  end.

Definition startsWith_hash (color : string) : bool :=
  match color with
  | String "#" _ => true
  | _ => false
  end.

Definition includes_percent (color : string) : bool :=
  existsb (Ascii.eqb "%") (list_ascii_of_string color).

(** [colorToRgb]; [hslToRgb] computes with floating-point numbers and is
    taken as given. *)
Definition colorToRgb (hslToRgb : string -> Outcome (N * N * N)) (color : string)
  : Outcome (N * N * N) :=
  if startsWith_hash color then hexToRgb color
  else if includes_percent color then hslToRgb color
  else Thrown ("Unsupported color format: " +:+ color).

(** The text that the theme panel builds from three channel values,
    [`#${[r, g, b].map(x => x.toString(16).padStart(2, '0')).join('')}`],
    for channel values that are non-negative integers. *)
Definition toString16 (x : N) : string :=
  HexadecimalString.NilEmpty.string_of_uint (N.to_hex_uint x).

Definition padStart2 (s : string) : string :=
  match String.length s with
  | 0%nat => "00" +:+ s
  | 1%nat => "0" +:+ s
  | _ => s
  end.

Definition formatHex (r g b : N) : string :=
  "#" +:+ padStart2 (toString16 r) +:+ padStart2 (toString16 g)
      +:+ padStart2 (toString16 b).

(** * Properties *)

(** ** Copies, lookups and commits *)

Lemma clone_value_id : forall v, clone_value v = v.
Proof.
  fix IH 1. intros [ | b | n | s | items | ps]; simpl; try reflexivity.
  - f_equal. induction items as [ | x xs IHxs]; simpl.
    + reflexivity.
    + rewrite (IH x), IHxs. reflexivity.
  - f_equal. induction ps as [ | [k x] xs IHxs]; simpl.
    + reflexivity.
    + rewrite (IH x), IHxs. reflexivity.
Qed.

Lemma map_id_on {A : Type} (f : A -> A) (l : list A) :
  (forall x, f x = x) -> map f l = l.
Proof.
  intros Hf. induction l as [ | x xs IH]; simpl; [reflexivity | ].
  rewrite Hf, IH. reflexivity.
Qed.

Lemma clone_block_id : forall b, clone_block b = b.
Proof. intros [i t f]. unfold clone_block; simpl. rewrite clone_value_id. reflexivity. Qed.

Lemma clone_section_id : forall s, clone_section s = s.
Proof.
  intros [i t ti bs h]. unfold clone_section; simpl.
  rewrite (map_id_on clone_block), ?clone_block_id; auto using clone_block_id.
Qed.

Lemma JSON_clone_id : forall d, JSON_clone d = d.
Proof.
  intros [i [t c u] th ss]. unfold JSON_clone; simpl.
  rewrite (map_id_on clone_section) by apply clone_section_id.
  rewrite (map_id_on (fun kv : string * JValue => (fst kv, clone_value (snd kv)))).
  - reflexivity.
  - intros [k v]; simpl. rewrite clone_value_id. reflexivity.
Qed.

Lemma setDoc_Update now f w newDoc warnings :
  f (doc (store w)) = Returned (newDoc, warnings) ->
  setDoc now (Update f) w = Returned (committed now newDoc warnings w).
Proof. intros Hf. unfold setDoc. rewrite Hf. reflexivity. Qed.

Lemma setDoc_NewDoc now d w :
  setDoc now (NewDoc d) w = Returned (committed now d [] w).
Proof. reflexivity. Qed.

Lemma find_none_iff {A : Type} (p : A -> bool) (l : list A) :
  List.find p l = None <-> (forall x, In x l -> p x = false).
Proof.
  split.
  - apply find_none.
  - induction l as [ | x xs IH]; simpl; intros H; [reflexivity | ].
    rewrite (H x) by (left; reflexivity). apply IH. intros y Hy. apply H. right; exact Hy.
Qed.

(** ** reorderSections *)

Lemma sectionMap_snoc ss s :
  sectionMap (ss ++ [s]) = <[section_id s := s]> (sectionMap ss).
Proof. unfold sectionMap. rewrite foldl_snoc. reflexivity. Qed.

(** The map answers with the last section that carries the id. *)
Lemma sectionMap_lookup ss id :
  sectionMap ss !! id = List.find (has_section_id id) (rev ss).
Proof.
  induction ss as [ | s ss IH] using rev_ind.
  - reflexivity.
  - rewrite sectionMap_snoc, rev_unit. simpl. unfold has_section_id at 1.
    destruct (String.eqb_spec (section_id s) id) as [Heq | Hne].
    + subst id. apply lookup_insert_eq.
    + rewrite lookup_insert_ne by exact Hne. exact IH.
Qed.

Lemma reorderSections_returns now ids w :
  reorderSections now ids w =
  Returned
    (committed now
       (with_sections (doc (store w))
          (omap (fun id => List.find (has_section_id id)
                             (rev (sections (doc (store w))))) ids)) [] w).
Proof.
  unfold reorderSections. erewrite setDoc_Update; [reflexivity | ].
  unfold reorderSections_updater. rewrite JSON_clone_id.
  do 3 f_equal.
  induction ids as [ | id ids IH]; [reflexivity | ].
  csimpl. rewrite sectionMap_lookup, IH. reflexivity.
Qed.

Lemma find_rev_existsb {A : Type} (p : A -> bool) (l : list A) :
  existsb p l = match List.find p (rev l) with Some _ => true | None => false end.
Proof.
  destruct (List.find p (rev l)) as [x | ] eqn:Hf.
  - apply find_some in Hf as [Hin Hp]. apply existsb_exists.
    exists x. split; [ | exact Hp]. apply in_rev. exact Hin.
  - apply not_true_is_false. intros Hex. apply existsb_exists in Hex as [x [Hin Hp]].
    rewrite (proj1 (find_none_iff p (rev l)) Hf x) in Hp; [discriminate | ].
    apply in_rev in Hin. exact Hin.
Qed.

Lemma reordered_ids ss ids :
  map section_id (omap (fun id => List.find (has_section_id id) (rev ss)) ids) =
  List.filter (fun id => existsb (has_section_id id) ss) ids.
Proof.
  induction ids as [ | id ids IH]; [reflexivity | ].
  csimpl. rewrite (find_rev_existsb (has_section_id id) ss).
  destruct (List.find (has_section_id id) (rev ss)) as [s | ] eqn:Hf; csimpl.
  - apply find_some in Hf as [_ Hid]. unfold has_section_id in Hid.
    apply String.eqb_eq in Hid. rewrite Hid, IH. reflexivity.
  - exact IH.
Qed.

(** C4. [reorderSections(newOrderIds)] commits as [sections] the list
    obtained by mapping [newOrderIds] through the id-to-Section lookup over
    the current sections: an id without a matching section is dropped
    silently, the call returns and nothing is written to the console whatever
    the ids are; and a current section whose id is not among [newOrderIds]
    does not appear in the result.  In particular, with three sections of
    distinct ids [s1, s2, s3], [reorderSections([s3, s1])] commits the
    sections [s3, s1] without [s2]; and an id that no section has can be
    left out of [newOrderIds] without any difference in the sections
    committed. *)
Theorem reorderSections_maps_ids_through_lookup :
  (forall (now : Z) (newOrderIds : list string) (w : World),
    exists w',
      reorderSections now newOrderIds w = Returned w' /\
      sections (doc (store w')) =
        omap (fun id => List.find (has_section_id id)
                          (rev (sections (doc (store w))))) newOrderIds /\
      map section_id (sections (doc (store w'))) =
        List.filter (fun id => existsb (has_section_id id)
                                 (sections (doc (store w)))) newOrderIds /\
      (forall s, In s (sections (doc (store w))) ->
                 ~ In (section_id s) newOrderIds ->
                 ~ In (section_id s) (map section_id (sections (doc (store w'))))) /\
      console w' = console w)
  /\
  (forall (now : Z) (w : World) (s1 s2 s3 : Section),
    sections (doc (store w)) = [s1; s2; s3] ->
    section_id s1 <> section_id s2 ->
    section_id s1 <> section_id s3 ->
    section_id s2 <> section_id s3 ->
    exists w',
      reorderSections now [section_id s3; section_id s1] w = Returned w' /\
      sections (doc (store w')) = [s3; s1] /\
      ~ In (section_id s2) (map section_id (sections (doc (store w')))) /\
      console w' = console w)
  /\
  (forall (now : Z) (w : World) (ghost : string) (newOrderIds : list string),
    ~ In ghost (map section_id (sections (doc (store w)))) ->
    exists w' w'',
      reorderSections now (ghost :: newOrderIds) w = Returned w' /\
      reorderSections now newOrderIds w = Returned w'' /\
      sections (doc (store w')) = sections (doc (store w'')) /\
      console w' = console w).
Proof.
  split; [ | split].
  - intros now ids w. eexists. split; [apply reorderSections_returns | ].
    simpl. split; [reflexivity | ]. split; [apply reordered_ids | ].
    split; [ | apply app_nil_r].
    intros s _ Hnot Hin. rewrite reordered_ids in Hin.
    apply filter_In in Hin as [Hin _]. exact (Hnot Hin).
  - intros now w s1 s2 s3 Hss H12 H13 H23.
    eexists. split; [apply reorderSections_returns | ]. simpl. rewrite Hss.
    assert (Hsame : forall s, has_section_id (section_id s) s = true)
      by (intros s; apply String.eqb_refl).
    assert (Hdiff : forall a b, section_id a <> section_id b ->
                                has_section_id (section_id b) a = false)
      by (intros a b Hab; apply String.eqb_neq; exact Hab).
    csimpl. rewrite !Hsame, (Hdiff s3 s1), (Hdiff s2 s1) by congruence.
    split; [reflexivity | ]. split; [ | apply app_nil_r].
    simpl. intros [H | [H | []]]; congruence.
  - intros now w ghost ids Hghost.
    eexists. eexists. split; [apply reorderSections_returns | ].
    split; [apply reorderSections_returns | ]. simpl.
    split; [ | apply app_nil_r]. csimpl.
    assert (Hnone : List.find (has_section_id ghost) (rev (sections (doc (store w))))
                    = None).
    { apply find_none_iff. intros x Hx. apply in_rev in Hx.
      apply String.eqb_neq. intros Heq. apply Hghost. rewrite <- Heq.
      apply in_map. exact Hx. }
    rewrite Hnone. reflexivity.
Qed.

Lemma reorderSections_maps_ids_through_lookup_witness :
  (sections (doc (store (world_of threeSections))) =
     [section_named "s1"; section_named "s2"; section_named "s3"] /\
   section_id (section_named "s1") <> section_id (section_named "s2") /\
   section_id (section_named "s1") <> section_id (section_named "s3") /\
   section_id (section_named "s2") <> section_id (section_named "s3") /\
   exists w',
     reorderSections 1700000000000 ["s3"; "s1"] (world_of threeSections)
       = Returned w' /\
     sections (doc (store w')) = [section_named "s3"; section_named "s1"] /\
     ~ In "s2" (map section_id (sections (doc (store w')))) /\
     console w' = console (world_of threeSections))
  /\
  (~ In "ghost_section" (map section_id (sections (doc (store (world_of threeSections))))) /\
   exists w' w'',
     reorderSections 1700000000000 ["ghost_section"; "s3"; "s1"] (world_of threeSections)
       = Returned w' /\
     reorderSections 1700000000000 ["s3"; "s1"] (world_of threeSections)
       = Returned w'' /\
     sections (doc (store w')) = sections (doc (store w'')) /\
     console w' = console (world_of threeSections)).
Proof.
  assert (H12 : section_id (section_named "s1") <> section_id (section_named "s2"))
    by (simpl; discriminate).
  assert (H13 : section_id (section_named "s1") <> section_id (section_named "s3"))
    by (simpl; discriminate).
  assert (H23 : section_id (section_named "s2") <> section_id (section_named "s3"))
    by (simpl; discriminate).
  assert (Hghost : ~ In "ghost_section"
                     (map section_id (sections (doc (store (world_of threeSections))))))
    by (simpl; intuition discriminate).
  split.
  - repeat (split; [assumption || reflexivity | ]).
    exact (proj1 (proj2 reorderSections_maps_ids_through_lookup) 1700000000000%Z
             (world_of threeSections) (section_named "s1") (section_named "s2")
             (section_named "s3") eq_refl H12 H13 H23).
  - split; [exact Hghost | ].
    exact (proj2 (proj2 reorderSections_maps_ids_through_lookup) 1700000000000%Z
             (world_of threeSections) "ghost_section" ["s3"; "s1"] Hghost).
Defined.

Lemma find_has_section_id id l s :
  List.find (has_section_id id) l = Some s -> section_id s = id /\ In s l.
Proof.
  intros Hf. apply find_some in Hf as [Hin Hid].
  split; [apply String.eqb_eq; exact Hid | exact Hin].
Qed.

Lemma filter_reordered ss ids i s' :
  List.find (has_section_id i) (rev ss) = Some s' ->
  List.filter (has_section_id i)
    (omap (fun id => List.find (has_section_id id) (rev ss)) ids) =
  repeat s' (count_occ string_dec ids i).
Proof.
  intros Hs'. induction ids as [ | id ids IH]; [reflexivity | ].
  csimpl. destruct (string_dec id i) as [-> | Hne].
  - rewrite Hs'. csimpl.
    destruct (find_has_section_id _ _ _ Hs') as [Hid _].
    unfold has_section_id at 1. rewrite Hid, String.eqb_refl, IH. reflexivity.
  - destruct (List.find (has_section_id id) (rev ss)) as [x | ] eqn:Hx; csimpl.
    + destruct (find_has_section_id _ _ _ Hx) as [Hid _].
      unfold has_section_id at 1. rewrite Hid.
      rewrite (proj2 (String.eqb_neq id i) Hne). exact IH.
    + exact IH.
Qed.

Lemma count_occ_filter_true (f : string -> bool) ids i :
  f i = true -> count_occ string_dec (List.filter f ids) i = count_occ string_dec ids i.
Proof.
  intros Hf. induction ids as [ | id ids IH]; [reflexivity | ].
  simpl. destruct (string_dec id i) as [-> | Hne].
  - rewrite Hf. simpl. destruct (string_dec i i); [ | congruence]. rewrite IH. reflexivity.
  - destruct (f id); simpl; [ | exact IH].
    destruct (string_dec id i); [congruence | exact IH].
Qed.

(** C10. When the id of an existing section occurs more than once in
    [newOrderIds], [reorderSections] commits a document in which the section
    found under that id appears once per occurrence, so the committed
    sections carry a duplicate id: the operation does not enforce
    uniqueness of ids. *)
Theorem reorderSections_repeats_a_section :
  forall (now : Z) (newOrderIds : list string) (w : World) (s : Section),
    In s (sections (doc (store w))) ->
    (1 < count_occ string_dec newOrderIds (section_id s))%nat ->
    exists w' s',
      reorderSections now newOrderIds w = Returned w' /\
      List.find (has_section_id (section_id s))
        (rev (sections (doc (store w)))) = Some s' /\
      (List.NoDup (map section_id (sections (doc (store w)))) -> s' = s) /\
      List.filter (has_section_id (section_id s)) (sections (doc (store w'))) =
        repeat s' (count_occ string_dec newOrderIds (section_id s)) /\
      ~ List.NoDup (map section_id (sections (doc (store w')))).
Proof.
  intros now ids w s Hin Hcount.
  set (ss := sections (doc (store w))) in *.
  assert (Hex : existsb (has_section_id (section_id s)) ss = true).
  { apply existsb_exists. exists s. split; [exact Hin | apply String.eqb_refl]. }
  destruct (List.find (has_section_id (section_id s)) (rev ss)) as [s' | ] eqn:Hs'.
  2:{ rewrite find_rev_existsb, Hs' in Hex. discriminate. }
  exists (committed now (with_sections (doc (store w))
            (omap (fun id => List.find (has_section_id id) (rev ss)) ids)) [] w), s'.
  split; [apply reorderSections_returns | ].
  split; [reflexivity | ]. simpl. split; [ | split].
  - intros Hnodup. destruct (find_has_section_id _ _ _ Hs') as [Hid Hin'].
    apply in_rev in Hin'. clear - Hnodup Hid Hin Hin'.
    induction ss as [ | x xs IH]; [destruct Hin | ].
    simpl in Hnodup. inversion Hnodup as [ | ? ? Hnotin Hnd]; subst.
    destruct Hin as [-> | Hin], Hin' as [-> | Hin']; auto.
    + exfalso. apply Hnotin. rewrite <- Hid. apply in_map. exact Hin'.
    + exfalso. apply Hnotin. rewrite Hid. apply in_map. exact Hin.
  - apply filter_reordered. exact Hs'.
  - intros Hnodup. rewrite reordered_ids in Hnodup.
    rewrite (NoDup_count_occ string_dec) in Hnodup.
    specialize (Hnodup (section_id s)).
    rewrite (count_occ_filter_true _ _ _ Hex) in Hnodup. lia.
Qed.

Lemma reorderSections_repeats_a_section_witness :
  In (section_named "s2") (sections (doc (store (world_of threeSections)))) /\
  (1 < count_occ string_dec ["s2"; "s1"; "s2"] (section_id (section_named "s2")))%nat /\
  exists w' s',
    reorderSections 1700000000000 ["s2"; "s1"; "s2"] (world_of threeSections)
      = Returned w' /\
    List.find (has_section_id (section_id (section_named "s2")))
      (rev (sections (doc (store (world_of threeSections))))) = Some s' /\
    (List.NoDup (map section_id (sections (doc (store (world_of threeSections)))))
       -> s' = section_named "s2") /\
    List.filter (has_section_id (section_id (section_named "s2")))
      (sections (doc (store w'))) =
      repeat s' (count_occ string_dec ["s2"; "s1"; "s2"]
                   (section_id (section_named "s2"))) /\
    ~ List.NoDup (map section_id (sections (doc (store w')))).
Proof.
  assert (Hin : In (section_named "s2")
                  (sections (doc (store (world_of threeSections)))))
    by (simpl; auto).
  assert (Hc : (1 < count_occ string_dec ["s2"; "s1"; "s2"]
                      (section_id (section_named "s2")))%nat)
    by (vm_compute; lia).
  split; [exact Hin | ]. split; [exact Hc | ].
  exact (reorderSections_repeats_a_section 1700000000000%Z ["s2"; "s1"; "s2"]
           (world_of threeSections) (section_named "s2") Hin Hc).
Defined.

(** ** setTheme *)

Lemma assoc_get_set_eq {A : Type} (ps : list (string * A)) k v :
  assoc_get k (assoc_set ps k v) = Some v.
Proof.
  induction ps as [ | [k' v'] ps IH]; simpl.
  - rewrite String.eqb_refl. reflexivity.
  - destruct (String.eqb k' k) eqn:E; simpl.
    + rewrite String.eqb_refl. reflexivity.
    + rewrite E. exact IH.
Qed.

Lemma assoc_get_set_ne {A : Type} (ps : list (string * A)) k k' v :
  k <> k' -> assoc_get k (assoc_set ps k' v) = assoc_get k ps.
Proof.
  intros Hne. induction ps as [ | [k0 v0] ps IH]; simpl.
  - rewrite (proj2 (String.eqb_neq k' k)) by congruence. reflexivity.
  - destruct (String.eqb k0 k') eqn:E; simpl.
    + apply String.eqb_eq in E. subst k0.
      rewrite (proj2 (String.eqb_neq k' k)) by congruence. reflexivity.
    + destruct (String.eqb k0 k); [reflexivity | exact IH].
Qed.

Lemma assoc_get_absent {A : Type} (ps : list (string * A)) k :
  ~ In k (map fst ps) -> assoc_get k ps = None.
Proof.
  induction ps as [ | [k' v'] ps IH]; simpl; intros Hnot; [reflexivity | ].
  destruct (String.eqb_spec k' k) as [-> | Hne]; [tauto | apply IH; tauto].
Qed.

(** Per key, a spread source wins over what it is spread onto. *)
Lemma assoc_get_spread (acc : Props) (src : option JValue) k :
  unique_keys (own_props src) ->
  assoc_get k (spread acc src) =
  match assoc_get k (own_props src) with
  | Some v => Some v
  | None => assoc_get k acc
  end.
Proof.
  unfold spread, unique_keys. generalize (own_props src) as ps. clear src.
  intros ps. revert acc.
  induction ps as [ | [k0 v0] ps IH]; intros acc Hnd; simpl; [reflexivity | ].
  simpl in Hnd. inversion Hnd as [ | ? ? Hnotin Hnd']; subst.
  rewrite IH by exact Hnd'.
  destruct (String.eqb_spec k0 k) as [-> | Hne].
  - rewrite (assoc_get_absent ps k Hnotin). apply assoc_get_set_eq.
  - destruct (assoc_get k ps); [reflexivity | ].
    apply assoc_get_set_ne. congruence.
Qed.

Lemma setTheme_returns now patch w :
  setTheme now patch w =
  Returned
    (committed now
       (with_theme (doc (store w))
          (assoc_set
             (assoc_set
                (assoc_set
                   (spread (spread [] (Some (JObj (theme (doc (store w))))))
                      (Some (JObj patch)))
                   "colors" (merge_group "colors" (theme (doc (store w))) patch))
                "spacing" (merge_group "spacing" (theme (doc (store w))) patch))
             "layout" (merge_group "layout" (theme (doc (store w))) patch)))
       [] w).
Proof. reflexivity. Qed.

Lemma merged_group_lookup g (t0 : Props) old patch :
  In g theme_groups ->
  assoc_get g
    (assoc_set
       (assoc_set (assoc_set t0 "colors" (merge_group "colors" old patch))
          "spacing" (merge_group "spacing" old patch))
       "layout" (merge_group "layout" old patch)) =
  Some (merge_group g old patch).
Proof.
  intros [<- | [<- | [<- | []]]].
  - rewrite !assoc_get_set_ne by discriminate. apply assoc_get_set_eq.
  - rewrite assoc_get_set_ne by discriminate. apply assoc_get_set_eq.
  - apply assoc_get_set_eq.
Qed.

(** C3. [setTheme(partialTheme)] merges each of the groups [colors],
    [spacing] and [layout] on its own, key by key: a key of the patch's group
    wins, a key the patch omits keeps its previous value.  Every other
    top-level key of the theme ([fontFamily], [fontScale], ...) takes the
    patch's value when the patch has the key and keeps its own otherwise.  In
    particular, when [theme.colors] is
    [{primary:"#000", accent:"#fff", muted:"#888"}], the patch
    [{colors:{accent:"#111"}}] yields
    [{primary:"#000", accent:"#111", muted:"#888"}]. *)
Theorem setTheme_merges_each_group :
  (forall (now : Z) (partialTheme : Props) (w : World),
    unique_keys (theme (doc (store w))) ->
    unique_keys partialTheme ->
    exists w',
      setTheme now partialTheme w = Returned w' /\
      (forall g, In g theme_groups ->
         unique_keys (own_props (assoc_get g (theme (doc (store w))))) ->
         unique_keys (own_props (assoc_get g partialTheme)) ->
         exists merged,
           assoc_get g (theme (doc (store w'))) = Some (JObj merged) /\
           forall k,
             assoc_get k merged =
             match assoc_get k (own_props (assoc_get g partialTheme)) with
             | Some v => Some v
             | None => assoc_get k (own_props (assoc_get g (theme (doc (store w)))))
             end) /\
      (forall k, ~ In k theme_groups ->
         assoc_get k (theme (doc (store w'))) =
         match assoc_get k partialTheme with
         | Some v => Some v
         | None => assoc_get k (theme (doc (store w)))
         end))
  /\
  (forall (now : Z) (w : World),
    assoc_get "colors" (theme (doc (store w))) =
      Some (JObj [("primary", JStr "#000"); ("accent", JStr "#fff");
                  ("muted", JStr "#888")]) ->
    exists w',
      setTheme now [("colors", JObj [("accent", JStr "#111")])] w = Returned w' /\
      assoc_get "colors" (theme (doc (store w'))) =
        Some (JObj [("primary", JStr "#000"); ("accent", JStr "#111");
                    ("muted", JStr "#888")])).
Proof.
  split.
  - intros now patch w Hold Hpatch. eexists. split; [apply setTheme_returns | ].
    simpl. split.
    + intros g Hg Hog Hpg. eexists. split.
      * rewrite (merged_group_lookup g _ _ _ Hg). reflexivity.
      * intros k. rewrite assoc_get_spread by exact Hpg.
        destruct (assoc_get k (own_props (assoc_get g patch))); [reflexivity | ].
        rewrite assoc_get_spread by exact Hog.
        destruct (assoc_get k (own_props (assoc_get g (theme (doc (store w))))));
          reflexivity.
    + intros k Hk. unfold theme_groups in Hk. simpl in Hk.
      rewrite !assoc_get_set_ne by (intros ->; tauto).
      rewrite assoc_get_spread by exact Hpatch. simpl.
      destruct (assoc_get k patch); [reflexivity | ].
      rewrite assoc_get_spread by exact Hold. simpl.
      destruct (assoc_get k (theme (doc (store w)))); reflexivity.
  - intros now w Hcolors. eexists. split; [apply setTheme_returns | ].
    simpl. rewrite (merged_group_lookup "colors") by (left; reflexivity).
    unfold merge_group. rewrite Hcolors. reflexivity.
Qed.

Ltac prove_unique_keys :=
  unfold unique_keys; simpl;
  repeat (constructor; [simpl; intuition discriminate | ]);
  constructor.

Lemma setTheme_merges_each_group_witness :
  (unique_keys (theme (doc (store (world_of plainColors)))) /\
   unique_keys accentPatch /\
   exists w',
     setTheme 1700000000000 accentPatch (world_of plainColors) = Returned w' /\
     (forall g, In g theme_groups ->
        unique_keys (own_props (assoc_get g (theme (doc (store (world_of plainColors)))))) ->
        unique_keys (own_props (assoc_get g accentPatch)) ->
        exists merged,
          assoc_get g (theme (doc (store w'))) = Some (JObj merged) /\
          forall k,
            assoc_get k merged =
            match assoc_get k (own_props (assoc_get g accentPatch)) with
            | Some v => Some v
            | None =>
                assoc_get k
                  (own_props (assoc_get g (theme (doc (store (world_of plainColors))))))
            end) /\
     (forall k, ~ In k theme_groups ->
        assoc_get k (theme (doc (store w'))) =
        match assoc_get k accentPatch with
        | Some v => Some v
        | None => assoc_get k (theme (doc (store (world_of plainColors))))
        end))
  /\
  (assoc_get "colors" (theme (doc (store (world_of plainColors)))) =
     Some (JObj [("primary", JStr "#000"); ("accent", JStr "#fff");
                 ("muted", JStr "#888")]) /\
   exists w',
     setTheme 1700000000000 [("colors", JObj [("accent", JStr "#111")])]
       (world_of plainColors) = Returned w' /\
     assoc_get "colors" (theme (doc (store w'))) =
       Some (JObj [("primary", JStr "#000"); ("accent", JStr "#111");
                   ("muted", JStr "#888")])).
Proof.
  assert (H1 : unique_keys (theme (doc (store (world_of plainColors)))))
    by prove_unique_keys.
  assert (H2 : unique_keys accentPatch) by prove_unique_keys.
  split.
  - split; [exact H1 | ]. split; [exact H2 | ].
    exact (proj1 setTheme_merges_each_group 1700000000000%Z accentPatch
             (world_of plainColors) H1 H2).
  - split; [reflexivity | ].
    exact (proj2 setTheme_merges_each_group 1700000000000%Z
             (world_of plainColors) eq_refl).
Defined.

(** ** addBlock, removeBlock, updateField *)

Lemma first_match_split {A : Type} (p : A -> bool) (l : list A) :
  existsb p l = true ->
  exists pre x post,
    l = pre ++ x :: post /\ (forall y, In y pre -> p y = false) /\ p x = true.
Proof.
  induction l as [ | a l IH]; simpl; [discriminate | ].
  destruct (p a) eqn:Hpa; simpl.
  - intros _. exists [], a, l. repeat split; [intros y [] | exact Hpa].
  - intros Hex. destruct (IH Hex) as (pre & x & post & -> & Hpre & Hx).
    exists (a :: pre), x, post. repeat split; [ | exact Hx].
    intros y [<- | Hy]; [exact Hpa | apply Hpre; exact Hy].
Qed.

Lemma find_first_match {A : Type} (p : A -> bool) (pre post : list A) x :
  (forall y, In y pre -> p y = false) -> p x = true ->
  List.find p (pre ++ x :: post) = Some x.
Proof.
  intros Hpre Hx. induction pre as [ | a pre IH]; simpl.
  - rewrite Hx. reflexivity.
  - rewrite (Hpre a) by (left; reflexivity). apply IH.
    intros y Hy. apply Hpre. right; exact Hy.
Qed.

Lemma update_first_match {A : Type} (p : A -> bool) (f : A -> A) (pre post : list A) x :
  (forall y, In y pre -> p y = false) -> p x = true ->
  update_first p f (pre ++ x :: post) = pre ++ f x :: post.
Proof.
  intros Hpre Hx. induction pre as [ | a pre IH]; simpl.
  - rewrite Hx. reflexivity.
  - rewrite (Hpre a) by (left; reflexivity). f_equal. apply IH.
    intros y Hy. apply Hpre. right; exact Hy.
Qed.

Lemma has_section_id_existsb sectionId ss :
  In sectionId (map section_id ss) <-> existsb (has_section_id sectionId) ss = true.
Proof.
  rewrite in_map_iff, existsb_exists. unfold has_section_id.
  split; intros (s & H1 & H2); exists s.
  - split; [exact H2 | apply String.eqb_eq; exact H1].
  - split; [apply String.eqb_eq; exact H2 | exact H1].
Qed.

Lemma uid_shape rnd36 prefix :
  exists suffix,
    uid rnd36 (Some prefix) = prefix +:+ "_" +:+ suffix /\
    suffix = slice rnd36 2 10 /\
    (String.length suffix <= 8)%nat.
Proof.
  exists (slice rnd36 2 10). repeat split.
  unfold slice. simpl (10 - 2)%nat. generalize 8%nat as n. generalize 2%nat as m.
  revert rnd36. induction rnd36 as [ | c r IH]; intros m n.
  - destruct m, n; simpl; lia.
  - destruct m as [ | m]; simpl.
    + destruct n as [ | n]; simpl; [lia | ]. specialize (IH 0%nat n). lia.
    + apply IH.
Qed.

(** C5. When the document has a section with id [sectionId],
    [addBlock(sectionId, blockTemplate)] commits a document in which the
    first such section has exactly one more block, appended at the end of its
    blocks; the new block has the template's fields and type and an id
    generated from the block type as prefix ([type_] followed by the random
    suffix), the template's own id being ignored; every other section and
    every other block is as before, and so are the id, type, title and hidden
    flag of the section itself. *)
Theorem addBlock_appends_one_block :
  forall (rnd36 : string) (now : Z) (sectionId : string)
         (blockTemplate : Block) (w : World),
    In sectionId (map section_id (sections (doc (store w)))) ->
    exists w' pre s post s' newBlock suffix,
      addBlock rnd36 now sectionId blockTemplate w = Returned w' /\
      sections (doc (store w)) = pre ++ s :: post /\
      section_id s = sectionId /\
      (forall x, In x pre -> section_id x <> sectionId) /\
      sections (doc (store w')) = pre ++ s' :: post /\
      List.find (has_section_id sectionId) (sections (doc (store w'))) = Some s' /\
      blocks s' = blocks s ++ [newBlock] /\
      length (blocks s') = S (length (blocks s)) /\
      section_id s' = section_id s /\
      section_type s' = section_type s /\
      section_title s' = section_title s /\
      hidden s' = hidden s /\
      fields newBlock = fields blockTemplate /\
      block_type newBlock = block_type blockTemplate /\
      block_id newBlock = block_type blockTemplate +:+ "_" +:+ suffix /\
      suffix = slice rnd36 2 10.
Proof.
  intros rnd36 now sectionId tpl w Hin.
  apply has_section_id_existsb in Hin.
  destruct (first_match_split _ _ Hin) as (pre & s & post & Hss & Hpre & Hs).
  destruct (uid_shape rnd36 (block_type tpl)) as (suffix & Hid & Hsuffix & _).
  pose (newBlock := {| block_id := uid rnd36 (Some (block_type tpl));
                       block_type := block_type tpl; fields := fields tpl |}).
  exists (committed now
            (with_sections (doc (store w))
               (pre ++ with_blocks s (blocks s ++ [newBlock]) :: post)) [] w),
    pre, s, post, (with_blocks s (blocks s ++ [newBlock])), newBlock, suffix.
  split.
  - unfold addBlock. apply setDoc_Update. unfold addBlock_updater.
    rewrite JSON_clone_id, Hss, (find_first_match _ pre post s Hpre Hs).
    rewrite (update_first_match _ _ pre post s Hpre Hs). reflexivity.
  - simpl. repeat split; try assumption; try reflexivity.
    + apply String.eqb_eq. exact Hs.
    + intros x Hx. apply String.eqb_neq. apply Hpre. exact Hx.
    + apply find_first_match; [exact Hpre | exact Hs].
    + rewrite length_app. simpl. lia.
Qed.

Lemma addBlock_appends_one_block_witness :
  In "experience_section"
    (map section_id (sections (doc (store (world_of (sampleResume 1699999990000 1699999990000)))))) /\
  exists w' pre s post s' newBlock suffix,
    addBlock "0.4fzyo82mvyr" 1700000000000 "experience_section" engineerTemplate
      (world_of (sampleResume 1699999990000 1699999990000)) = Returned w' /\
    sections (doc (store (world_of (sampleResume 1699999990000 1699999990000)))) =
      pre ++ s :: post /\
    section_id s = "experience_section" /\
    (forall x, In x pre -> section_id x <> "experience_section") /\
    sections (doc (store w')) = pre ++ s' :: post /\
    List.find (has_section_id "experience_section") (sections (doc (store w'))) = Some s' /\
    blocks s' = blocks s ++ [newBlock] /\
    length (blocks s') = S (length (blocks s)) /\
    section_id s' = section_id s /\
    section_type s' = section_type s /\
    section_title s' = section_title s /\
    hidden s' = hidden s /\
    fields newBlock = fields engineerTemplate /\
    block_type newBlock = block_type engineerTemplate /\
    block_id newBlock = block_type engineerTemplate +:+ "_" +:+ suffix /\
    suffix = slice "0.4fzyo82mvyr" 2 10.
Proof.
  assert (Hin : In "experience_section"
                  (map section_id
                     (sections (doc (store (world_of (sampleResume 1699999990000 1699999990000)))))))
    by (simpl; auto).
  split; [exact Hin | ].
  exact (addBlock_appends_one_block "0.4fzyo82mvyr" 1700000000000%Z
           "experience_section" engineerTemplate
           (world_of (sampleResume 1699999990000 1699999990000)) Hin).
Defined.

Lemma find_section_absent sectionId ss :
  ~ In sectionId (map section_id ss) ->
  List.find (has_section_id sectionId) ss = None.
Proof.
  intros Hnot. apply find_none_iff. intros s Hs.
  apply String.eqb_neq. intros Heq. apply Hnot. rewrite <- Heq.
  apply in_map. exact Hs.
Qed.

Lemma find_block_absent blockId bs :
  ~ In blockId (map block_id bs) ->
  List.find (has_block_id blockId) bs = None.
Proof.
  intros Hnot. apply find_none_iff. intros b Hb.
  apply String.eqb_neq. intros Heq. apply Hnot. rewrite <- Heq.
  apply in_map. exact Hb.
Qed.

Lemma filter_block_absent blockId bs :
  ~ In blockId (map block_id bs) ->
  List.filter (fun b => negb (has_block_id blockId b)) bs = bs.
Proof.
  induction bs as [ | b bs IH]; simpl; intros Hnot; [reflexivity | ].
  unfold has_block_id at 1.
  rewrite (proj2 (String.eqb_neq (block_id b) blockId)) by tauto.
  simpl. rewrite IH by tauto. reflexivity.
Qed.

Lemma update_first_found {A : Type} (p : A -> bool) (f : A -> A) (l : list A) x :
  List.find p l = Some x -> f x = x -> update_first p f l = l.
Proof.
  induction l as [ | a l IH]; simpl; intros Hfind Hf; [reflexivity | ].
  destruct (p a).
  - injection Hfind as ->. rewrite Hf. reflexivity.
  - rewrite IH by assumption. reflexivity.
Qed.

(** C1, as the code has it.  A call of [updateField], [addBlock] or
    [removeBlock] that names a section id absent from the document, and a call
    of [updateField] or [removeBlock] that names a block id absent from the
    section found, returns without throwing and commits the current document
    with every field as before except [meta.updatedAt], which becomes the
    time of the call; an autosave of that document is scheduled.  A missing
    section, and a missing block in [updateField], log one warning;
    [removeBlock] with a missing block logs nothing. *)
Theorem miss_commits_document_with_new_time_stamp :
  forall (now : Z) (w : World) (sectionId blockId path rnd36 : string)
         (value : JValue) (blockTemplate : Block),
    (~ In sectionId (map section_id (sections (doc (store w)))) ->
     exists w',
       updateField now sectionId blockId path value w = Returned w' /\
       addBlock rnd36 now sectionId blockTemplate w = Returned w' /\
       removeBlock now sectionId blockId w = Returned w' /\
       doc (store w') = restamped now (doc (store w)) /\
       console w' = console w ++ [section_not_found sectionId] /\
       saveTimeout w' =
         Some ((now + AUTOSAVE_DELAY)%Z, restamped now (doc (store w))) /\
       storage w' = storage w /\ writes w' = writes w /\
       template (store w') = template (store w))
    /\
    (forall s,
       List.find (has_section_id sectionId) (sections (doc (store w))) = Some s ->
       ~ In blockId (map block_id (blocks s)) ->
       exists w1 w2,
         updateField now sectionId blockId path value w = Returned w1 /\
         doc (store w1) = restamped now (doc (store w)) /\
         console w1 = console w ++ [block_not_found blockId sectionId] /\
         saveTimeout w1 =
           Some ((now + AUTOSAVE_DELAY)%Z, restamped now (doc (store w))) /\
         storage w1 = storage w /\ writes w1 = writes w /\
         template (store w1) = template (store w) /\
         removeBlock now sectionId blockId w = Returned w2 /\
         doc (store w2) = restamped now (doc (store w)) /\
         console w2 = console w /\
         saveTimeout w2 =
           Some ((now + AUTOSAVE_DELAY)%Z, restamped now (doc (store w))) /\
         storage w2 = storage w /\ writes w2 = writes w /\
         template (store w2) = template (store w)).
Proof.
  intros now w sectionId blockId path rnd36 value tpl. split.
  - intros Hmiss.
    exists (committed now (doc (store w)) [section_not_found sectionId] w).
    split; [ | split; [ | split; [ | repeat split]]].
    + unfold updateField. apply setDoc_Update. unfold updateField_updater.
      rewrite JSON_clone_id, find_section_absent by exact Hmiss. reflexivity.
    + unfold addBlock. apply setDoc_Update. unfold addBlock_updater.
      rewrite JSON_clone_id, find_section_absent by exact Hmiss. reflexivity.
    + unfold removeBlock. apply setDoc_Update. unfold removeBlock_updater.
      rewrite JSON_clone_id, find_section_absent by exact Hmiss. reflexivity.
  - intros s Hs Hmiss.
    exists (committed now (doc (store w)) [block_not_found blockId sectionId] w),
           (committed now (doc (store w)) [] w).
    split; [ | repeat (split; [reflexivity | ])].
    + unfold updateField. apply setDoc_Update. unfold updateField_updater.
      rewrite JSON_clone_id, Hs, find_block_absent by exact Hmiss. reflexivity.
    + split; [ | repeat (split; [reflexivity || apply app_nil_r | ]); reflexivity].
      unfold removeBlock. apply setDoc_Update. unfold removeBlock_updater.
      rewrite JSON_clone_id, Hs. do 2 f_equal.
      rewrite (update_first_found _ _ _ s Hs).
      * destruct (doc (store w)); reflexivity.
      * rewrite filter_block_absent by exact Hmiss. destruct s; reflexivity.
Qed.

Lemma miss_commits_document_with_new_time_stamp_witness :
  (~ In "ghost_section" (map section_id (sections (doc (store (world_of threeSections))))) /\
   exists w',
     updateField 1700000000000 "ghost_section" "ghost_block" "name" (JStr "Jane Doe")
       (world_of threeSections) = Returned w' /\
     addBlock "0.4fzyo82mvyr" 1700000000000 "ghost_section" engineerTemplate
       (world_of threeSections) = Returned w' /\
     removeBlock 1700000000000 "ghost_section" "ghost_block" (world_of threeSections)
       = Returned w' /\
     doc (store w') = restamped 1700000000000 (doc (store (world_of threeSections))) /\
     console w' = console (world_of threeSections) ++ [section_not_found "ghost_section"] /\
     saveTimeout w' =
       Some ((1700000000000 + AUTOSAVE_DELAY)%Z,
             restamped 1700000000000 (doc (store (world_of threeSections)))) /\
     storage w' = storage (world_of threeSections) /\
     writes w' = writes (world_of threeSections) /\
     template (store w') = template (store (world_of threeSections)))
  /\
  (List.find (has_section_id "s2") (sections (doc (store (world_of twoBlocks))))
     = Some (with_blocks (section_named "s2") [block_named "b1"; block_named "b2"]) /\
   ~ In "ghost_block"
       (map block_id
          (blocks (with_blocks (section_named "s2") [block_named "b1"; block_named "b2"]))) /\
   exists w1 w2,
     updateField 1700000000000 "s2" "ghost_block" "name" (JStr "Jane Doe")
       (world_of twoBlocks) = Returned w1 /\
     doc (store w1) = restamped 1700000000000 (doc (store (world_of twoBlocks))) /\
     console w1 = console (world_of twoBlocks) ++ [block_not_found "ghost_block" "s2"] /\
     saveTimeout w1 =
       Some ((1700000000000 + AUTOSAVE_DELAY)%Z,
             restamped 1700000000000 (doc (store (world_of twoBlocks)))) /\
     storage w1 = storage (world_of twoBlocks) /\
     writes w1 = writes (world_of twoBlocks) /\
     template (store w1) = template (store (world_of twoBlocks)) /\
     removeBlock 1700000000000 "s2" "ghost_block" (world_of twoBlocks) = Returned w2 /\
     doc (store w2) = restamped 1700000000000 (doc (store (world_of twoBlocks))) /\
     console w2 = console (world_of twoBlocks) /\
     saveTimeout w2 =
       Some ((1700000000000 + AUTOSAVE_DELAY)%Z,
             restamped 1700000000000 (doc (store (world_of twoBlocks)))) /\
     storage w2 = storage (world_of twoBlocks) /\
     writes w2 = writes (world_of twoBlocks) /\
     template (store w2) = template (store (world_of twoBlocks))).
Proof.
  assert (H1 : ~ In "ghost_section"
                 (map section_id (sections (doc (store (world_of threeSections))))))
    by (simpl; intuition discriminate).
  assert (H2 : ~ In "ghost_block"
                 (map block_id
                    (blocks (with_blocks (section_named "s2")
                               [block_named "b1"; block_named "b2"]))))
    by (simpl; intuition discriminate).
  split.
  - split; [exact H1 | ].
    exact (proj1 (miss_commits_document_with_new_time_stamp 1700000000000%Z
                    (world_of threeSections) "ghost_section" "ghost_block" "name"
                    "0.4fzyo82mvyr" (JStr "Jane Doe") engineerTemplate) H1).
  - split; [reflexivity | ]. split; [exact H2 | ].
    exact (proj2 (miss_commits_document_with_new_time_stamp 1700000000000%Z
                    (world_of twoBlocks) "s2" "ghost_block" "name"
                    "0.4fzyo82mvyr" (JStr "Jane Doe") engineerTemplate)
             (with_blocks (section_named "s2") [block_named "b1"; block_named "b2"])
             eq_refl H2).
Defined.

(** C1, as it is worded, fails: after [updateField] on a section id that the
    document does not have, the committed document is not the one before the
    call, its [meta.updatedAt] has moved to the time of the call. *)
Lemma miss_changes_updatedAt :
  ~ In "ghost_section" (map section_id (sections threeSections)) /\
  exists w',
    updateField 1700000000000 "ghost_section" "ghost_block" "name" (JStr "Jane Doe")
      (world_of threeSections) = Returned w' /\
    updatedAt (meta (doc (store w'))) = 1700000000000%Z /\
    updatedAt (meta threeSections) = 1699999990000%Z /\
    doc (store w') <> threeSections.
Proof.
  split; [simpl; intuition discriminate | ].
  eexists. split; [reflexivity | ]. simpl.
  split; [reflexivity | ]. split; [reflexivity | ].
  intros H. apply (f_equal (fun d => updatedAt (meta d))) in H. discriminate H.
Qed.

(** The end-to-end scenario on the sample document: the header's name is
    set and the time stamp moves; a block added from a template with id
    "tmp" gets an id generated from its type. *)
Example end_to_end_scenario :
  exists w1 w2 header,
    updateField 1700000000000 "header_section" "header_block_001" "name"
      (JStr "Jane Doe") (world_of (sampleResume 1699999990000 1699999990000))
      = Returned w1 /\
    List.find (has_section_id "header_section") (sections (doc (store w1)))
      = Some header /\
    option_map (fun b => js_get_slot (fields b) "name")
      (List.find (has_block_id "header_block_001") (blocks header))
      = Some (Some (JStr "Jane Doe")) /\
    updatedAt (meta (doc (store w1))) = 1700000000000%Z /\
    addBlock "0.4fzyo82mvyr" 1700000000100 "experience_section" engineerTemplate w1
      = Returned w2 /\
    option_map (fun s => map block_id (blocks s))
      (List.find (has_section_id "experience_section") (sections (doc (store w2))))
      = Some ["experience_block_001"; "experience_4fzyo82m"] /\
    option_map (fun s => option_map fields (List.last (map Some (blocks s)) None))
      (List.find (has_section_id "experience_section") (sections (doc (store w2))))
      = Some (Some (JObj [("role", JStr "Eng")])).
Proof.
  eexists. eexists. eexists.
  split; [vm_compute; reflexivity | ].
  split; [vm_compute; reflexivity | ].
  repeat split; vm_compute; reflexivity.
Qed.

(** ** uid *)

(** C8 at a failing input.  When [Math.random()] returns 0.5, whose base-36
    rendering is "0.i", the identifier is the prefix, an underscore and one
    character.  In general the suffix is the part of the rendering between
    positions 2 and 10, so it has at most eight characters, and exactly eight
    only when the rendering has ten characters or more. *)
Theorem uid_suffix_can_be_short :
  uid "0.i" (Some "exp") = "exp_i" /\
  slice "0.i" 2 10 = "i" /\
  (forall rnd36 prefix,
     exists suffix,
       uid rnd36 (Some prefix) = prefix +:+ "_" +:+ suffix /\
       suffix = slice rnd36 2 10 /\
       (String.length suffix <= 8)%nat).
Proof.
  split; [reflexivity | ]. split; [reflexivity | ].
  intros rnd36 prefix. apply uid_shape.
Qed.

(** ** loadFromStorage *)

(** C7, as the code has it.  [loadFromStorage] returns the parsed item
    exactly when the item is there and not empty, [JSON.parse] accepts it,
    and the parsed value is an object whose [id] is truthy (its type is not
    examined) and whose [sections] is an array; when the item is missing,
    cannot be read or parsed, or fails this check, it returns the sample
    document unchanged. *)
Theorem loadFromStorage_checks_truthy_id_and_array_sections :
  forall (loaded1 loaded2 : Z) (JSON_parse : string -> option JValue)
         (stored : Outcome (option string)),
    (forall text ps idv secs,
       stored = Returned (Some text) -> text <> EmptyString ->
       JSON_parse text = Some (JObj ps) ->
       assoc_get "id" ps = Some idv -> truthy (Some idv) = true ->
       assoc_get "sections" ps = Some (JArr secs) ->
       loadFromStorage loaded1 loaded2 JSON_parse stored = JObj ps)
    /\
    (loadFromStorage loaded1 loaded2 JSON_parse stored
       = doc_to_json (sampleResume loaded1 loaded2)
     \/
     exists text ps idv secs,
       stored = Returned (Some text) /\ text <> EmptyString /\
       JSON_parse text = Some (JObj ps) /\
       assoc_get "id" ps = Some idv /\ truthy (Some idv) = true /\
       assoc_get "sections" ps = Some (JArr secs) /\
       loadFromStorage loaded1 loaded2 JSON_parse stored = JObj ps)
    /\
    (forall text parsed,
       stored = Returned (Some text) -> text <> EmptyString ->
       JSON_parse text = Some parsed -> valid_as_specified parsed = true ->
       prop (Some parsed) "id" <> Some (JStr EmptyString) ->
       loadFromStorage loaded1 loaded2 JSON_parse stored = parsed).
Proof.
  intros loaded1 loaded2 JSON_parse stored.
  assert (Hok : forall text ps idv secs,
       stored = Returned (Some text) -> text <> EmptyString ->
       JSON_parse text = Some (JObj ps) ->
       assoc_get "id" ps = Some idv -> truthy (Some idv) = true ->
       assoc_get "sections" ps = Some (JArr secs) ->
       loadFromStorage loaded1 loaded2 JSON_parse stored = JObj ps).
  { intros text ps idv secs -> Htext Hparse Hid Htruthy Hsecs.
    unfold loadFromStorage. simpl truthy at 1.
    rewrite (proj2 (String.eqb_neq text EmptyString) Htext). simpl negb.
    rewrite Hparse. simpl. rewrite Hid, Htruthy, Hsecs. reflexivity. }
  split; [exact Hok | ]. split.
  - destruct stored as [[text | ] | msg | ]; try (left; reflexivity).
    destruct (String.eqb_spec text EmptyString) as [-> | Htext]; [left; reflexivity | ].
    destruct (JSON_parse text) as [parsed | ] eqn:Hparse.
    2:{ left. unfold loadFromStorage. simpl truthy.
        rewrite (proj2 (String.eqb_neq text EmptyString) Htext), Hparse. reflexivity. }
    destruct parsed as [ | b | n | s | items | ps];
      try (left; unfold loadFromStorage; simpl truthy at 1;
           rewrite (proj2 (String.eqb_neq text EmptyString) Htext), Hparse; simpl;
           rewrite ?andb_false_r; reflexivity).
    destruct (assoc_get "id" ps) as [idv | ] eqn:Hid.
    2:{ left. unfold loadFromStorage. simpl truthy at 1.
        rewrite (proj2 (String.eqb_neq text EmptyString) Htext), Hparse. simpl.
        rewrite Hid. reflexivity. }
    destruct (truthy (Some idv)) eqn:Htruthy.
    2:{ left. unfold loadFromStorage. simpl truthy at 1.
        rewrite (proj2 (String.eqb_neq text EmptyString) Htext), Hparse. simpl.
        rewrite Hid, Htruthy. reflexivity. }
    destruct (assoc_get "sections" ps) as [secv | ] eqn:Hsecs.
    2:{ left. unfold loadFromStorage. simpl truthy at 1.
        rewrite (proj2 (String.eqb_neq text EmptyString) Htext), Hparse. simpl.
        rewrite Hid, Htruthy, Hsecs. reflexivity. }
    destruct secv as [ | b | n | s | secs | qs];
      try (left; unfold loadFromStorage; simpl truthy at 1;
           rewrite (proj2 (String.eqb_neq text EmptyString) Htext), Hparse; simpl;
           rewrite Hid, Htruthy, Hsecs; simpl; rewrite ?andb_false_r;
           reflexivity).
    right. exists text, ps, idv, secs. repeat split; try assumption.
    eapply Hok; eauto.
  - intros text parsed Hst Htext Hparse Hvalid Hid.
    destruct parsed as [ | b | n | s | items | ps]; try discriminate Hvalid.
    simpl in Hvalid, Hid.
    destruct (assoc_get "id" ps) as [[ | | | s | | ] | ] eqn:Hid'; try discriminate Hvalid.
    destruct (assoc_get "sections" ps) as [[ | | | | secs | ] | ] eqn:Hsecs;
      try discriminate Hvalid.
    eapply Hok; eauto. simpl.
    destruct (String.eqb_spec s EmptyString) as [-> | ]; [congruence | reflexivity].
Qed.

Lemma loadFromStorage_checks_truthy_id_and_array_sections_witness :
  (Returned (Some storedText) = Returned (Some storedText) /\
   storedText <> EmptyString /\
   parse_table [(storedText, JObj storedProps)] storedText = Some (JObj storedProps) /\
   assoc_get "id" storedProps = Some (JStr "resume_k3v9x2ab") /\
   truthy (Some (JStr "resume_k3v9x2ab")) = true /\
   assoc_get "sections" storedProps = Some (JArr []) /\
   loadFromStorage 1699999990000 1699999990000
     (parse_table [(storedText, JObj storedProps)]) (Returned (Some storedText))
   = JObj storedProps)
  /\
  (valid_as_specified (JObj storedProps) = true /\
   prop (Some (JObj storedProps)) "id" <> Some (JStr EmptyString) /\
   loadFromStorage 1699999990000 1699999990000
     (parse_table [(storedText, JObj storedProps)]) (Returned (Some storedText))
   = JObj storedProps).
Proof.
  assert (Htext : storedText <> EmptyString) by (vm_compute; discriminate).
  assert (Hid : prop (Some (JObj storedProps)) "id" <> Some (JStr EmptyString))
    by (vm_compute; discriminate).
  split.
  - repeat (split; [reflexivity || exact Htext | ]).
    exact (proj1 (loadFromStorage_checks_truthy_id_and_array_sections
                    1699999990000%Z 1699999990000%Z
                    (parse_table [(storedText, JObj storedProps)])
                    (Returned (Some storedText)))
             storedText storedProps (JStr "resume_k3v9x2ab") []
             eq_refl Htext eq_refl eq_refl eq_refl eq_refl).
  - split; [reflexivity | ]. split; [exact Hid | ].
    exact (proj2 (proj2 (loadFromStorage_checks_truthy_id_and_array_sections
                    1699999990000%Z 1699999990000%Z
                    (parse_table [(storedText, JObj storedProps)])
                    (Returned (Some storedText))))
             storedText (JObj storedProps) eq_refl Htext eq_refl eq_refl Hid).
Defined.

(** C7, as it is worded, fails: the stored text [{"id":42,"sections":[]}]
    is returned as the document although its [id] is a number, not a
    string. *)
Lemma load_returns_document_with_numeric_id :
  loadFromStorage 1699999990000 1699999990000
    (parse_table [(numericIdText, numericIdDoc)]) (Returned (Some numericIdText))
  = numericIdDoc /\
  prop (Some numericIdDoc) "id" = Some (JNum 42) /\
  valid_as_specified numericIdDoc = false /\
  numericIdDoc <> doc_to_json (sampleResume 1699999990000 1699999990000).
Proof.
  split; [vm_compute; reflexivity | ]. split; [reflexivity | ].
  split; [reflexivity | ]. unfold numericIdDoc. simpl. discriminate.
Qed.

(** ** deepSet *)

Lemma assoc_set_set {A : Type} (ps : list (string * A)) k v v' :
  assoc_set (assoc_set ps k v) k v' = assoc_set ps k v'.
Proof.
  induction ps as [ | [k0 v0] ps IH]; simpl.
  - rewrite String.eqb_refl. reflexivity.
  - destruct (String.eqb k0 k) eqn:E; simpl.
    + rewrite String.eqb_refl. reflexivity.
    + rewrite E, IH. reflexivity.
Qed.

Lemma is_object_shape x :
  is_object x = true <->
  (exists ps, x = Some (JObj ps)) \/ (exists items, x = Some (JArr items)).
Proof.
  split.
  - destruct x as [[ | b | n | s | items | ps] | ]; unfold is_object, not_an_object;
      simpl; try discriminate; eauto.
    + destruct b; discriminate.
    + destruct (Z.eqb n 0); discriminate.
    + destruct (String.eqb s EmptyString); discriminate.
  - intros [[ps ->] | [items ->]]; reflexivity.
Qed.

Lemma is_primitive_not_object v : is_primitive v = true -> is_object (Some v) = false.
Proof.
  destruct v as [ | b | n | s | items | ps]; try discriminate; intros _;
    unfold is_object, not_an_object; simpl; rewrite orb_true_r; reflexivity.
Qed.

(** Every assignment that returns is one of the five kinds. *)
Lemma js_put_assigned o k v o' : js_put o k v = Returned o' -> Assigned k v o o'.
Proof.
  destruct o as [ | | | | items | ps]; simpl; try discriminate.
  - destruct (array_index k) as [i | ] eqn:Hi.
    + destruct (N.ltb_spec i (N.of_nat (length items))) as [Hlt | Hge].
      * intros H. injection H as <-. apply assigned_element; assumption.
      * destruct (N.eqb_spec i (N.of_nat (length items))) as [-> | Hne];
          [ | discriminate].
        intros H. injection H as <-. apply assigned_appended. exact Hi.
    + destruct (String.eqb_spec k "length") as [-> | Hlen].
      * unfold set_length. destruct v as [ | [ | ] | n | s | vs | ps]; try discriminate.
        -- intros H. injection H as <-.
           apply (assigned_length "length" JNull items 0); [reflexivity .. | lia].
        -- destruct items as [ | x items']; [discriminate | ].
           intros H. injection H as <-.
           apply (assigned_length "length" (JBool true) (x :: items') 1);
             [reflexivity .. | simpl; lia].
        -- intros H. injection H as <-.
           apply (assigned_length "length" (JBool false) items 0); [reflexivity .. | lia].
        -- destruct ((0 <=? n)%Z && (n <? 4294967296)%Z) eqn:Hrange; [ | discriminate].
           destruct (Z.leb_spec n (Z.of_nat (length items))) as [Hle | ]; [ | discriminate].
           intros H. injection H as <-.
           apply andb_true_iff in Hrange as [H0 _]. apply Z.leb_le in H0.
           apply assigned_length; [reflexivity | | lia].
           unfold is_object, not_an_object. simpl. rewrite orb_true_r. reflexivity.
        -- destruct (assoc_get "toString" ps); discriminate.
      * destruct (String.eqb_spec k "__proto__") as [-> | Hproto]; [ | discriminate].
        unfold set_prototype. destruct (is_primitive v) eqn:Hv; [ | discriminate].
        intros H. injection H as <-. apply assigned_nothing; auto.
  - destruct (assoc_get k ps) as [c | ] eqn:Hown.
    + intros H. injection H as <-. apply assigned_property. left. rewrite Hown. discriminate.
    + destruct (String.eqb_spec k "__proto__") as [-> | Hproto].
      * unfold set_prototype. destruct (is_primitive v) eqn:Hv; [ | discriminate].
        intros H. injection H as <-. apply assigned_nothing; auto.
      * intros H. injection H as <-. apply assigned_property. right. exact Hproto.
Qed.

(** What an assignment returns is a record or an array. *)
Lemma js_put_is_object o k v o' :
  js_put o k v = Returned o' -> is_object (Some o') = true.
Proof.
  intros H. apply js_put_assigned in H. destruct H; try reflexivity. assumption.
Qed.

(** After [o[k] = v] reading [o[k]] gives [v], when [v] is a record or an
    array or [k] is neither [__proto__] nor [length]. *)
Lemma js_get_put o k v o' :
  js_put o k v = Returned o' ->
  is_object (Some v) = true \/ (k <> "__proto__" /\ k <> "length") ->
  js_get o' k = Returned (Some v).
Proof.
  intros H Hk. apply js_put_assigned in H.
  destruct H as [ps Hown | items i Hi Hlt | items Hi | items n -> Hv Hn | o -> Hv Ho].
  - simpl. rewrite assoc_get_set_eq. reflexivity.
  - simpl. rewrite Hi, length_insert, (proj2 (N.ltb_lt _ _) Hlt).
    rewrite list_lookup_insert_eq by lia. reflexivity.
  - simpl. rewrite Hi, length_app. simpl.
    rewrite (proj2 (N.ltb_lt _ _)) by lia.
    rewrite Nat2N.id, lookup_app_r, Nat.sub_diag by lia. reflexivity.
  - destruct Hk as [Hk | [_ Hk]]; congruence.
  - apply is_primitive_not_object in Hv. destruct Hk as [Hk | [Hk _]]; congruence.
Qed.

(** A second assignment to the same key replaces the first. *)
Lemma js_put_put o k v o' v' :
  js_put o k v = Returned o' ->
  is_object (Some v) = true \/ k <> "length" ->
  js_put o' k v' = js_put o k v'.
Proof.
  intros H Hk. apply js_put_assigned in H.
  destruct H as [ps Hown | items i Hi Hlt | items Hi | items n -> Hv Hn | o -> Hv Ho].
  - simpl. rewrite assoc_get_set_eq, assoc_set_set.
    destruct (assoc_get k ps) as [c | ]; [reflexivity | ].
    destruct Hown as [Hown | Hown]; [congruence | ].
    rewrite (proj2 (String.eqb_neq _ _) Hown). reflexivity.
  - simpl. rewrite Hi, length_insert, (proj2 (N.ltb_lt _ _) Hlt).
    rewrite list_insert_insert_eq. reflexivity.
  - simpl. rewrite Hi, length_app. simpl.
    rewrite (proj2 (N.ltb_lt _ _)) by lia.
    rewrite N.ltb_irrefl, N.eqb_refl.
    rewrite Nat2N.id, insert_app_r_alt, Nat.sub_diag by lia. reflexivity.
  - destruct Hk as [Hk | Hk]; congruence.
  - reflexivity.
Qed.

(** A slot that holds a record or an array can be assigned. *)
Lemma js_put_present o k c v :
  js_get o k = Returned (Some c) -> is_object (Some c) = true ->
  exists o', js_put o k v = Returned o'.
Proof.
  destruct o as [ | | | | items | ps]; simpl; try discriminate.
  - destruct (array_index k) as [i | ].
    + destruct (N.ltb i (N.of_nat (length items))); [eauto | discriminate].
    + destruct (String.eqb k "length").
      * intros H Hc. injection H as <-.
        unfold is_object, not_an_object in Hc. simpl in Hc.
        rewrite orb_true_r in Hc. discriminate.
      * destruct (String.eqb k "__proto__"); discriminate.
  - destruct (assoc_get k ps) as [x | ]; [eauto | ].
    destruct (String.eqb k "__proto__"); discriminate.
Qed.

Lemma write_path_is_object p :
  forall o k v o', write_path o p k v = Returned o' -> is_object (Some o') = true.
Proof.
  induction p as [ | q p IH]; intros o k v o'; simpl.
  - apply js_put_is_object.
  - destruct (js_get o q) as [[c | ] | | ]; simpl; try discriminate.
    destruct (write_path c p k v) as [c' | | ]; simpl; try discriminate.
    apply js_put_is_object.
Qed.

(** A walk that starts below the slot [q] of [r] is the walk in the node
    held by that slot, put back into the slot. *)
Lemma deepSet_run_below keys lastKey value :
  forall r q c cur,
    js_get r q = Returned (Some c) ->
    is_object (Some c) = true ->
    deepSet_run keys lastKey value {| root := r; current := q :: cur |} =
    bindO (deepSet_run keys lastKey value {| root := c; current := cur |})
          (fun c' => js_put r q c').
Proof.
  induction keys as [ | k keys IH]; intros r q c cur Hq Hc.
  - unfold deepSet_run. simpl. rewrite Hq. reflexivity.
  - unfold deepSet_run in *. simpl. unfold deepSet_step. simpl. rewrite Hq. simpl.
    destruct (lookup_path c (cur ++ [k])) as [slot | m | ]; simpl; try reflexivity.
    destruct (not_an_object slot); simpl.
    + destruct (write_path c cur k (JObj [])) as [c1 | m | ] eqn:Hw; simpl;
        try reflexivity.
      destruct (js_put_present r q c c1 Hq Hc) as [r1 Hr1]. rewrite Hr1. simpl.
      pose proof (write_path_is_object _ _ _ _ _ Hw) as Hc1.
      rewrite (IH r1 q c1 (cur ++ [k]) (js_get_put _ _ _ _ Hr1 (or_introl Hc1)) Hc1).
      destruct (deepSet_loop keys {| root := c1; current := cur ++ [k] |}) as [w' | m | ];
        simpl; try reflexivity.
      destruct (write_path (root w') (current w') lastKey value) as [c' | m | ];
        simpl; try reflexivity.
      apply (js_put_put _ _ _ _ _ Hr1 (or_introl Hc1)).
    + apply (IH r q c (cur ++ [k]) Hq Hc).
Qed.

Lemma descend_step keeps o k k' rest value :
  descend keeps o (k :: k' :: rest) value =
  bindO (repair keeps o k) (fun oc =>
    bindO (descend keeps (snd oc) (k' :: rest) value) (fun c' => js_put (fst oc) k c')).
Proof. reflexivity. Qed.

Lemma descend_snoc keeps o k keys lastKey value :
  descend keeps o (k :: keys ++ [lastKey]) value =
  bindO (repair keeps o k) (fun oc =>
    bindO (descend keeps (snd oc) (keys ++ [lastKey]) value)
          (fun c' => js_put (fst oc) k c')).
Proof.
  destruct (keys ++ [lastKey]) as [ | k' rest] eqn:E; [ | reflexivity].
  destruct keys; discriminate.
Qed.

(** The loop and the final assignment compute the descent by recursion. *)
Lemma deepSet_run_descend keys lastKey value :
  forall obj,
    deepSet_run keys lastKey value {| root := obj; current := [] |} =
    descend is_object obj (keys ++ [lastKey]) value.
Proof.
  induction keys as [ | k keys IH]; intros obj.
  - reflexivity.
  - change ((k :: keys) ++ [lastKey]) with (k :: keys ++ [lastKey]).
    rewrite descend_snoc. unfold repair.
    unfold deepSet_run. simpl. unfold deepSet_step. simpl.
    destruct (js_get obj k) as [slot | m | ] eqn:Hget; simpl; try reflexivity.
    assert (Hslot : match slot with
                    | Some c => Returned (Some c)
                    | None => Returned None
                    end = Returned slot) by (destruct slot; reflexivity).
    rewrite Hslot. simpl. clear Hslot.
    assert (Hrepl :
      bindO (bindO (bindO (js_put obj k (JObj []))
                      (fun r => Returned {| root := r; current := [k] |}))
               (deepSet_loop keys))
        (fun w' => write_path (root w') (current w') lastKey value) =
      bindO (bindO (js_put obj k (JObj [])) (fun o1 => Returned (o1, JObj [])))
        (fun oc => bindO (descend is_object (snd oc) (keys ++ [lastKey]) value)
                     (fun c' => js_put (fst oc) k c'))).
    { destruct (js_put obj k (JObj [])) as [r1 | m | ] eqn:Hput; simpl; try reflexivity.
      rewrite <- IH.
      apply (deepSet_run_below keys lastKey value r1 k (JObj []) []
               (js_get_put _ _ _ _ Hput (or_introl eq_refl)) eq_refl). }
    destruct (not_an_object slot) eqn:Hno.
    + destruct slot as [c | ]; [ | exact Hrepl].
      unfold is_object. rewrite Hno. simpl. exact Hrepl.
    + destruct slot as [c | ]; [ | discriminate].
      unfold is_object at 1. rewrite Hno. simpl. rewrite <- IH.
      apply (deepSet_run_below keys lastKey value obj k c [] Hget).
      unfold is_object. rewrite Hno. reflexivity.
Qed.

Lemma split_nonempty sep s : split sep s <> [].
Proof.
  destruct s as [ | c rest]; simpl; [discriminate | ].
  destruct (Ascii.eqb c sep); [discriminate | ].
  destruct (split sep rest); discriminate.
Qed.

Lemma deepSet_descend obj path value :
  not_an_object (Some obj) = false ->
  deepSet obj path value = descend is_object obj (split "." path) value.
Proof.
  intros Hobj. unfold deepSet. rewrite Hobj. cbv zeta.
  transitivity (descend is_object obj
                  (removelast (split "." path) ++ [List.last (split "." path) EmptyString])
                  value).
  - apply deepSet_run_descend.
  - rewrite <- (app_removelast_last EmptyString (split_nonempty "." path)). reflexivity.
Qed.

(** The final key is overwritten, not merged: [{a:{x:1}}] with path "a" and
    value [{y:2}] becomes [{a:{y:2}}]. *)
Example deepSet_overwrites_leaf :
  deepSet (JObj [("a", JObj [("x", JNum 1)])]) "a" (JObj [("y", JNum 2)])
  = Returned (JObj [("a", JObj [("y", JNum 2)])]).
Proof. reflexivity. Qed.

(** A number in an intermediate slot is replaced by a record. *)
Example deepSet_repairs_number :
  deepSet (JObj [("a", JNum 5); ("z", JBool true)]) "a.b" (JStr "v")
  = Returned (JObj [("a", JObj [("b", JStr "v")]); ("z", JBool true)]).
Proof. reflexivity. Qed.

(** The length of an array in an intermediate place is a number, so the
    repair assigns a record to it, which the engine refuses. *)
Example deepSet_throws_on_length_of_array :
  deepSet (JObj [("items", JArr [])]) "items.length.x" (JNum 1)
  = Thrown invalid_array_length.
Proof. reflexivity. Qed.

(** What a descent over at least one key returns is a record or an array. *)
Lemma descend_is_object keeps keys :
  forall o value r,
    keys <> [] -> descend keeps o keys value = Returned r ->
    is_object (Some r) = true.
Proof.
  destruct keys as [ | k [ | k' rest]]; intros o value r Hne; [congruence | | ].
  - simpl. apply js_put_is_object.
  - rewrite descend_step.
    destruct (repair keeps o k) as [[o1 c] | | ]; cbn [bindO fst snd];
      try discriminate.
    destruct (descend keeps c (k' :: rest) value) as [c' | | ]; cbn [bindO];
      try discriminate.
    apply js_put_is_object.
Qed.

(** The target after the repair of the slot [k] holds in that slot the node
    that is descended into, and assigning the slot again is assigning it in
    the target before. *)
Lemma repair_returned keeps o k o1 c :
  repair keeps o k = Returned (o1, c) ->
  (js_get o k = Returned (Some c) /\ o1 = o /\ keeps (Some c) = true) \/
  (js_put o k (JObj []) = Returned o1 /\ c = JObj []).
Proof.
  unfold repair. destruct (js_get o k) as [[x | ] | | ]; simpl; try discriminate.
  - destruct (keeps (Some x)) eqn:Hkeep.
    + intros H. injection H as <- <-. left. auto.
    + destruct (js_put o k (JObj [])) as [o' | | ]; simpl; try discriminate.
      intros H. injection H as <- <-. right. auto.
  - destruct (js_put o k (JObj [])) as [o' | | ]; simpl; try discriminate.
    intros H. injection H as <- <-. right. auto.
Qed.

Lemma descend_then_lookup keeps keys value :
  forall o r,
    keys <> [] ->
    List.last keys EmptyString <> "__proto__" ->
    List.last keys EmptyString <> "length" ->
    descend keeps o keys value = Returned r ->
    lookup_path r keys = Returned (Some value).
Proof.
  induction keys as [ | k rest IH]; intros o r Hne Hp Hl Hd; [congruence | ].
  destruct rest as [ | k' rest'].
  - simpl in *. rewrite (js_get_put _ _ _ _ Hd); [reflexivity | auto].
  - rewrite descend_step in Hd.
    destruct (repair keeps o k) as [[o1 c] | | ]; cbn [bindO fst snd] in Hd;
      try discriminate.
    destruct (descend keeps c (k' :: rest') value) as [c' | | ] eqn:Hchild;
      cbn [bindO] in Hd; try discriminate.
    pose proof (descend_is_object keeps (k' :: rest') c value c'
                  ltac:(discriminate) Hchild) as Hc'.
    change (lookup_path r (k :: k' :: rest')) with
      (bindO (js_get r k) (fun slot =>
         match slot with
         | Some x => lookup_path x (k' :: rest')
         | None => Returned None
         end)).
    rewrite (js_get_put _ _ _ _ Hd (or_introl Hc')). simpl.
    apply (IH c c'); [discriminate | exact Hp | exact Hl | exact Hchild].
Qed.

Lemma array_free_slot ps k c :
  array_free (JObj ps) = true -> assoc_get k ps = Some c -> array_free c = true.
Proof.
  simpl. induction ps as [ | [k0 v0] ps IH]; simpl; [discriminate | ].
  intros H. apply andb_true_iff in H as [H0 Hrest].
  destruct (String.eqb k0 k).
  - intros E. injection E as <-. exact H0.
  - apply IH. exact Hrest.
Qed.

Lemma js_put_record ps k v :
  k <> "__proto__" -> js_put (JObj ps) k v = Returned (JObj (assoc_set ps k v)).
Proof.
  intros Hk. simpl. destruct (assoc_get k ps); [reflexivity | ].
  rewrite (proj2 (String.eqb_neq _ _) Hk). reflexivity.
Qed.

Lemma repair_record ps k :
  k <> "__proto__" ->
  repair is_object (JObj ps) k =
  match assoc_get k ps with
  | Some c =>
      if is_object (Some c) then Returned (JObj ps, c)
      else Returned (JObj (assoc_set ps k (JObj [])), JObj [])
  | None => Returned (JObj (assoc_set ps k (JObj [])), JObj [])
  end.
Proof.
  intros Hk. unfold repair. rewrite (js_put_record ps k (JObj []) Hk).
  simpl. destruct (assoc_get k ps) as [c | ]; simpl.
  - destruct (is_object (Some c)); reflexivity.
  - rewrite (proj2 (String.eqb_neq _ _) Hk). reflexivity.
Qed.

(** On records without arrays, and keys other than [__proto__], the descent
    returns. *)
Lemma descend_returns_on_records keys value :
  forall ps,
    keys <> [] ->
    Forall (fun k => k <> "__proto__") keys ->
    array_free (JObj ps) = true ->
    exists ps', descend is_object (JObj ps) keys value = Returned (JObj ps').
Proof.
  induction keys as [ | k rest IH]; intros ps Hne Hkeys Hfree; [congruence | ].
  inversion Hkeys as [ | ? ? Hk Hrest]; subst.
  destruct rest as [ | k' rest'].
  - change (descend is_object (JObj ps) [k] value) with (js_put (JObj ps) k value).
    rewrite js_put_record by exact Hk. eauto.
  - rewrite descend_step, repair_record by exact Hk.
    assert (Hnew : forall qs,
              exists ps',
                bindO (Returned (JObj qs, JObj []))
                  (fun oc => bindO (descend is_object (snd oc) (k' :: rest') value)
                               (fun c' => js_put (fst oc) k c'))
                = Returned (JObj ps')).
    { intros qs. cbn [bindO fst snd].
      destruct (IH [] ltac:(discriminate) Hrest eq_refl) as [qs' Hqs'].
      rewrite Hqs'. cbn [bindO]. rewrite js_put_record by exact Hk. eauto. }
    destruct (assoc_get k ps) as [c | ] eqn:Hc; [ | apply Hnew].
    destruct (is_object (Some c)) eqn:Hobj; [ | apply Hnew].
    apply is_object_shape in Hobj as [[qs Hqs] | [items Hitems]].
    + injection Hqs as ->. cbn [bindO fst snd].
      destruct (IH qs ltac:(discriminate) Hrest (array_free_slot _ _ _ Hfree Hc))
        as [qs' Hqs'].
      rewrite Hqs'. cbn [bindO]. rewrite js_put_record by exact Hk. eauto.
    + injection Hitems as ->.
      pose proof (array_free_slot _ _ _ Hfree Hc) as Hbad. discriminate Hbad.
Qed.

Lemma split_after_key k path :
  (forall c, In c (list_ascii_of_string k) -> c <> "."%char) ->
  split "." (k +:+ "." +:+ path) = k :: split "." path.
Proof.
  induction k as [ | c k IH]; intros Hk.
  - reflexivity.
  - simpl. rewrite (proj2 (Ascii.eqb_neq c ".")) by (apply Hk; left; reflexivity).
    change (k +:+ String "." path) with (k +:+ "." +:+ path).
    rewrite IH by (intros x Hx; apply Hk; right; exact Hx). reflexivity.
Qed.

Lemma deepSet_on_length_key items path value :
  deepSet (JArr items) ("length." +:+ path) value = Thrown invalid_array_length.
Proof.
  rewrite deepSet_descend by reflexivity.
  change ("length." +:+ path) with ("length" +:+ "." +:+ path).
  rewrite (split_after_key "length" path)
    by (intros c Hc; simpl in Hc; intuition (subst; discriminate)).
  destruct (split "." path) as [ | k' rest] eqn:Hs.
  - exfalso. apply (split_nonempty "." path). exact Hs.
  - rewrite descend_step.
    assert (Hrep : repair is_object (JArr items) "length" = Thrown invalid_array_length).
    { assert (Hidx : array_index "length" = None) by (vm_compute; reflexivity).
      unfold repair, js_get, js_put. rewrite Hidx.
      change (String.eqb "length" "length") with true. cbn [bindO].
      assert (Hnum : is_object (Some (JNum (Z.of_nat (length items)))) = false).
      { unfold is_object, not_an_object. simpl. rewrite orb_true_r. reflexivity. }
      rewrite Hnum. reflexivity. }
    rewrite Hrep. reflexivity.
Qed.

Lemma deepSet_on_length_of_slot ps k items path value :
  assoc_get k ps = Some (JArr items) ->
  (forall c, In c (list_ascii_of_string k) -> c <> "."%char) ->
  deepSet (JObj ps) (k +:+ ".length." +:+ path) value = Thrown invalid_array_length.
Proof.
  intros Hown Hk. rewrite deepSet_descend by reflexivity.
  change (k +:+ ".length." +:+ path) with (k +:+ "." +:+ ("length." +:+ path)).
  rewrite (split_after_key k ("length." +:+ path) Hk).
  pose proof (deepSet_on_length_key items path value) as Hthrow.
  rewrite deepSet_descend in Hthrow by reflexivity.
  destruct (split "." ("length." +:+ path)) as [ | k' rest] eqn:Hs.
  - exfalso. apply (split_nonempty "." ("length." +:+ path)). exact Hs.
  - rewrite descend_step. unfold repair. simpl js_get. rewrite Hown.
    cbn [bindO]. change (is_object (Some (JArr items))) with true.
    cbn [bindO fst snd]. rewrite Hthrow. reflexivity.
Qed.

Lemma deepSet_sets_length items n :
  (n <= length items)%nat ->
  (Z.of_nat (length items) < 4294967296)%Z ->
  deepSet (JArr items) "length" (JNum (Z.of_nat n)) = Returned (JArr (firstn n items)).
Proof.
  intros Hn Hlen. unfold deepSet. simpl. unfold set_length.
  rewrite (proj2 (Z.leb_le 0 (Z.of_nat n))) by lia.
  rewrite (proj2 (Z.ltb_lt (Z.of_nat n) 4294967296)) by lia.
  rewrite (proj2 (Z.leb_le (Z.of_nat n) (Z.of_nat (length items)))) by lia.
  simpl. rewrite Nat2Z.id. reflexivity.
Qed.

Lemma deepSet_ignores_primitive_prototype ps value :
  assoc_get "__proto__" ps = None -> is_primitive value = true ->
  deepSet (JObj ps) "__proto__" value = Returned (JObj ps).
Proof.
  intros Hown Hv. unfold deepSet. simpl. rewrite Hown. unfold set_prototype.
  rewrite Hv. reflexivity.
Qed.




(** ** Autosave *)

Section Autosave.

Variable JSON_stringify : ResumeDoc -> string.
Variable setItem_accepts : string -> bool.

Local Abbreviation timers := (run_timers JSON_stringify setItem_accepts).
Local Abbreviation commits := (burst JSON_stringify setItem_accepts).

Lemma run_timers_quiet t w : quiet_until t w -> timers t w = w.
Proof.
  unfold quiet_until, run_timers. destruct (saveTimeout w) as [[due d] | ]; [ | reflexivity].
  intros Hlt. rewrite (proj2 (Z.leb_gt due t)) by exact Hlt. reflexivity.
Qed.

Lemma run_timers_due t w due d :
  saveTimeout w = Some (due, d) -> (due <= t)%Z ->
  timers t w = save_callback JSON_stringify setItem_accepts d w.
Proof.
  intros Hp Hle. unfold run_timers. rewrite Hp.
  rewrite (proj2 (Z.leb_le due t)) by exact Hle. reflexivity.
Qed.

Lemma setDoc_schedules now updater w w' :
  setDoc now updater w = Returned w' ->
  saveTimeout w' = Some ((now + AUTOSAVE_DELAY)%Z, doc (store w')) /\
  writes w' = writes w /\ storage w' = storage w.
Proof.
  unfold setDoc. destruct updater as [d | f]; simpl.
  - intros H. injection H as <-. repeat split.
  - destruct (f (doc (store w))) as [[d ws] | msg | ]; simpl; try discriminate.
    intros H. injection H as <-. repeat split.
Qed.

Lemma burst_stays_quiet calls :
  forall w w' tN,
    within_delay (map fst calls ++ [tN]) ->
    quiet_until (hd tN (map fst calls)) w ->
    commits calls w = Returned w' ->
    quiet_until tN w' /\ writes w' = writes w /\ storage w' = storage w.
Proof.
  induction calls as [ | [t u] calls IH]; intros w w' tN Hdelay Hquiet Hrun.
  - simpl in *. injection Hrun as <-. repeat split. exact Hquiet.
  - simpl in Hquiet, Hrun. rewrite run_timers_quiet in Hrun by exact Hquiet.
    destruct (setDoc t u w) as [w1 | msg | ] eqn:Hset; simpl in Hrun; try discriminate.
    destruct (setDoc_schedules _ _ _ _ Hset) as (Hp & Hw & Hs).
    assert (Hnext : (t <= hd tN (map fst calls) < t + AUTOSAVE_DELAY)%Z /\
                    within_delay (map fst calls ++ [tN])).
    { simpl in Hdelay. destruct calls as [ | [t' u'] calls']; simpl in *; tauto. }
    destruct Hnext as [Hgap Hrest].
    destruct (IH w1 w' tN Hrest) as (Hq & Hw' & Hs'); [ | exact Hrun | ].
    + unfold quiet_until. rewrite Hp. lia.
    + repeat split; [exact Hq | congruence | congruence].
Qed.



End Autosave.



(** * Further properties of the store *)

(** ** What every mutation keeps *)

Lemma setDoc_Update_inv now f w w' :
  setDoc now (Update f) w = Returned w' ->
  exists newDoc warnings,
    f (doc (store w)) = Returned (newDoc, warnings) /\
    w' = committed now newDoc warnings w.
Proof.
  unfold setDoc. destruct (f (doc (store w))) as [[newDoc warnings] | msg | ] eqn:Hf;
    simpl; try discriminate.
  intros H. injection H as <-. exists newDoc, warnings. split; reflexivity.
Qed.

Lemma mutate_updater now m :
  exists f, mutate now m = setDoc now (Update f) /\
    f = match m with
        | UpdateField sectionId blockId path value =>
            updateField_updater sectionId blockId path value
        | AddBlock rnd36 sectionId blockTemplate =>
            addBlock_updater rnd36 sectionId blockTemplate
        | RemoveBlock sectionId blockId => removeBlock_updater sectionId blockId
        | ReorderSections newOrderIds => reorderSections_updater newOrderIds
        | SetTheme partialTheme => setTheme_updater partialTheme
        end.
Proof. destruct m; eexists; split; reflexivity. Qed.

Lemma updateField_updater_keeps sectionId blockId path value d d' ws :
  updateField_updater sectionId blockId path value d = Returned (d', ws) ->
  doc_id d' = doc_id d /\ meta d' = meta d /\ theme d' = theme d.
Proof.
  unfold updateField_updater. rewrite JSON_clone_id.
  destruct (List.find (has_section_id sectionId) (sections d)) as [s | ].
  - destruct (List.find (has_block_id blockId) (blocks s)) as [b | ].
    + destruct (deepSet (fields b) path value); simpl; try discriminate.
      intros H. injection H as <- <-. repeat split.
    + intros H. injection H as <- <-. repeat split.
  - intros H. injection H as <- <-. repeat split.
Qed.

Lemma addBlock_updater_keeps rnd36 sectionId tpl d d' ws :
  addBlock_updater rnd36 sectionId tpl d = Returned (d', ws) ->
  doc_id d' = doc_id d /\ meta d' = meta d /\ theme d' = theme d.
Proof.
  unfold addBlock_updater. rewrite JSON_clone_id.
  destruct (List.find (has_section_id sectionId) (sections d));
    intros H; injection H as <- <-; repeat split.
Qed.

Lemma removeBlock_updater_keeps sectionId blockId d d' ws :
  removeBlock_updater sectionId blockId d = Returned (d', ws) ->
  doc_id d' = doc_id d /\ meta d' = meta d /\ theme d' = theme d.
Proof.
  unfold removeBlock_updater. rewrite JSON_clone_id.
  destruct (List.find (has_section_id sectionId) (sections d));
    intros H; injection H as <- <-; repeat split.
Qed.

Lemma mutate_keeps now m w w' :
  mutate now m w = Returned w' ->
  doc_id (doc (store w')) = doc_id (doc (store w)) /\
  title (meta (doc (store w'))) = title (meta (doc (store w))) /\
  createdAt (meta (doc (store w'))) = createdAt (meta (doc (store w))) /\
  updatedAt (meta (doc (store w'))) = now /\
  template (store w') = template (store w) /\
  saveTimeout w' = Some ((now + AUTOSAVE_DELAY)%Z, doc (store w')) /\
  writes w' = writes w /\ storage w' = storage w.
Proof.
  intros Hm.
  destruct (mutate_updater now m) as (f & Hf & Hfm). rewrite Hf in Hm.
  destruct (setDoc_Update_inv _ _ _ _ Hm) as (d' & ws & Hd' & ->).
  assert (Hkeep : doc_id d' = doc_id (doc (store w)) /\ meta d' = meta (doc (store w))).
  { subst f. destruct m.
    - destruct (updateField_updater_keeps _ _ _ _ _ _ _ Hd') as (? & ? & ?); auto.
    - destruct (addBlock_updater_keeps _ _ _ _ _ _ Hd') as (? & ? & ?); auto.
    - destruct (removeBlock_updater_keeps _ _ _ _ _ Hd') as (? & ? & ?); auto.
    - unfold reorderSections_updater in Hd'. rewrite JSON_clone_id in Hd'.
      injection Hd' as <- <-. split; reflexivity.
    - unfold setTheme_updater in Hd'. injection Hd' as <- <-. split; reflexivity. }
  destruct Hkeep as [Hid Hmeta]. simpl. rewrite Hid, Hmeta. repeat split.
Qed.

(** X1. Across any sequence of mutations of the store
    ([updateField], [addBlock], [removeBlock], [reorderSections], [setTheme])
    that all return, the document keeps its id, its title and its creation
    time, the template of the store stays, and nothing is written to storage
    by the calls themselves; after the last call [meta.updatedAt] is the time
    of that call and the one pending autosave is that of the committed
    document. *)
Theorem mutations_keep_identity_and_creation_time :
  forall (calls : list (Z * Mutation)) (w w' : World),
    mutate_all calls w = Returned w' ->
    doc_id (doc (store w')) = doc_id (doc (store w)) /\
    title (meta (doc (store w'))) = title (meta (doc (store w))) /\
    createdAt (meta (doc (store w'))) = createdAt (meta (doc (store w))) /\
    template (store w') = template (store w) /\
    writes w' = writes w /\ storage w' = storage w /\
    (forall now m, List.last (map Some calls) None = Some (now, m) ->
       updatedAt (meta (doc (store w'))) = now /\
       saveTimeout w' = Some ((now + AUTOSAVE_DELAY)%Z, doc (store w'))).
Proof.
  induction calls as [ | [now m] calls IH]; intros w w' Hrun.
  - simpl in Hrun. injection Hrun as <-. repeat split; discriminate.
  - simpl in Hrun. destruct (mutate now m w) as [w1 | msg | ] eqn:Hm;
      simpl in Hrun; try discriminate.
    destruct (mutate_keeps _ _ _ _ Hm) as (H1 & H2 & H3 & H4 & H5 & H6 & H7 & H8).
    destruct (IH w1 w' Hrun) as (I1 & I2 & I3 & I5 & I7 & I8 & Ilast).
    repeat split; try congruence.
    + destruct calls as [ | c calls'].
      * simpl in H. injection H as <- <-. simpl in Hrun. injection Hrun as <-. exact H4.
      * apply (Ilast now0 m0). exact H.
    + destruct calls as [ | c calls'].
      * simpl in H. injection H as <- <-. simpl in Hrun. injection Hrun as <-. exact H6.
      * apply (Ilast now0 m0). exact H.
Qed.

Lemma mutations_keep_identity_and_creation_time_witness :
  exists w',
    mutate_all sampleEdits (world_of (sampleResume 1699999990000 1699999990000))
      = Returned w' /\
    doc_id (doc (store w')) = "sample_resume_001" /\
    title (meta (doc (store w'))) = "John Anderson Resume" /\
    createdAt (meta (doc (store w'))) = 1699999990000%Z /\
    template (store w') = classic /\
    writes w' = [] /\ storage w' = None /\
    (forall now m, List.last (map Some sampleEdits) None = Some (now, m) ->
       updatedAt (meta (doc (store w'))) = now /\
       saveTimeout w' = Some ((now + AUTOSAVE_DELAY)%Z, doc (store w'))).
Proof.
  assert (Hrun : exists w',
            mutate_all sampleEdits (world_of (sampleResume 1699999990000 1699999990000))
            = Returned w') by (eexists; vm_compute; reflexivity).
  destruct Hrun as [w' Hrun]. exists w'. split; [exact Hrun | ].
  exact (mutations_keep_identity_and_creation_time sampleEdits
           (world_of (sampleResume 1699999990000 1699999990000)) w' Hrun).
Defined.

(** ** updateField *)

Lemma map_update_first {A B : Type} (g : A -> B) (p : A -> bool) (f : A -> A) l :
  (forall x, g (f x) = g x) -> map g (update_first p f l) = map g l.
Proof.
  intros Hg. induction l as [ | x l IH]; simpl; [reflexivity | ].
  destruct (p x); simpl; rewrite ?Hg, ?IH; reflexivity.
Qed.

Lemma updateField_updater_outline sectionId blockId path value d d' ws :
  updateField_updater sectionId blockId path value d = Returned (d', ws) ->
  outline d' = outline d.
Proof.
  unfold updateField_updater. rewrite JSON_clone_id.
  destruct (List.find (has_section_id sectionId) (sections d)) as [s | ].
  - destruct (List.find (has_block_id blockId) (blocks s)) as [b | ].
    + destruct (deepSet (fields b) path value) as [f' | | ]; simpl; try discriminate.
      intros H. injection H as <- <-. unfold outline. simpl.
      apply map_update_first. intros x. unfold section_outline. simpl.
      f_equal. apply map_update_first. intros y. reflexivity.
    + intros H. injection H as <- <-. reflexivity.
  - intros H. injection H as <- <-. reflexivity.
Qed.

(** X2. Across any sequence of [updateField] calls that all return, every
    section and block keeps its id, type and place (and sections their title
    and hidden flag): only fields of blocks can differ; the theme is
    untouched. *)
Theorem updateField_keeps_ids :
  forall (calls : list (Z * Mutation)) (w w' : World),
    Forall (fun c => is_updateField (snd c)) calls ->
    mutate_all calls w = Returned w' ->
    outline (doc (store w')) = outline (doc (store w)) /\
    theme (doc (store w')) = theme (doc (store w)).
Proof.
  induction calls as [ | [now m] calls IH]; intros w w' Hall Hrun.
  - simpl in Hrun. injection Hrun as <-. split; reflexivity.
  - inversion Hall as [ | ? ? Hm Hrest]; subst. simpl in Hm, Hrun.
    destruct m as [sectionId blockId path value | | | | ]; try contradiction.
    simpl in Hrun.
    destruct (updateField now sectionId blockId path value w) as [w1 | | ] eqn:Hu;
      simpl in Hrun; try discriminate.
    destruct (setDoc_Update_inv _ _ _ _ Hu) as (d' & ws & Hd' & ->).
    destruct (IH _ _ Hrest Hrun) as [Io It]. rewrite Io, It. simpl.
    split.
    + apply (updateField_updater_outline _ _ _ _ _ _ _ Hd').
    + apply (updateField_updater_keeps _ _ _ _ _ _ _ Hd').
Qed.

Lemma updateField_keeps_ids_witness :
  exists w',
    Forall (fun c => is_updateField (snd c)) headerEdits /\
    mutate_all headerEdits (world_of (sampleResume 1699999990000 1699999990000))
      = Returned w' /\
    outline (doc (store w')) = outline (sampleResume 1699999990000 1699999990000) /\
    theme (doc (store w')) = theme (sampleResume 1699999990000 1699999990000).
Proof.
  assert (H : Forall (fun c => is_updateField (snd c)) headerEdits)
    by (repeat constructor).
  assert (Hrun : exists w',
            mutate_all headerEdits (world_of (sampleResume 1699999990000 1699999990000))
            = Returned w') by (eexists; vm_compute; reflexivity).
  destruct Hrun as [w' Hrun]. exists w'. split; [exact H | ]. split; [exact Hrun | ].
  exact (updateField_keeps_ids headerEdits
           (world_of (sampleResume 1699999990000 1699999990000)) w' H Hrun).
Defined.

(** X3. When [updateField] finds the section and the block and [deepSet]
    returns, the committed sections are those before with one change: in
    the first section with the id, the first block with the id has the
    fields that [deepSet] produced, its id and type being as before; the
    section keeps its id, type, title and hidden flag and its other blocks;
    nothing is logged. *)
Theorem updateField_changes_one_block :
  forall (now : Z) (sectionId blockId path : string) (value : JValue)
         (w : World) (pre post : list Section) (s : Section)
         (bpre bpost : list Block) (b : Block) (fields' : JValue),
    sections (doc (store w)) = pre ++ s :: post ->
    (forall x, In x pre -> section_id x <> sectionId) ->
    section_id s = sectionId ->
    blocks s = bpre ++ b :: bpost ->
    (forall y, In y bpre -> block_id y <> blockId) ->
    block_id b = blockId ->
    deepSet (fields b) path value = Returned fields' ->
    exists w' s' b',
      updateField now sectionId blockId path value w = Returned w' /\
      sections (doc (store w')) = pre ++ s' :: post /\
      List.find (has_section_id sectionId) (sections (doc (store w'))) = Some s' /\
      blocks s' = bpre ++ b' :: bpost /\
      List.find (has_block_id blockId) (blocks s') = Some b' /\
      fields b' = fields' /\
      block_id b' = block_id b /\
      block_type b' = block_type b /\
      section_id s' = section_id s /\
      section_type s' = section_type s /\
      section_title s' = section_title s /\
      hidden s' = hidden s /\
      console w' = console w.
Proof.
  intros now sectionId blockId path value w pre post s bpre bpost b fields'
         Hss Hpre Hs Hbs Hbpre Hb Hset.
  assert (Hpre' : forall x, In x pre -> has_section_id sectionId x = false)
    by (intros x Hx; apply String.eqb_neq; auto).
  assert (Hs' : has_section_id sectionId s = true) by (apply String.eqb_eq; exact Hs).
  assert (Hbpre' : forall y, In y bpre -> has_block_id blockId y = false)
    by (intros y Hy; apply String.eqb_neq; auto).
  assert (Hb' : has_block_id blockId b = true) by (apply String.eqb_eq; exact Hb).
  exists (committed now
            (with_sections (doc (store w))
               (pre ++ with_blocks s (bpre ++ with_fields b fields' :: bpost) :: post))
            [] w),
    (with_blocks s (bpre ++ with_fields b fields' :: bpost)), (with_fields b fields').
  split.
  - unfold updateField. apply setDoc_Update. unfold updateField_updater.
    rewrite JSON_clone_id, Hss, (find_first_match _ pre post s Hpre' Hs').
    rewrite Hbs, (find_first_match _ bpre bpost b Hbpre' Hb'), Hset. simpl.
    rewrite (update_first_match _ _ pre post s Hpre' Hs').
    rewrite Hbs, (update_first_match _ _ bpre bpost b Hbpre' Hb'). reflexivity.
  - simpl. repeat split; try reflexivity.
    + apply find_first_match; [exact Hpre' | exact Hs'].
    + apply find_first_match; [exact Hbpre' | exact Hb'].
    + apply app_nil_r.
Qed.

Lemma updateField_changes_one_block_witness :
  exists w' s' b',
    updateField 1700000000000 "s2" "b2" "role" (JStr "Eng") (world_of twoBlocks)
      = Returned w' /\
    sections (doc (store w')) = [section_named "s1"] ++ s' :: [section_named "s3"] /\
    List.find (has_section_id "s2") (sections (doc (store w'))) = Some s' /\
    blocks s' = [block_named "b1"] ++ b' :: [] /\
    List.find (has_block_id "b2") (blocks s') = Some b' /\
    fields b' = JObj [("role", JStr "Eng")] /\
    block_id b' = block_id (block_named "b2") /\
    block_type b' = block_type (block_named "b2") /\
    section_id s' =
      section_id (with_blocks (section_named "s2") [block_named "b1"; block_named "b2"]) /\
    section_type s' =
      section_type (with_blocks (section_named "s2") [block_named "b1"; block_named "b2"]) /\
    section_title s' =
      section_title (with_blocks (section_named "s2") [block_named "b1"; block_named "b2"]) /\
    hidden s' =
      hidden (with_blocks (section_named "s2") [block_named "b1"; block_named "b2"]) /\
    console w' = console (world_of twoBlocks).
Proof.
  refine (updateField_changes_one_block 1700000000000%Z "s2" "b2" "role" (JStr "Eng")
            (world_of twoBlocks) [section_named "s1"] [section_named "s3"]
            (with_blocks (section_named "s2") [block_named "b1"; block_named "b2"])
            [block_named "b1"] [] (block_named "b2") (JObj [("role", JStr "Eng")])
            eq_refl _ eq_refl eq_refl _ eq_refl eq_refl).
  - intros x [<- | []]. simpl. discriminate.
  - intros y [<- | []]. simpl. discriminate.
Defined.

(** X4. [updateField] throws to its caller when the block it finds has
    fields that are not an object or array ([null], a string, a number, a
    boolean): the error of [deepSet] is not caught, and nothing is
    committed. *)
Theorem updateField_throws_on_non_object_fields :
  forall (now : Z) (sectionId blockId path : string) (value : JValue)
         (w : World) (s : Section) (b : Block),
    List.find (has_section_id sectionId) (sections (doc (store w))) = Some s ->
    List.find (has_block_id blockId) (blocks s) = Some b ->
    is_object (Some (fields b)) = false ->
    updateField now sectionId blockId path value w =
      Thrown "deepSet: target must be an object".
Proof.
  intros now sectionId blockId path value w s b Hs Hb Hobj.
  unfold updateField, setDoc, updateField_updater.
  rewrite JSON_clone_id, Hs, Hb. unfold deepSet.
  unfold is_object in Hobj. destruct (not_an_object (Some (fields b)));
    [reflexivity | discriminate].
Qed.

Lemma updateField_throws_on_non_object_fields_witness :
  List.find (has_section_id "s1") (sections (doc (store (world_of nullFields))))
    = Some (with_blocks (section_named "s1") [with_fields (block_named "b1") JNull]) /\
  List.find (has_block_id "b1")
    (blocks (with_blocks (section_named "s1") [with_fields (block_named "b1") JNull]))
    = Some (with_fields (block_named "b1") JNull) /\
  is_object (Some (fields (with_fields (block_named "b1") JNull))) = false /\
  updateField 1700000000000 "s1" "b1" "name" (JStr "x") (world_of nullFields) =
    Thrown "deepSet: target must be an object".
Proof.
  repeat (split; [reflexivity | ]).
  exact (updateField_throws_on_non_object_fields 1700000000000%Z "s1" "b1" "name"
           (JStr "x") (world_of nullFields) _ _ eq_refl eq_refl eq_refl).
Defined.

(** ** removeBlock *)

Lemma filter_filter_same {A : Type} (p : A -> bool) (l : list A) :
  List.filter p (List.filter p l) = List.filter p l.
Proof.
  induction l as [ | x l IH]; simpl; [reflexivity | ].
  destruct (p x) eqn:Hp; simpl; rewrite ?Hp, IH; reflexivity.
Qed.

Lemma removeBlock_found now sectionId blockId w pre s post :
  sections (doc (store w)) = pre ++ s :: post ->
  (forall x, In x pre -> has_section_id sectionId x = false) ->
  has_section_id sectionId s = true ->
  removeBlock now sectionId blockId w =
  Returned
    (committed now
       (with_sections (doc (store w))
          (pre ++
           with_blocks s
             (List.filter (fun b => negb (has_block_id blockId b)) (blocks s))
           :: post)) [] w).
Proof.
  intros Hss Hpre Hs. unfold removeBlock. apply setDoc_Update.
  unfold removeBlock_updater.
  rewrite JSON_clone_id, Hss, (find_first_match _ pre post s Hpre Hs).
  rewrite (update_first_match _ _ pre post s Hpre Hs). reflexivity.
Qed.

(** X5. When the document has a section with id [sectionId],
    [removeBlock(sectionId, blockId)] commits the sections with one change:
    the first section with that id keeps, in order, exactly its blocks whose
    id is not [blockId] (every block with that id goes, none when there is no
    such block); afterwards that section has no block with the id, and
    nothing is logged. *)
Theorem removeBlock_filters_one_section :
  forall (now : Z) (sectionId blockId : string) (w : World),
    In sectionId (map section_id (sections (doc (store w)))) ->
    exists w' pre s post,
      removeBlock now sectionId blockId w = Returned w' /\
      sections (doc (store w)) = pre ++ s :: post /\
      section_id s = sectionId /\
      (forall x, In x pre -> section_id x <> sectionId) /\
      sections (doc (store w')) =
        pre ++
        with_blocks s (List.filter (fun b => negb (String.eqb (block_id b) blockId))
                         (blocks s))
        :: post /\
      (forall s', List.find (has_section_id sectionId) (sections (doc (store w'))) = Some s' ->
                  ~ In blockId (map block_id (blocks s'))) /\
      console w' = console w.
Proof.
  intros now sectionId blockId w Hin.
  apply has_section_id_existsb in Hin.
  destruct (first_match_split _ _ Hin) as (pre & s & post & Hss & Hpre & Hs).
  eexists _, pre, s, post.
  split; [apply (removeBlock_found _ _ _ _ _ _ _ Hss Hpre Hs) | ].
  split; [exact Hss | ]. split; [apply String.eqb_eq; exact Hs | ].
  split; [intros x Hx; apply String.eqb_neq; apply Hpre; exact Hx | ].
  simpl. split; [reflexivity | ]. split; [ | apply app_nil_r].
  intros s'. rewrite find_first_match by assumption.
  intros H. injection H as <-. simpl.
  rewrite in_map_iff. intros (b & Hid & Hb).
  apply filter_In in Hb as [_ Hb]. unfold has_block_id in Hb.
  rewrite Hid, String.eqb_refl in Hb. discriminate.
Qed.

Lemma removeBlock_filters_one_section_witness :
  In "s2" (map section_id (sections (doc (store (world_of twoBlocks))))) /\
  exists w' pre s post,
    removeBlock 1700000000000 "s2" "b1" (world_of twoBlocks) = Returned w' /\
    sections (doc (store (world_of twoBlocks))) = pre ++ s :: post /\
    section_id s = "s2" /\
    (forall x, In x pre -> section_id x <> "s2") /\
    sections (doc (store w')) =
      pre ++
      with_blocks s (List.filter (fun b => negb (String.eqb (block_id b) "b1"))
                       (blocks s))
      :: post /\
    (forall s', List.find (has_section_id "s2") (sections (doc (store w'))) = Some s' ->
                ~ In "b1" (map block_id (blocks s'))) /\
    console w' = console (world_of twoBlocks).
Proof.
  assert (H : In "s2" (map section_id (sections (doc (store (world_of twoBlocks))))))
    by (simpl; auto).
  split; [exact H | ].
  exact (removeBlock_filters_one_section 1700000000000%Z "s2" "b1"
           (world_of twoBlocks) H).
Defined.

(** X6. Removing the same block a second time changes no section: the
    sections committed by the second [removeBlock] are those committed by the
    first (only [meta.updatedAt] moves). *)
Theorem removeBlock_twice_is_once :
  forall (now1 now2 : Z) (sectionId blockId : string) (w w1 w2 : World),
    removeBlock now1 sectionId blockId w = Returned w1 ->
    removeBlock now2 sectionId blockId w1 = Returned w2 ->
    sections (doc (store w2)) = sections (doc (store w1)) /\
    doc (store w2) = restamped now2 (doc (store w1)).
Proof.
  intros now1 now2 sectionId blockId w w1 w2 H1 H2.
  assert (Hgoal : sections (doc (store w2)) = sections (doc (store w1))).
  { destruct (existsb (has_section_id sectionId) (sections (doc (store w)))) eqn:Hex.
    - destruct (first_match_split _ _ Hex) as (pre & s & post & Hss & Hpre & Hs).
      rewrite (removeBlock_found _ _ _ _ _ _ _ Hss Hpre Hs) in H1.
      injection H1 as <-.
      rewrite (removeBlock_found now2 sectionId blockId _ pre
                 (with_blocks s (List.filter (fun b => negb (has_block_id blockId b))
                                   (blocks s))) post) in H2;
        [ | reflexivity | exact Hpre | exact Hs].
      injection H2 as <-. simpl. rewrite filter_filter_same. reflexivity.
    - assert (Hnone : forall ss, existsb (has_section_id sectionId) ss = false ->
                List.find (has_section_id sectionId) ss = None).
      { intros ss Hss. apply find_none_iff. intros x Hx.
        destruct (has_section_id sectionId x) eqn:Hp; [ | reflexivity].
        rewrite <- Hss. symmetry. apply existsb_exists. exists x. auto. }
      unfold removeBlock in H1, H2.
      destruct (setDoc_Update_inv _ _ _ _ H1) as (d1 & ws1 & Hd1 & ->).
      unfold removeBlock_updater in Hd1.
      rewrite JSON_clone_id, (Hnone _ Hex) in Hd1. injection Hd1 as <- <-.
      destruct (setDoc_Update_inv _ _ _ _ H2) as (d2 & ws2 & Hd2 & ->).
      unfold removeBlock_updater in Hd2. rewrite JSON_clone_id in Hd2. simpl in Hd2.
      rewrite (Hnone _ Hex) in Hd2. injection Hd2 as <- <-. reflexivity. }
  split; [exact Hgoal | ].
  unfold removeBlock in H2.
  destruct (setDoc_Update_inv _ _ _ _ H2) as (d2 & ws2 & Hd2 & ->).
  simpl in *. destruct (removeBlock_updater_keeps _ _ _ _ _ Hd2) as (Hid & Hmeta & Hth).
  unfold restamped, stamp. rewrite Hid, Hmeta, Hth, Hgoal. reflexivity.
Qed.

Lemma removeBlock_twice_is_once_witness :
  exists w1 w2,
    removeBlock 1700000000000 "s2" "b1" (world_of twoBlocks) = Returned w1 /\
    removeBlock 1700000000100 "s2" "b1" w1 = Returned w2 /\
    sections (doc (store w2)) = sections (doc (store w1)) /\
    doc (store w2) = restamped 1700000000100 (doc (store w1)).
Proof.
  assert (H1 : exists w1,
            removeBlock 1700000000000 "s2" "b1" (world_of twoBlocks) = Returned w1)
    by (eexists; vm_compute; reflexivity).
  destruct H1 as [w1 H1].
  assert (H2 : exists w2, removeBlock 1700000000100 "s2" "b1" w1 = Returned w2).
  { unfold removeBlock, setDoc. destruct (removeBlock_updater "s2" "b1" (doc (store w1)))
      as [r | | ] eqn:Hr; simpl; eauto;
      unfold removeBlock_updater in Hr;
      destruct (List.find (has_section_id "s2") (sections (JSON_clone (doc (store w1)))));
      discriminate. }
  destruct H2 as [w2 H2]. exists w1, w2.
  split; [exact H1 | ]. split; [exact H2 | ].
  exact (removeBlock_twice_is_once 1700000000000%Z 1700000000100%Z "s2" "b1"
           (world_of twoBlocks) w1 w2 H1 H2).
Defined.

(** ** addBlock and removeBlock together *)

Lemma filter_app_new blockId bs (b : Block) :
  ~ In blockId (map block_id bs) -> block_id b = blockId ->
  List.filter (fun x => negb (has_block_id blockId x)) (bs ++ [b]) = bs.
Proof.
  intros Hfresh Hb. rewrite List.filter_app, filter_block_absent by exact Hfresh.
  simpl. unfold has_block_id. rewrite Hb, String.eqb_refl. simpl. apply app_nil_r.
Qed.

(** X7. Adding a block and then removing the block with the generated id
    gives back the sections as they were, provided the generated id is not
    already the id of a block of that section (when it is, the removal takes
    the older block with it, since ids are not checked for uniqueness). *)
Theorem addBlock_then_removeBlock_restores :
  forall (rnd36 : string) (now1 now2 : Z) (sectionId : string)
         (blockTemplate : Block) (w : World) (s : Section),
    List.find (has_section_id sectionId) (sections (doc (store w))) = Some s ->
    ~ In (uid rnd36 (Some (block_type blockTemplate))) (map block_id (blocks s)) ->
    exists w1 w2,
      addBlock rnd36 now1 sectionId blockTemplate w = Returned w1 /\
      removeBlock now2 sectionId (uid rnd36 (Some (block_type blockTemplate))) w1
        = Returned w2 /\
      sections (doc (store w2)) = sections (doc (store w)) /\
      doc (store w2) = restamped now2 (doc (store w)).
Proof.
  intros rnd36 now1 now2 sectionId tpl w s Hfind Hfresh.
  assert (Hex : existsb (has_section_id sectionId) (sections (doc (store w))) = true).
  { apply find_some in Hfind as [Hin Hp]. apply existsb_exists. eauto. }
  destruct (first_match_split _ _ Hex) as (pre & s0 & post & Hss & Hpre & Hs).
  assert (s0 = s) as ->.
  { rewrite Hss, (find_first_match _ pre post s0 Hpre Hs) in Hfind. congruence. }
  set (newBlock := {| block_id := uid rnd36 (Some (block_type tpl));
                      block_type := block_type tpl; fields := fields tpl |}).
  exists (committed now1
            (with_sections (doc (store w))
               (pre ++ with_blocks s (blocks s ++ [newBlock]) :: post)) [] w).
  eexists. split; [ | split].
  - unfold addBlock. apply setDoc_Update. unfold addBlock_updater.
    rewrite JSON_clone_id, Hss, (find_first_match _ pre post s Hpre Hs).
    rewrite (update_first_match _ _ pre post s Hpre Hs). reflexivity.
  - apply (removeBlock_found now2 sectionId _ _ pre
             (with_blocks s (blocks s ++ [newBlock])) post);
      [reflexivity | exact Hpre | exact Hs].
  - simpl. rewrite (filter_app_new _ _ newBlock Hfresh eq_refl).
    assert (Hs' : with_blocks (with_blocks s (blocks s ++ [newBlock])) (blocks s) = s)
      by (destruct s; reflexivity).
    rewrite Hs', <- Hss. split; [reflexivity | ].
    destruct (doc (store w)) as [i [t c u] th ss]. reflexivity.
Qed.

Lemma addBlock_then_removeBlock_restores_witness :
  List.find (has_section_id "s2") (sections (doc (store (world_of twoBlocks))))
    = Some (with_blocks (section_named "s2") [block_named "b1"; block_named "b2"]) /\
  ~ In (uid "0.4fzyo82mvyr" (Some (block_type engineerTemplate)))
       (map block_id
          (blocks (with_blocks (section_named "s2") [block_named "b1"; block_named "b2"]))) /\
  exists w1 w2,
    addBlock "0.4fzyo82mvyr" 1700000000000 "s2" engineerTemplate (world_of twoBlocks)
      = Returned w1 /\
    removeBlock 1700000000100 "s2" (uid "0.4fzyo82mvyr" (Some (block_type engineerTemplate))) w1
      = Returned w2 /\
    sections (doc (store w2)) = sections (doc (store (world_of twoBlocks))) /\
    doc (store w2) = restamped 1700000000100 (doc (store (world_of twoBlocks))).
Proof.
  assert (H : ~ In (uid "0.4fzyo82mvyr" (Some (block_type engineerTemplate)))
                (map block_id
                   (blocks (with_blocks (section_named "s2")
                              [block_named "b1"; block_named "b2"]))))
    by (vm_compute; intuition discriminate).
  split; [reflexivity | ]. split; [exact H | ].
  exact (addBlock_then_removeBlock_restores "0.4fzyo82mvyr" 1700000000000%Z
           1700000000100%Z "s2" engineerTemplate (world_of twoBlocks) _ eq_refl H).
Defined.

(** ** reorderSections with a complete ordering *)

Lemma find_unique_id (ss : list Section) (s : Section) :
  List.NoDup (map section_id ss) -> In s ss ->
  List.find (has_section_id (section_id s)) ss = Some s.
Proof.
  induction ss as [ | x xs IH]; intros Hnd Hin; [destruct Hin | ].
  simpl in Hnd. inversion Hnd as [ | ? ? Hnotin Hnd']; subst. simpl.
  unfold has_section_id at 1.
  destruct (String.eqb_spec (section_id x) (section_id s)) as [Heq | Hne].
  - destruct Hin as [-> | Hin]; [reflexivity | ].
    exfalso. apply Hnotin. rewrite Heq. apply in_map. exact Hin.
  - destruct Hin as [-> | Hin]; [congruence | ]. apply IH; assumption.
Qed.

(** X8. When the section ids of the document are pairwise distinct and
    [newOrderIds] lists the ids of the sections in some order, each once,
    [reorderSections] commits exactly the sections in that order: no section
    is lost, copied or altered.  In particular the current order of ids
    leaves the sections as they are. *)
Theorem reorderSections_with_complete_ordering :
  forall (now : Z) (w : World) (ordered : list Section),
    List.NoDup (map section_id (sections (doc (store w)))) ->
    Permutation ordered (sections (doc (store w))) ->
    exists w',
      reorderSections now (map section_id ordered) w = Returned w' /\
      sections (doc (store w')) = ordered.
Proof.
  intros now w ordered Hnd Hperm.
  eexists. split; [apply reorderSections_returns | ]. simpl.
  assert (Hall : forall s, In s ordered ->
            List.find (has_section_id (section_id s))
              (rev (sections (doc (store w)))) = Some s).
  { intros s Hs. apply find_unique_id.
    - rewrite map_rev. apply NoDup_rev. exact Hnd.
    - apply in_rev. rewrite rev_involutive.
      apply (Permutation_in _ Hperm). exact Hs. }
  clear Hperm. induction ordered as [ | s rest IH]; [reflexivity | ].
  csimpl. rewrite (Hall s) by (left; reflexivity). csimpl.
  rewrite IH; [reflexivity | ]. intros x Hx. apply Hall. right; exact Hx.
Qed.

Lemma reorderSections_with_complete_ordering_witness :
  List.NoDup (map section_id (sections (doc (store (world_of threeSections))))) /\
  Permutation [section_named "s3"; section_named "s1"; section_named "s2"]
    (sections (doc (store (world_of threeSections)))) /\
  exists w',
    reorderSections 1700000000000
      (map section_id [section_named "s3"; section_named "s1"; section_named "s2"])
      (world_of threeSections) = Returned w' /\
    sections (doc (store w')) =
      [section_named "s3"; section_named "s1"; section_named "s2"].
Proof.
  assert (H1 : List.NoDup (map section_id (sections (doc (store (world_of threeSections))))))
    by (simpl; repeat (constructor; [simpl; intuition discriminate | ]); constructor).
  assert (H2 : Permutation [section_named "s3"; section_named "s1"; section_named "s2"]
                 (sections (doc (store (world_of threeSections))))).
  { simpl. apply Permutation_sym.
    apply (Permutation_cons_app [section_named "s3"] [section_named "s2"]).
    apply perm_swap. }
  split; [exact H1 | ]. split; [exact H2 | ].
  exact (reorderSections_with_complete_ordering 1700000000000%Z
           (world_of threeSections) _ H1 H2).
Defined.

(** ** Autosave, further *)

Section AutosaveFurther.

Variable JSON_stringify : ResumeDoc -> string.
Variable setItem_accepts : string -> bool.

Local Abbreviation timers' := (run_timers JSON_stringify setItem_accepts).


(** X10. [setTemplate] changes the template and nothing else: the document
    and the pending autosave are as before, no save is scheduled, and
    whenever the timers run afterwards the texts written and the stored item
    are what they would have been without the call, while the template
    chosen is still in the store. *)
Theorem setTemplate_is_not_saved :
  forall (t : Template) (T : Z) (w : World),
    doc (store (setTemplate t w)) = doc (store w) /\
    saveTimeout (setTemplate t w) = saveTimeout w /\
    timers' T (setTemplate t w) = setTemplate t (timers' T w) /\
    writes (timers' T (setTemplate t w)) = writes (timers' T w) /\
    storage (timers' T (setTemplate t w)) = storage (timers' T w) /\
    template (store (timers' T (setTemplate t w))) = t.
Proof.
  intros t T w.
  assert (Hcomm : timers' T (setTemplate t w) = setTemplate t (timers' T w)).
  { unfold run_timers. simpl. destruct (saveTimeout w) as [[due d] | ]; [ | reflexivity].
    destruct (Z.leb due T); [ | reflexivity].
    unfold save_callback. simpl.
    destruct (setItem_accepts (JSON_stringify d)); reflexivity. }
  rewrite Hcomm. repeat split.
Qed.

(** X12. When [localStorage.setItem] rejects the text, the save fails
    without consequence for the editor: the stored item and the document in
    the store are as before, the error is logged, no timer is left pending,
    and the next commit schedules its save as usual. *)
Theorem failed_save_is_logged_and_editing_goes_on :
  forall (due T : Z) (d : ResumeDoc) (w : World),
    saveTimeout w = Some (due, d) ->
    (due <= T)%Z ->
    setItem_accepts (JSON_stringify d) = false ->
    storage (timers' T w) = storage w /\
    doc (store (timers' T w)) = doc (store w) /\
    saveTimeout (timers' T w) = None /\
    console (timers' T w) = console w ++ ["Failed to save resume to localStorage:"] /\
    (forall now updater w',
       setDoc now updater (timers' now (timers' T w)) = Returned w' ->
       saveTimeout w' = Some ((now + AUTOSAVE_DELAY)%Z, doc (store w')) /\
       storage w' = storage w).
Proof.
  intros due T d w Hp Hle Hno.
  rewrite (run_timers_due JSON_stringify setItem_accepts T w _ _ Hp Hle).
  unfold save_callback. rewrite Hno. simpl. repeat split.
  - rewrite run_timers_quiet in H by exact I.
    apply (setDoc_schedules _ _ _ _ H).
  - rewrite run_timers_quiet in H by exact I.
    destruct (setDoc_schedules _ _ _ _ H) as (_ & _ & Hs). exact Hs.
Qed.

Variables loaded1 loaded2 : Z.
Variable JSON_parse : string -> option JValue.

(** X11. Save, then load.  When the autosave of a document has run and
    [setItem] accepted the text, and [JSON.parse] gives back the document from
    the text that [JSON.stringify] made of it, [loadFromStorage] returns that
    document, provided its id is not the empty string; a document whose id is
    the empty string is saved but not loaded again: the check on loading
    rejects it and the sample is returned. *)
Theorem saved_document_is_loaded_unless_id_empty :
  forall (due T : Z) (d : ResumeDoc) (w : World),
    saveTimeout w = Some (due, d) ->
    (due <= T)%Z ->
    setItem_accepts (JSON_stringify d) = true ->
    JSON_stringify d <> EmptyString ->
    JSON_parse (JSON_stringify d) = Some (doc_to_json d) ->
    storage (timers' T w) = Some (JSON_stringify d) /\
    loadFromStorage loaded1 loaded2 JSON_parse (Returned (storage (timers' T w))) =
      (if String.eqb (doc_id d) EmptyString
       then doc_to_json (sampleResume loaded1 loaded2)
       else doc_to_json d).
Proof.
  intros due T d w Hp Hle Hyes Htext Hparse.
  rewrite (run_timers_due JSON_stringify setItem_accepts T w _ _ Hp Hle).
  unfold save_callback. rewrite Hyes. simpl. split; [reflexivity | ].
  rewrite (proj2 (String.eqb_neq _ _) Htext). simpl. rewrite Hparse. simpl.
  destruct (String.eqb (doc_id d) EmptyString); reflexivity.
Qed.

End AutosaveFurther.


Lemma failed_save_is_logged_and_editing_goes_on_witness :
  saveTimeout pendingWorld = Some (1700000000500%Z, doc (store pendingWorld)) /\
  (1700000000500 <= 1700000000600)%Z /\
  never_accepts (example_stringify (doc (store pendingWorld))) = false /\
  storage (run_timers example_stringify never_accepts 1700000000600 pendingWorld)
    = storage pendingWorld /\
  doc (store (run_timers example_stringify never_accepts 1700000000600 pendingWorld))
    = doc (store pendingWorld) /\
  saveTimeout (run_timers example_stringify never_accepts 1700000000600 pendingWorld)
    = None /\
  console (run_timers example_stringify never_accepts 1700000000600 pendingWorld)
    = console pendingWorld ++ ["Failed to save resume to localStorage:"] /\
  (forall now updater w',
     setDoc now updater
       (run_timers example_stringify never_accepts now
          (run_timers example_stringify never_accepts 1700000000600 pendingWorld))
     = Returned w' ->
     saveTimeout w' = Some ((now + AUTOSAVE_DELAY)%Z, doc (store w')) /\
     storage w' = storage pendingWorld).
Proof.
  assert (H2 : (1700000000500 <= 1700000000600)%Z) by lia.
  split; [reflexivity | ]. split; [exact H2 | ]. split; [reflexivity | ].
  exact (failed_save_is_logged_and_editing_goes_on example_stringify never_accepts
           1700000000500%Z 1700000000600%Z (doc (store pendingWorld)) pendingWorld
           eq_refl H2 eq_refl).
Defined.

Lemma saved_document_is_loaded_unless_id_empty_witness :
  saveTimeout pendingWorld = Some (1700000000500%Z, doc (store pendingWorld)) /\
  (1700000000500 <= 1700000000600)%Z /\
  always_accepts (example_stringify (doc (store pendingWorld))) = true /\
  example_stringify (doc (store pendingWorld)) <> EmptyString /\
  parse_table [(example_stringify (doc (store pendingWorld)),
                doc_to_json (doc (store pendingWorld)))]
    (example_stringify (doc (store pendingWorld)))
    = Some (doc_to_json (doc (store pendingWorld))) /\
  storage (run_timers example_stringify always_accepts 1700000000600 pendingWorld)
    = Some (example_stringify (doc (store pendingWorld))) /\
  loadFromStorage 1699999990000 1699999990000
    (parse_table [(example_stringify (doc (store pendingWorld)),
                   doc_to_json (doc (store pendingWorld)))])
    (Returned (storage (run_timers example_stringify always_accepts 1700000000600
                          pendingWorld)))
  = (if String.eqb (doc_id (doc (store pendingWorld))) EmptyString
     then doc_to_json (sampleResume 1699999990000 1699999990000)
     else doc_to_json (doc (store pendingWorld))).
Proof.
  assert (H2 : (1700000000500 <= 1700000000600)%Z) by lia.
  assert (H4 : example_stringify (doc (store pendingWorld)) <> EmptyString)
    by (vm_compute; discriminate).
  assert (H5 : parse_table [(example_stringify (doc (store pendingWorld)),
                             doc_to_json (doc (store pendingWorld)))]
                 (example_stringify (doc (store pendingWorld)))
               = Some (doc_to_json (doc (store pendingWorld))))
    by (vm_compute; reflexivity).
  split; [reflexivity | ]. split; [exact H2 | ]. split; [reflexivity | ].
  split; [exact H4 | ]. split; [exact H5 | ].
  exact (saved_document_is_loaded_unless_id_empty example_stringify always_accepts
           1699999990000%Z 1699999990000%Z
           (parse_table [(example_stringify (doc (store pendingWorld)),
                          doc_to_json (doc (store pendingWorld)))])
           1700000000500%Z 1700000000600%Z (doc (store pendingWorld)) pendingWorld
           eq_refl H2 eq_refl H4 H5).
Defined.

(** * Further properties of deepSet *)

Lemma array_index_canonical k i :
  array_index k = Some i -> k = index_key i.
Proof.
  unfold array_index, index_key.
  destruct (NilEmpty.uint_of_string k) as [d | ]; [ | discriminate].
  destruct (String.eqb_spec (NilEmpty.string_of_uint (N.to_uint (N.of_uint d))) k)
    as [Heq | ]; [ | discriminate].
  destruct (N.ltb (N.of_uint d) 4294967295); [ | discriminate].
  simpl. intros H. injection H as <-. symmetry. exact Heq.
Qed.

(** The descent ends with an assignment to the first key of the target. *)
Lemma descend_ends_with_put keeps o k rest value r :
  descend keeps o (k :: rest) value = Returned r ->
  exists x, js_put o k x = Returned r.
Proof.
  destruct rest as [ | k' rest'].
  - simpl. eauto.
  - rewrite descend_step.
    destruct (repair keeps o k) as [[o1 c] | | ] eqn:Hrep; cbn [bindO fst snd];
      try discriminate.
    destruct (descend keeps c (k' :: rest') value) as [c' | | ]; cbn [bindO];
      try discriminate.
    intros Hput. exists c'.
    destruct (repair_returned _ _ _ _ _ Hrep) as [(_ & -> & _) | [Hnew _]];
      [exact Hput | ].
    rewrite <- (js_put_put _ _ _ _ c' Hnew (or_introl eq_refl)). exact Hput.
Qed.

Lemma deepSet_returned_descend obj path value r :
  deepSet obj path value = Returned r ->
  not_an_object (Some obj) = false /\
  descend is_object obj (split "." path) value = Returned r.
Proof.
  intros H. destruct (not_an_object (Some obj)) eqn:Hobj.
  - unfold deepSet in H. rewrite Hobj in H. discriminate.
  - split; [reflexivity | ]. rewrite (deepSet_descend _ _ _ Hobj) in H. exact H.
Qed.

(** The first key is assigned in the target. *)
Lemma deepSet_assigns_first_key obj path value r :
  deepSet obj path value = Returned r ->
  exists k rest x,
    split "." path = k :: rest /\ js_put obj k x = Returned r.
Proof.
  intros Hr. destruct (deepSet_returned_descend _ _ _ _ Hr) as [_ Hd].
  destruct (split "." path) as [ | k rest] eqn:Hsplit.
  - exfalso. apply (split_nonempty "." path). exact Hsplit.
  - destruct (descend_ends_with_put _ _ _ _ _ _ Hd) as [x Hput]. eauto.
Qed.

(** The engine throws only where the length of an array is assigned. *)
Lemma js_put_thrown o k v msg :
  js_put o k v = Thrown msg ->
  k = "length" /\ (msg = invalid_array_length \/ msg = cannot_convert_object).
Proof.
  destruct o as [ | | | | items | ps]; simpl; try discriminate.
  - destruct (array_index k) as [i | ].
    + destruct (N.ltb i (N.of_nat (length items))); [discriminate | ].
      destruct (N.eqb i (N.of_nat (length items))); discriminate.
    + destruct (String.eqb_spec k "length") as [-> | Hlen].
      * unfold set_length. destruct v as [ | [ | ] | n | s | vs | ps]; try discriminate.
        -- destruct items; discriminate.
        -- destruct ((0 <=? n)%Z && (n <? 4294967296)%Z).
           ++ destruct (n <=? Z.of_nat (length items))%Z; discriminate.
           ++ intros H. injection H as <-. auto.
        -- destruct (assoc_get "toString" ps); intros H; injection H as <-; auto.
      * destruct (String.eqb k "__proto__"); [ | discriminate].
        unfold set_prototype. destruct (is_primitive v); discriminate.
  - destruct (assoc_get k ps); [discriminate | ].
    destruct (String.eqb k "__proto__"); [ | discriminate].
    unfold set_prototype. destruct (is_primitive v); discriminate.
Qed.

Lemma js_get_not_thrown o k msg : js_get o k <> Thrown msg.
Proof.
  destruct o as [ | | | | items | ps]; simpl; try discriminate.
  - destruct (array_index k) as [i | ].
    + destruct (N.ltb i (N.of_nat (length items))); discriminate.
    + destruct (String.eqb k "length"); [discriminate | ].
      destruct (String.eqb k "__proto__"); discriminate.
  - destruct (assoc_get k ps); [discriminate | ].
    destruct (String.eqb k "__proto__"); discriminate.
Qed.

Lemma repair_thrown keeps o k msg :
  repair keeps o k = Thrown msg ->
  k = "length" /\ (msg = invalid_array_length \/ msg = cannot_convert_object).
Proof.
  unfold repair. destruct (js_get o k) as [[c | ] | m | ] eqn:Hget; cbn [bindO];
    try discriminate.
  - destruct (keeps (Some c)); [discriminate | ].
    destruct (js_put o k (JObj [])) as [o1 | m | ] eqn:Hput; cbn [bindO];
      try discriminate.
    intros H. injection H as <-. apply (js_put_thrown _ _ _ _ Hput).
  - destruct (js_put o k (JObj [])) as [o1 | m | ] eqn:Hput; cbn [bindO];
      try discriminate.
    intros H. injection H as <-. apply (js_put_thrown _ _ _ _ Hput).
  - intros H. injection H as ->. destruct (js_get_not_thrown _ _ _ Hget).
Qed.

Lemma descend_thrown keeps keys value :
  forall o msg,
    descend keeps o keys value = Thrown msg ->
    In "length" keys /\ (msg = invalid_array_length \/ msg = cannot_convert_object).
Proof.
  induction keys as [ | k rest IH]; intros o msg; [discriminate | ].
  destruct rest as [ | k' rest'].
  - simpl descend. intros H. destruct (js_put_thrown _ _ _ _ H) as [-> Hmsg].
    split; [left; reflexivity | exact Hmsg].
  - rewrite descend_step.
    destruct (repair keeps o k) as [[o1 c] | m | ] eqn:Hrep; cbn [bindO fst snd];
      try discriminate.
    + destruct (descend keeps c (k' :: rest') value) as [c' | m | ] eqn:Hchild;
        cbn [bindO]; try discriminate.
      * intros H. destruct (js_put_thrown _ _ _ _ H) as [-> Hmsg].
        split; [left; reflexivity | exact Hmsg].
      * intros H. injection H as <-. destruct (IH c m Hchild) as [Hin Hmsg].
        split; [right; exact Hin | exact Hmsg].
    + intros H. injection H as <-. destruct (repair_thrown _ _ _ _ Hrep) as [-> Hmsg].
      split; [left; reflexivity | exact Hmsg].
Qed.

(** X13. [deepSet] throws its own error, "deepSet: target must be an
    object", exactly when the target is [null], a boolean, a number or a
    string, whatever the path and the value.  On a record or an array that
    error never arises, but the call can still throw.  For a path without
    the key [__proto__], every other error is one that the engine raises
    where the length of an array is assigned, so "length" is then a key of
    the path; and a path that continues after the length of an array target
    always throws the [RangeError]. *)
Theorem deepSet_own_error_exactly_on_non_objects :
  forall (obj : JValue) (path : string) (value : JValue),
    (deepSet obj path value = Thrown "deepSet: target must be an object" <->
     (forall ps, obj <> JObj ps) /\ (forall items, obj <> JArr items)) /\
    (forall msg, deepSet obj path value = Thrown msg ->
       msg <> "deepSet: target must be an object" ->
       ~ In "__proto__" (split "." path) ->
       is_object (Some obj) = true /\ In "length" (split "." path) /\
       (msg = invalid_array_length \/ msg = cannot_convert_object)) /\
    (forall items,
       deepSet (JArr items) ("length." +:+ path) value = Thrown invalid_array_length).
Proof.
  intros obj path value.
  assert (Hthrown : forall msg, is_object (Some obj) = true ->
            deepSet obj path value = Thrown msg ->
            In "length" (split "." path) /\
            (msg = invalid_array_length \/ msg = cannot_convert_object)).
  { intros msg Hobj H. rewrite deepSet_descend in H.
    - apply (descend_thrown _ _ _ _ _ H).
    - unfold is_object in Hobj. destruct (not_an_object (Some obj));
        [discriminate | reflexivity]. }
  split; [split | split].
  - intros H. destruct obj as [ | b | n | s | items | ps];
      try (split; intros; discriminate).
    + destruct (Hthrown _ eq_refl H) as [_ [Hm | Hm]]; discriminate Hm.
    + destruct (Hthrown _ eq_refl H) as [_ [Hm | Hm]]; discriminate Hm.
  - intros [H1 H2]. destruct obj as [ | b | n | s | items | ps];
      try reflexivity; unfold deepSet, not_an_object; simpl.
    + destruct b; reflexivity.
    + destruct (Z.eqb n 0); reflexivity.
    + destruct (String.eqb s EmptyString); reflexivity.
    + exfalso. apply (H2 items). reflexivity.
    + exfalso. apply (H1 ps). reflexivity.
  - intros msg H Hmsg _. destruct (is_object (Some obj)) eqn:Hobj.
    + split; [reflexivity | apply (Hthrown _ eq_refl H)].
    + exfalso. apply Hmsg. unfold deepSet in H. unfold is_object in Hobj.
      destruct (not_an_object (Some obj)); [ | discriminate].
      injection H as <-. reflexivity.
  - intros items. apply deepSet_on_length_key.
Qed.

Lemma deepSet_own_error_exactly_on_non_objects_witness :
  (((forall ps, JStr "fields" <> JObj ps) /\ (forall items, JStr "fields" <> JArr items)) /\
   deepSet (JStr "fields") "a.b" (JNum 1) = Thrown "deepSet: target must be an object")
  /\
  (deepSet (JObj [("items", JArr [])]) "items.length.x" (JNum 1)
     = Thrown invalid_array_length /\
   invalid_array_length <> "deepSet: target must be an object" /\
   ~ In "__proto__" (split "." "items.length.x") /\
   is_object (Some (JObj [("items", JArr [])])) = true /\
   In "length" (split "." "items.length.x") /\
   (invalid_array_length = invalid_array_length \/
    invalid_array_length = cannot_convert_object)).
Proof.
  assert (H : (forall ps, JStr "fields" <> JObj ps) /\
              (forall items, JStr "fields" <> JArr items))
    by (split; intros; discriminate).
  assert (Hmsg : invalid_array_length <> "deepSet: target must be an object")
    by discriminate.
  assert (Hkeys : ~ In "__proto__" (split "." "items.length.x"))
    by (simpl; intuition discriminate).
  split.
  - split; [exact H | ].
    exact (proj2 (proj1 (deepSet_own_error_exactly_on_non_objects (JStr "fields") "a.b"
                           (JNum 1))) H).
  - split; [reflexivity | ]. split; [exact Hmsg | ]. split; [exact Hkeys | ].
    exact (proj1 (proj2 (deepSet_own_error_exactly_on_non_objects
                           (JObj [("items", JArr [])]) "items.length.x" (JNum 1)))
             invalid_array_length eq_refl Hmsg Hkeys).
Defined.

(** Assigning the length of an array cuts it: the elements after the new
    length are lost. *)
Example deepSet_cuts_an_array :
  deepSet (JArr [JNum 1; JNum 2; JNum 3]) "length" (JNum 1) = Returned (JArr [JNum 1]).
Proof. reflexivity. Qed.

Lemma array_index_of_length : array_index "length" = None.
Proof. vm_compute. reflexivity. Qed.

Lemma array_index_of_proto : array_index "__proto__" = None.
Proof. vm_compute. reflexivity. Qed.

(** X14. What a [deepSet] leaves alone, when its result is JSON data.  On
    a record, every own key other than the first key of the path holds
    afterwards what it held before.  On an array, when the first key is an
    index, every other element is as before and none is lost.  When the
    first key of the path on an array is no index, the result is JSON data
    only for the keys [length] and [__proto__], and it is then a front part
    of the array: assigning [length] cuts the array, so that elements other
    than the one named can disappear. *)
Theorem deepSet_leaves_other_slots :
  forall (obj : JValue) (path : string) (value r : JValue),
    deepSet obj path value = Returned r ->
    (forall ps, obj = JObj ps ->
       exists ps',
         r = JObj ps' /\
         forall k', k' <> hd EmptyString (split "." path) ->
                    assoc_get k' ps' = assoc_get k' ps) /\
    (forall items i, obj = JArr items ->
       array_index (hd EmptyString (split "." path)) = Some i ->
       exists items',
         r = JArr items' /\
         (length items <= length items')%nat /\
         forall j, j <> N.to_nat i -> items' !! j = items !! j) /\
    (forall items, obj = JArr items ->
       array_index (hd EmptyString (split "." path)) = None ->
       (hd EmptyString (split "." path) = "length" \/
        hd EmptyString (split "." path) = "__proto__") /\
       exists n, (n <= length items)%nat /\ r = JArr (firstn n items)).
Proof.
  intros obj path value r Hr.
  destruct (deepSet_assigns_first_key _ _ _ _ Hr) as (k & rest & x & Hsplit & Hput).
  rewrite Hsplit. simpl hd. apply js_put_assigned in Hput.
  split; [ | split].
  - intros ps ->. inversion Hput as [ps0 Hown | | | | o Hk Hv Ho]; subst.
    + eexists. split; [reflexivity | ].
      intros k' Hne. apply assoc_get_set_ne. exact Hne.
    + eexists. split; [reflexivity | ]. reflexivity.
  - intros items i -> Hi.
    inversion Hput as [ | items0 i0 Hi0 Hlt | items0 Hi0 | items0 n Hk Hv Hn
                        | o Hk Hv Ho]; subst.
    + rewrite Hi in Hi0. injection Hi0 as <-.
      eexists. split; [reflexivity | ]. split; [rewrite length_insert; lia | ].
      intros j Hj. apply list_lookup_insert_ne. congruence.
    + rewrite Hi in Hi0. injection Hi0 as ->.
      eexists. split; [reflexivity | ]. split; [rewrite length_app; simpl; lia | ].
      intros j Hj. rewrite Nat2N.id in Hj.
      destruct (Nat.lt_ge_cases j (length items)) as [Hlt | Hge].
      * apply lookup_app_l. exact Hlt.
      * rewrite (lookup_ge_None_2 items j) by lia.
        apply lookup_ge_None_2. rewrite length_app. simpl. lia.
    + rewrite array_index_of_length in Hi. discriminate.
    + rewrite array_index_of_proto in Hi. discriminate.
  - intros items -> Hi.
    inversion Hput as [ | items0 i0 Hi0 Hlt | items0 Hi0 | items0 n Hk Hv Hn
                        | o Hk Hv Ho]; subst.
    + congruence.
    + congruence.
    + split; [left; reflexivity | ]. eauto.
    + split; [right; reflexivity | ].
      exists (length items). split; [lia | ]. rewrite firstn_all. reflexivity.
Qed.

Lemma deepSet_leaves_other_slots_witness :
  (deepSet headerFields "links.site" (JStr "example.org") =
     Returned (JObj [("name", JStr "John Anderson");
                     ("title", JStr "Senior Software Engineer");
                     ("links", JObj [("site", JStr "example.org")])]) /\
   exists ps',
     JObj [("name", JStr "John Anderson");
           ("title", JStr "Senior Software Engineer");
           ("links", JObj [("site", JStr "example.org")])] = JObj ps' /\
     forall k', k' <> hd EmptyString (split "." "links.site") ->
                assoc_get k' ps' =
                assoc_get k' [("name", JStr "John Anderson");
                              ("title", JStr "Senior Software Engineer")])
  /\
  (deepSet (JArr [JNum 1; JNum 2; JNum 3]) "1.x" (JNum 9) =
     Returned (JArr [JNum 1; JObj [("x", JNum 9)]; JNum 3]) /\
   array_index (hd EmptyString (split "." "1.x")) = Some 1%N /\
   exists items',
     JArr [JNum 1; JObj [("x", JNum 9)]; JNum 3] = JArr items' /\
     (length [JNum 1; JNum 2; JNum 3] <= length items')%nat /\
     forall j, j <> N.to_nat 1 -> items' !! j = [JNum 1; JNum 2; JNum 3] !! j)
  /\
  (deepSet (JArr [JNum 1; JNum 2; JNum 3]) "length" (JNum 1) = Returned (JArr [JNum 1]) /\
   array_index (hd EmptyString (split "." "length")) = None /\
   (hd EmptyString (split "." "length") = "length" \/
    hd EmptyString (split "." "length") = "__proto__") /\
   exists n, (n <= length [JNum 1; JNum 2; JNum 3])%nat /\
             JArr [JNum 1] = JArr (firstn n [JNum 1; JNum 2; JNum 3])).
Proof.
  assert (Hi : array_index (hd EmptyString (split "." "1.x")) = Some 1%N)
    by (vm_compute; reflexivity).
  assert (Hn : array_index (hd EmptyString (split "." "length")) = None)
    by (vm_compute; reflexivity).
  split; [ | split].
  - split; [reflexivity | ].
    exact (proj1 (deepSet_leaves_other_slots headerFields "links.site"
                    (JStr "example.org") _ eq_refl)
             [("name", JStr "John Anderson"); ("title", JStr "Senior Software Engineer")]
             eq_refl).
  - split; [reflexivity | ]. split; [exact Hi | ].
    exact (proj1 (proj2 (deepSet_leaves_other_slots (JArr [JNum 1; JNum 2; JNum 3])
                           "1.x" (JNum 9) _ eq_refl))
             [JNum 1; JNum 2; JNum 3] 1%N eq_refl Hi).
  - split; [reflexivity | ]. split; [exact Hn | ].
    exact (proj2 (proj2 (deepSet_leaves_other_slots (JArr [JNum 1; JNum 2; JNum 3])
                           "length" (JNum 1) _ eq_refl))
             [JNum 1; JNum 2; JNum 3] eq_refl Hn).
Defined.

Lemma descend_again keys :
  forall o r v1 v2,
    keys <> [] ->
    List.last keys EmptyString <> "length" ->
    descend is_object o keys v1 = Returned r ->
    descend is_object r keys v2 = descend is_object o keys v2.
Proof.
  induction keys as [ | k rest IH]; intros o r v1 v2 Hne Hl Hd; [congruence | ].
  destruct rest as [ | k' rest'].
  - simpl in *. apply (js_put_put _ _ _ _ _ Hd). right. exact Hl.
  - rewrite descend_step in Hd. rewrite !descend_step.
    destruct (repair is_object o k) as [[o1 c] | | ] eqn:Hrep; cbn [bindO fst snd] in Hd;
      try discriminate.
    destruct (descend is_object c (k' :: rest') v1) as [c1 | | ] eqn:Hc1;
      cbn [bindO] in Hd; try discriminate.
    pose proof (descend_is_object is_object (k' :: rest') c v1 c1
                  ltac:(discriminate) Hc1) as Hobj1.
    assert (Hrep' : repair is_object r k = Returned (r, c1)).
    { unfold repair. rewrite (js_get_put _ _ _ _ Hd (or_introl Hobj1)).
      cbn [bindO]. rewrite Hobj1. reflexivity. }
    rewrite Hrep'. cbn [bindO fst snd].
    rewrite (IH c c1 v1 v2 ltac:(discriminate) Hl Hc1).
    destruct (descend is_object c (k' :: rest') v2) as [c2 | | ]; cbn [bindO];
      try reflexivity.
    apply (js_put_put _ _ _ _ _ Hd (or_introl Hobj1)).
Qed.

(** X15. Assigning twice at the same path keeps only the second value:
    after a [deepSet] whose result is JSON data, a second [deepSet] on that
    result with the same path has the outcome that the second alone would
    have had on the original target.  This holds for every path whose last
    key is not "length": the length of an array that was cut by the first
    assignment cannot be read back from it. *)
Theorem deepSet_second_assignment_wins :
  forall (obj : JValue) (path : string) (v1 v2 r1 : JValue),
    deepSet obj path v1 = Returned r1 ->
    List.last (split "." path) EmptyString <> "length" ->
    deepSet r1 path v2 = deepSet obj path v2.
Proof.
  intros obj path v1 v2 r1 H1 Hl.
  destruct (deepSet_returned_descend _ _ _ _ H1) as [Hobj Hd].
  assert (Hr1 : not_an_object (Some r1) = false).
  { pose proof (descend_is_object _ _ _ _ _ (split_nonempty "." path) Hd) as H.
    unfold is_object in H. destruct (not_an_object (Some r1)); [discriminate | reflexivity]. }
  rewrite (deepSet_descend _ _ _ Hr1), (deepSet_descend _ _ _ Hobj).
  apply (descend_again _ _ _ v1 v2 (split_nonempty "." path) Hl Hd).
Qed.

Lemma deepSet_second_assignment_wins_witness :
  deepSet itemsTarget "items.0.name" (JStr "second") =
    Returned (JObj [("items", JArr [JObj [("name", JStr "second")]])]) /\
  List.last (split "." "items.0.name") EmptyString <> "length" /\
  deepSet (JObj [("items", JArr [JObj [("name", JStr "second")]])]) "items.0.name"
    (JStr "third")
  = deepSet itemsTarget "items.0.name" (JStr "third") /\
  deepSet itemsTarget "items.0.name" (JStr "third") =
    Returned (JObj [("items", JArr [JObj [("name", JStr "third")]])]).
Proof.
  assert (Hl : List.last (split "." "items.0.name") EmptyString <> "length")
    by (simpl; discriminate).
  split; [reflexivity | ]. split; [exact Hl | ].
  split; [ | reflexivity].
  exact (deepSet_second_assignment_wins itemsTarget "items.0.name"
           (JStr "second") (JStr "third") _ eq_refl Hl).
Defined.

(** Without the condition on the last key the second assignment does not
    win: an array cut to one element and then given the length 2 would have
    a hole, while the length 2 alone keeps two elements. *)
Example deepSet_length_is_not_restored :
  deepSet (JArr [JNum 1; JNum 2; JNum 3]) "length" (JNum 1) = Returned (JArr [JNum 1]) /\
  deepSet (JArr [JNum 1]) "length" (JNum 2) = OffModel /\
  deepSet (JArr [JNum 1; JNum 2; JNum 3]) "length" (JNum 2)
    = Returned (JArr [JNum 1; JNum 2]).
Proof. repeat split. Qed.

(** ** The keys of a path *)

Lemma concat_cons sep x l :
  l <> [] -> String.concat sep (x :: l) = x +:+ sep +:+ String.concat sep l.
Proof. destruct l; [congruence | reflexivity]. Qed.

(** X16. The keys that [deepSet] takes from a path: there is always at
    least one, there is one more than the path has dots, none of them contains
    a dot, and joined with dots they give back the path; so a path without a
    dot is a single key, and two different paths never give the same keys. *)
Theorem split_gives_the_keys_of_the_path :
  forall path : string,
    String.concat "." (split "." path) = path /\
    length (split "." path) = S (count_char "." path) /\
    Forall (fun key => count_char "." key = 0%nat) (split "." path) /\
    (count_char "." path = 0%nat -> split "." path = [path]) /\
    (forall path', split "." path' = split "." path -> path' = path).
Proof.
  assert (Hjoin : forall s, String.concat "." (split "." s) = s).
  { induction s as [ | c rest IH]; [reflexivity | ].
    simpl. destruct (Ascii.eqb_spec c ".") as [-> | Hc].
    - rewrite concat_cons by apply split_nonempty. rewrite IH. reflexivity.
    - destruct (split "." rest) as [ | h t] eqn:Hs.
      + exfalso. apply (split_nonempty "." rest). exact Hs.
      + destruct t as [ | h' t'].
        * simpl in *. rewrite IH. reflexivity.
        * rewrite concat_cons by discriminate.
          rewrite concat_cons in IH by discriminate.
          simpl. rewrite <- IH. reflexivity. }
  assert (Hlen : forall s, length (split "." s) = S (count_char "." s)).
  { induction s as [ | c rest IH]; [reflexivity | ].
    simpl. destruct (Ascii.eqb c ".").
    - simpl. rewrite IH. reflexivity.
    - destruct (split "." rest) as [ | h t]; [discriminate | exact IH]. }
  assert (Hnodot : forall s, Forall (fun key => count_char "." key = 0%nat) (split "." s)).
  { induction s as [ | c rest IH]; [repeat constructor | ].
    simpl. destruct (Ascii.eqb c ".") eqn:Hc.
    - constructor; [reflexivity | exact IH].
    - destruct (split "." rest) as [ | h t]; [repeat constructor; simpl; rewrite Hc; reflexivity | ].
      inversion IH as [ | ? ? Hh Ht]; subst. constructor; [ | exact Ht].
      simpl. rewrite Hc. exact Hh. }
  intros path. split; [apply Hjoin | ]. split; [apply Hlen | ].
  split; [apply Hnodot | ]. split.
  - intros Hzero. specialize (Hlen path). rewrite Hzero in Hlen.
    specialize (Hjoin path).
    destruct (split "." path) as [ | k [ | k' rest]]; try discriminate.
    simpl in Hjoin. rewrite Hjoin. reflexivity.
  - intros path' Heq. rewrite <- (Hjoin path'), Heq. apply Hjoin.
Qed.

Lemma split_gives_the_keys_of_the_path_witness :
  count_char "." "name" = 0%nat /\ split "." "name" = ["name"] /\
  split "." "items.0.name" = split "." "items.0.name" /\
  "items.0.name" = "items.0.name".
Proof.
  split; [reflexivity | ].
  split; [exact (proj1 (proj2 (proj2 (proj2 (split_gives_the_keys_of_the_path "name"))))
                   eq_refl) | ].
  split; [reflexivity | ].
  exact (proj2 (proj2 (proj2 (proj2 (split_gives_the_keys_of_the_path "items.0.name"))))
           "items.0.name" eq_refl).
Defined.

(** ** The shape of the target after deepSet *)

Lemma assoc_set_keys {A : Type} (ps : list (string * A)) k v :
  map fst (assoc_set ps k v) =
  if existsb (String.eqb k) (map fst ps) then map fst ps else map fst ps ++ [k].
Proof.
  induction ps as [ | [k0 v0] ps IH]; simpl; [reflexivity | ].
  rewrite (String.eqb_sym k k0).
  destruct (String.eqb_spec k0 k) as [-> | Hne]; simpl; [reflexivity | ].
  rewrite IH. destruct (existsb (String.eqb k) (map fst ps)); reflexivity.
Qed.

Lemma existsb_eqb_In k l : existsb (String.eqb k) l = true <-> In k l.
Proof.
  rewrite existsb_exists. split.
  - intros (x & Hx & Heq). apply String.eqb_eq in Heq. subst x. exact Hx.
  - intros H. exists k. split; [exact H | apply String.eqb_refl].
Qed.

(** The listing of the keys depends on the keys and their order of creation
    only, and a key created last is listed among the indices, at its place,
    when it is one, and last otherwise. *)
Lemma own_keys_same (ps ps' : Props) :
  map fst ps' = map fst ps -> own_keys ps' = own_keys ps.
Proof. intros H. unfold own_keys, index_keys, name_keys. rewrite H. reflexivity. Qed.

Lemma own_keys_new (ps ps' : Props) k :
  map fst ps' = map fst ps ++ [k] ->
  own_keys ps' =
  match array_index k with
  | Some i => map index_key (insert_index i (index_keys ps)) ++ name_keys ps
  | None => own_keys ps ++ [k]
  end.
Proof.
  intros H. unfold own_keys, index_keys, name_keys. rewrite H.
  rewrite omap_app, List.filter_app. csimpl. unfold is_name at 2.
  destruct (array_index k) as [i | ]; simpl.
  - rewrite foldl_snoc, app_nil_r. reflexivity.
  - rewrite !app_nil_r, app_assoc. reflexivity.
Qed.

(** The keys "0" and "b" of the record [{b: 1}] after ["0"] was assigned:
    created last, the index is listed first. *)
Example deepSet_lists_an_index_first :
  deepSet (JObj [("b", JNum 1)]) "0" (JNum 2)
    = Returned (JObj [("b", JNum 1); ("0", JNum 2)]) /\
  own_keys [("b", JNum 1); ("0", JNum 2)] = ["0"; "b"].
Proof. split; reflexivity. Qed.

(** X17. A [deepSet] whose result is JSON data gives back a target of the
    same kind.  A record keeps its keys; the first key of the path is created
    when the record did not have it, unless it is [__proto__]: it then comes
    last in the order of creation, and in the listing of the keys it stands
    among the indices, in ascending order, when it is an array index, and
    last otherwise.  An array keeps its length, or grows by one element when
    the first key is the index just past the end, or is cut to a length that
    is not greater: the last only when the path is the single key "length". *)
Theorem deepSet_keeps_the_kind_of_the_target :
  forall (obj : JValue) (path : string) (value r : JValue),
    deepSet obj path value = Returned r ->
    (forall ps, obj = JObj ps ->
       exists ps',
         r = JObj ps' /\
         ((map fst ps' = map fst ps /\ own_keys ps' = own_keys ps /\
           (In (hd EmptyString (split "." path)) (map fst ps) \/
            hd EmptyString (split "." path) = "__proto__"))
          \/
          (~ In (hd EmptyString (split "." path)) (map fst ps) /\
           map fst ps' = map fst ps ++ [hd EmptyString (split "." path)] /\
           own_keys ps' =
             match array_index (hd EmptyString (split "." path)) with
             | Some i => map index_key (insert_index i (index_keys ps)) ++ name_keys ps
             | None => own_keys ps ++ [hd EmptyString (split "." path)]
             end))) /\
    (forall items, obj = JArr items ->
       exists items',
         r = JArr items' /\
         (length items' = length items \/
          (length items' = S (length items) /\
           array_index (hd EmptyString (split "." path)) = Some (N.of_nat (length items))) \/
          ((length items' <= length items)%nat /\ split "." path = ["length"]))).
Proof.
  intros obj path value r Hr.
  destruct (deepSet_returned_descend _ _ _ _ Hr) as [_ Hd].
  destruct (deepSet_assigns_first_key _ _ _ _ Hr) as (k & rest & x & Hsplit & Hput).
  rewrite Hsplit in *. simpl hd. apply js_put_assigned in Hput.
  split.
  - intros ps ->. inversion Hput as [ps0 Hown | | | | o Hk Hv Ho]; subst.
    + eexists. split; [reflexivity | ].
      pose proof (assoc_set_keys ps k x) as Hkeys.
      destruct (existsb (String.eqb k) (map fst ps)) eqn:Hex.
      * left. split; [exact Hkeys | ]. split; [apply own_keys_same; exact Hkeys | ].
        left. apply existsb_eqb_In. exact Hex.
      * right. split.
        -- intros Hin. apply existsb_eqb_In in Hin. congruence.
        -- split; [exact Hkeys | apply own_keys_new; exact Hkeys].
    + eexists. split; [reflexivity | ]. left. auto.
  - intros items ->.
    inversion Hput as [ | items0 i0 Hi0 Hlt | items0 Hi0 | items0 n Hk Hv Hn
                        | o Hk Hv Ho]; subst.
    + eexists. split; [reflexivity | ]. left. apply length_insert.
    + eexists. split; [reflexivity | ]. right. left.
      split; [rewrite length_app; simpl; lia | exact Hi0].
    + eexists. split; [reflexivity | ]. right. right.
      split; [rewrite length_firstn; lia | ].
      destruct rest as [ | k' rest']; [reflexivity | ].
      rewrite descend_step in Hd.
      assert (Hrep : repair is_object (JArr items) "length" = Thrown invalid_array_length).
      { unfold repair, js_get, js_put. rewrite array_index_of_length.
        change (String.eqb "length" "length") with true. cbn [bindO].
        assert (Hnum : is_object (Some (JNum (Z.of_nat (length items)))) = false).
        { unfold is_object, not_an_object. simpl. rewrite orb_true_r. reflexivity. }
        rewrite Hnum. reflexivity. }
      rewrite Hrep in Hd. discriminate Hd.
    + eexists. split; [reflexivity | ]. left. reflexivity.
Qed.

Lemma deepSet_keeps_the_kind_of_the_target_witness :
  (deepSet (JArr [JNum 1]) "1" (JNum 2) = Returned (JArr [JNum 1; JNum 2]) /\
   exists items',
     JArr [JNum 1; JNum 2] = JArr items' /\
     (length items' = length [JNum 1] \/
      (length items' = S (length [JNum 1]) /\
       array_index (hd EmptyString (split "." "1")) = Some (N.of_nat (length [JNum 1]))) \/
      ((length items' <= length [JNum 1])%nat /\ split "." "1" = ["length"])))
  /\
  deepSet headerFields "links.site" (JStr "example.org") =
    Returned (JObj [("name", JStr "John Anderson");
                    ("title", JStr "Senior Software Engineer");
                    ("links", JObj [("site", JStr "example.org")])]) /\
  exists ps',
    JObj [("name", JStr "John Anderson");
          ("title", JStr "Senior Software Engineer");
          ("links", JObj [("site", JStr "example.org")])] = JObj ps' /\
    ((map fst ps' = map fst [("name", JStr "John Anderson");
                             ("title", JStr "Senior Software Engineer")] /\
      own_keys ps' = own_keys [("name", JStr "John Anderson");
                               ("title", JStr "Senior Software Engineer")] /\
      (In (hd EmptyString (split "." "links.site"))
          (map fst [("name", JStr "John Anderson");
                    ("title", JStr "Senior Software Engineer")]) \/
       hd EmptyString (split "." "links.site") = "__proto__"))
     \/
     (~ In (hd EmptyString (split "." "links.site"))
           (map fst [("name", JStr "John Anderson");
                     ("title", JStr "Senior Software Engineer")]) /\
      map fst ps' = map fst [("name", JStr "John Anderson");
                             ("title", JStr "Senior Software Engineer")]
                    ++ [hd EmptyString (split "." "links.site")] /\
      own_keys ps' =
        match array_index (hd EmptyString (split "." "links.site")) with
        | Some i =>
            map index_key
              (insert_index i (index_keys [("name", JStr "John Anderson");
                                           ("title", JStr "Senior Software Engineer")]))
            ++ name_keys [("name", JStr "John Anderson");
                          ("title", JStr "Senior Software Engineer")]
        | None =>
            own_keys [("name", JStr "John Anderson");
                      ("title", JStr "Senior Software Engineer")]
            ++ [hd EmptyString (split "." "links.site")]
        end)).
Proof.
  split.
  { split; [reflexivity | ].
    exact (proj2 (deepSet_keeps_the_kind_of_the_target (JArr [JNum 1]) "1" (JNum 2)
                    _ eq_refl) [JNum 1] eq_refl). }
  split; [reflexivity | ].
  exact (proj1 (deepSet_keeps_the_kind_of_the_target headerFields "links.site"
                  (JStr "example.org") _ eq_refl)
           [("name", JStr "John Anderson"); ("title", JStr "Senior Software Engineer")]
           eq_refl).
Defined.

(** * Further properties of uid *)

Lemma append_cancel_left p a b : p +:+ a = p +:+ b -> a = b.
Proof.
  induction p as [ | c p IH]; simpl; intros H; [exact H | ].
  injection H as H. apply IH. exact H.
Qed.

Lemma length_append' a b :
  String.length (a +:+ b) = (String.length a + String.length b)%nat.
Proof. induction a as [ | c a IH]; simpl; [reflexivity | rewrite IH; reflexivity]. Qed.

Lemma length_substring n m s :
  String.length (substring n m s) = Nat.min m (String.length s - n).
Proof.
  revert n m. induction s as [ | c s IH]; intros n m.
  - destruct n, m; reflexivity.
  - destruct n as [ | n]; simpl.
    + destruct m as [ | m]; simpl; [reflexivity | ]. rewrite IH.
      rewrite Nat.sub_0_r. reflexivity.
    + apply IH.
Qed.

(** X18. Two identifiers made with the same prefix are equal exactly when
    the renderings of their random numbers agree between positions 2 and 10;
    an identifier is as long as its prefix plus one plus the number of
    characters the rendering has from position 2 on, up to eight, so a
    rendering of at most two characters (the number 0) gives the prefix and
    an underscore alone; and calling [uid] without a prefix is calling it
    with "id". *)
Theorem uid_collides_exactly_on_equal_suffix :
  forall (rnd36 rnd36' prefix : string),
    (uid rnd36 (Some prefix) = uid rnd36' (Some prefix) <->
     slice rnd36 2 10 = slice rnd36' 2 10) /\
    String.length (uid rnd36 (Some prefix)) =
      (String.length prefix + 1 + Nat.min 8 (String.length rnd36 - 2))%nat /\
    ((String.length rnd36 <= 2)%nat -> uid rnd36 (Some prefix) = prefix +:+ "_") /\
    uid rnd36 None = uid rnd36 (Some "id").
Proof.
  intros r r' prefix. split; [split | split; [ | split]].
  - unfold uid. intros H. apply append_cancel_left in H.
    apply (append_cancel_left "_") in H. exact H.
  - unfold uid. intros ->. reflexivity.
  - unfold uid, slice. rewrite !length_append', length_substring.
    change (10 - 2)%nat with 8%nat. change (String.length "_") with 1%nat. lia.
  - intros Hshort. unfold uid. f_equal.
    assert (Hlen : String.length (slice r 2 10) = 0%nat).
    { unfold slice. rewrite length_substring. change (10 - 2)%nat with 8%nat. lia. }
    destruct (slice r 2 10); [reflexivity | discriminate].
  - reflexivity.
Qed.

Lemma uid_collides_exactly_on_equal_suffix_witness :
  slice "0.4fzyo82mvyr" 2 10 = slice "0.4fzyo82mzzz" 2 10 /\
  uid "0.4fzyo82mvyr" (Some "exp") = uid "0.4fzyo82mzzz" (Some "exp") /\
  (String.length "0" <= 2)%nat /\
  uid "0" (Some "exp") = "exp" +:+ "_".
Proof.
  assert (H : (String.length "0" <= 2)%nat) by (simpl; lia).
  split; [reflexivity | ].
  split; [exact (proj2 (proj1 (uid_collides_exactly_on_equal_suffix
                                 "0.4fzyo82mvyr" "0.4fzyo82mzzz" "exp")) eq_refl) | ].
  split; [exact H | ].
  exact (proj1 (proj2 (proj2 (uid_collides_exactly_on_equal_suffix "0" "0" "exp"))) H).
Defined.

(** * Properties of the callers of the store *)

Lemma find_type_absent sectionType ss :
  (forall s, In s ss -> section_type s <> sectionType) ->
  List.find (has_section_type sectionType) ss = None.
Proof.
  intros H. apply find_none_iff. intros s Hs. apply String.eqb_neq. apply H. exact Hs.
Qed.

(** X19. When the document has no section of type "experience", the
    handlers that add and delete experience blocks return without calling the
    store: nothing is committed, the time stamp does not move, no warning is
    logged and no save is scheduled; the same holds for the education
    handlers when there is no section of type "education". *)
Theorem section_handlers_do_nothing_without_their_section :
  forall (rndHandler rndStore blockId : string) (now : Z) (w : World),
    ((forall s, In s (sections (doc (store w))) -> section_type s <> "experience") ->
     handleAddExperience rndHandler rndStore now w = Returned w /\
     handleDeleteExperience now blockId w = Returned w)
    /\
    ((forall s, In s (sections (doc (store w))) -> section_type s <> "education") ->
     handleAddEducation rndHandler rndStore now w = Returned w /\
     handleDeleteEducation now blockId w = Returned w).
Proof.
  intros rh rs blockId now w. split; intros H.
  - unfold handleAddExperience, handleDeleteExperience.
    rewrite (find_type_absent _ _ H). split; reflexivity.
  - unfold handleAddEducation, handleDeleteEducation.
    rewrite (find_type_absent _ _ H). split; reflexivity.
Qed.

Lemma section_handlers_do_nothing_without_their_section_witness :
  ((forall s, In s (sections (doc (store (world_of headerOnly)))) ->
              section_type s <> "experience") /\
   handleAddExperience "0.4fzyo82mvyr" "0.9k2j1x0qwert" 1700000000000 (world_of headerOnly)
     = Returned (world_of headerOnly) /\
   handleDeleteExperience 1700000000000 "experience_block_001" (world_of headerOnly)
     = Returned (world_of headerOnly))
  /\
  ((forall s, In s (sections (doc (store (world_of headerOnly)))) ->
              section_type s <> "education") /\
   handleAddEducation "0.4fzyo82mvyr" "0.9k2j1x0qwert" 1700000000000 (world_of headerOnly)
     = Returned (world_of headerOnly) /\
   handleDeleteEducation 1700000000000 "edu_block" (world_of headerOnly)
     = Returned (world_of headerOnly)).
Proof.
  assert (H1 : forall s, In s (sections (doc (store (world_of headerOnly)))) ->
                         section_type s <> "experience")
    by (intros s [<- | [<- | []]]; simpl; discriminate).
  assert (H2 : forall s, In s (sections (doc (store (world_of headerOnly)))) ->
                         section_type s <> "education")
    by (intros s [<- | [<- | []]]; simpl; discriminate).
  split.
  - split; [exact H1 | ].
    exact (proj1 (section_handlers_do_nothing_without_their_section
                    "0.4fzyo82mvyr" "0.9k2j1x0qwert" "experience_block_001"
                    1700000000000%Z (world_of headerOnly)) H1).
  - split; [exact H2 | ].
    exact (proj2 (section_handlers_do_nothing_without_their_section
                    "0.4fzyo82mvyr" "0.9k2j1x0qwert" "edu_block"
                    1700000000000%Z (world_of headerOnly)) H2).
Defined.

(** X20. When the document has a section of type "experience",
    [handleAddExperience] appends one block to the first section that carries
    the id of the first section of that type (the same section when ids are
    distinct); the section found under that id in the committed document has
    the blocks it had and the new one at the end, its id, type, title and
    hidden flag being as before.  The block is of type "experience" with the
    eight empty fields of the handler; its id is "experience_" followed by
    the suffix from the store's random number, and is never the "exp_" id
    that the handler made. *)
Theorem handleAddExperience_appends_block_with_store_id :
  forall (rndHandler rndStore : string) (now : Z) (w : World) (found : Section),
    List.find (has_section_type "experience") (sections (doc (store w))) = Some found ->
    exists w' pre s post s' newBlock,
      handleAddExperience rndHandler rndStore now w = Returned w' /\
      sections (doc (store w)) = pre ++ s :: post /\
      section_id s = section_id found /\
      (forall x, In x pre -> section_id x <> section_id found) /\
      (List.NoDup (map section_id (sections (doc (store w)))) -> s = found) /\
      sections (doc (store w')) = pre ++ s' :: post /\
      List.find (has_section_id (section_id found)) (sections (doc (store w')))
        = Some s' /\
      blocks s' = blocks s ++ [newBlock] /\
      map block_id (blocks s') =
        map block_id (blocks s) ++ ["experience_" +:+ slice rndStore 2 10] /\
      section_id s' = section_id s /\
      section_type s' = section_type s /\
      section_title s' = section_title s /\
      hidden s' = hidden s /\
      block_type newBlock = "experience" /\
      fields newBlock = fields (newExperienceBlock rndHandler) /\
      block_id newBlock = "experience_" +:+ slice rndStore 2 10 /\
      block_id newBlock <> block_id (newExperienceBlock rndHandler).
Proof.
  intros rh rs now w found Hfound.
  apply find_some in Hfound as Hf. destruct Hf as [Hin _].
  assert (Hex : existsb (has_section_id (section_id found)) (sections (doc (store w))) = true).
  { apply existsb_exists. exists found. split; [exact Hin | apply String.eqb_refl]. }
  destruct (first_match_split _ _ Hex) as (pre & s & post & Hss & Hpre & Hs).
  pose (newBlock := {| block_id := uid rs (Some "experience"); block_type := "experience";
                       fields := fields (newExperienceBlock rh) |}).
  exists (committed now
            (with_sections (doc (store w))
               (pre ++ with_blocks s (blocks s ++ [newBlock]) :: post)) [] w),
    pre, s, post, (with_blocks s (blocks s ++ [newBlock])), newBlock.
  split.
  - unfold handleAddExperience. rewrite Hfound.
    unfold addBlock. apply setDoc_Update. unfold addBlock_updater.
    rewrite JSON_clone_id, Hss, (find_first_match _ pre post s Hpre Hs).
    rewrite (update_first_match _ _ pre post s Hpre Hs). reflexivity.
  - split; [exact Hss | ]. split; [apply String.eqb_eq; exact Hs | ].
    split; [intros x Hx; apply String.eqb_neq; apply Hpre; exact Hx | ].
    split.
    + intros Hnd.
      assert (Hfs : List.find (has_section_id (section_id found))
                      (sections (doc (store w))) = Some found)
        by (apply find_unique_id; assumption).
      rewrite Hss, (find_first_match _ pre post s Hpre Hs) in Hfs. congruence.
    + simpl. split; [reflexivity | ].
      split; [apply find_first_match; [exact Hpre | exact Hs] | ].
      split; [reflexivity | ].
      split; [rewrite map_app; reflexivity | ].
      repeat split. unfold uid. simpl. discriminate.
Qed.

Lemma handleAddExperience_appends_block_with_store_id_witness :
  exists found,
    List.find (has_section_type "experience")
      (sections (doc (store (world_of (sampleResume 1699999990000 1699999990000)))))
      = Some found /\
    exists w' pre s post s' newBlock,
      handleAddExperience "0.4fzyo82mvyr" "0.9k2j1x0qwert" 1700000000000
        (world_of (sampleResume 1699999990000 1699999990000)) = Returned w' /\
      sections (doc (store (world_of (sampleResume 1699999990000 1699999990000))))
        = pre ++ s :: post /\
      section_id s = section_id found /\
      (forall x, In x pre -> section_id x <> section_id found) /\
      (List.NoDup (map section_id
                     (sections (doc (store (world_of (sampleResume 1699999990000
                                                        1699999990000))))))
       -> s = found) /\
      sections (doc (store w')) = pre ++ s' :: post /\
      List.find (has_section_id (section_id found)) (sections (doc (store w')))
        = Some s' /\
      blocks s' = blocks s ++ [newBlock] /\
      map block_id (blocks s') =
        map block_id (blocks s) ++ ["experience_" +:+ slice "0.9k2j1x0qwert" 2 10] /\
      section_id s' = section_id s /\
      section_type s' = section_type s /\
      section_title s' = section_title s /\
      hidden s' = hidden s /\
      block_type newBlock = "experience" /\
      fields newBlock = fields (newExperienceBlock "0.4fzyo82mvyr") /\
      block_id newBlock = "experience_" +:+ slice "0.9k2j1x0qwert" 2 10 /\
      block_id newBlock <> block_id (newExperienceBlock "0.4fzyo82mvyr").
Proof.
  eexists. split; [vm_compute; reflexivity | ].
  exact (handleAddExperience_appends_block_with_store_id "0.4fzyo82mvyr"
           "0.9k2j1x0qwert" 1700000000000%Z
           (world_of (sampleResume 1699999990000 1699999990000)) _ eq_refl).
Defined.

(** ** The theme handlers *)

Lemma unique_keys_assoc_set {A : Type} (ps : list (string * A)) k v :
  unique_keys ps -> unique_keys (assoc_set ps k v).
Proof.
  unfold unique_keys. rewrite assoc_set_keys.
  destruct (existsb (String.eqb k) (map fst ps)) eqn:Hex; [auto | ].
  intros Hnd.
  assert (Hnew : ~ In k (map fst ps)).
  { intros Hin.
    assert (existsb (String.eqb k) (map fst ps) = true).
    { apply existsb_exists. exists k. split; [exact Hin | apply String.eqb_refl]. }
    congruence. }
  clear Hex. induction (map fst ps) as [ | x xs IH]; simpl.
  - constructor; [intros [] | constructor].
  - inversion Hnd as [ | ? ? Hx Hxs]; subst. constructor.
    + rewrite in_app_iff. intros [H | [H | []]]; [exact (Hx H) | ].
      apply Hnew. left. symmetry. exact H.
    + apply IH; [exact Hxs | ]. intros H. apply Hnew. right. exact H.
Qed.

Lemma unique_keys_spread acc src : unique_keys acc -> unique_keys (spread acc src).
Proof.
  unfold spread. generalize (own_props src) as ps. intros ps. revert acc.
  induction ps as [ | [k v] ps IH]; intros acc Hacc; simpl; [exact Hacc | ].
  apply IH. apply unique_keys_assoc_set. exact Hacc.
Qed.

Lemma unique_keys_nil {A : Type} : unique_keys (@nil (string * A)).
Proof. constructor. Qed.

Lemma assoc_get_spread_nil src k :
  unique_keys (own_props src) ->
  assoc_get k (spread [] src) = assoc_get k (own_props src).
Proof.
  intros H. rewrite assoc_get_spread by exact H.
  destruct (assoc_get k (own_props src)); reflexivity.
Qed.

(** A patch that rewrites one key of one group, as the handlers build it. *)
Lemma setTheme_one_key_of_group now g key value w :
  In g theme_groups ->
  well_formed_theme (theme (doc (store w))) ->
  exists w' merged,
    setTheme now
      [(g, JObj (assoc_set (spread [] (assoc_get g (theme (doc (store w))))) key value))]
      w = Returned w' /\
    assoc_get g (theme (doc (store w'))) = Some (JObj merged) /\
    assoc_get key merged = Some value /\
    (forall k, k <> key ->
       assoc_get k merged = assoc_get k (own_props (assoc_get g (theme (doc (store w)))))) /\
    (forall g', In g' theme_groups -> g' <> g ->
       exists merged',
         assoc_get g' (theme (doc (store w'))) = Some (JObj merged') /\
         forall k, assoc_get k merged' =
                   assoc_get k (own_props (assoc_get g' (theme (doc (store w)))))) /\
    (forall k, ~ In k theme_groups ->
       assoc_get k (theme (doc (store w'))) = assoc_get k (theme (doc (store w)))) /\
    sections (doc (store w')) = sections (doc (store w)).
Proof.
  intros Hg [Htheme Hgroups].
  set (old := theme (doc (store w))).
  set (patched := assoc_set (spread [] (assoc_get g old)) key value).
  assert (Hpatched : unique_keys patched).
  { apply unique_keys_assoc_set, unique_keys_spread, unique_keys_nil. }
  eexists _, _. split; [apply setTheme_returns | ]. simpl. fold old. fold patched.
  split; [apply (merged_group_lookup g _ _ _ Hg) | ].
  assert (Hown : assoc_get g [(g, JObj patched)] = Some (JObj patched))
    by (simpl; rewrite String.eqb_refl; reflexivity).
  unfold merge_group at 1 2. rewrite Hown.
  split; [ | split; [ | split; [ | split]]].
  - rewrite assoc_get_spread by exact Hpatched. simpl own_props.
    unfold patched. rewrite assoc_get_set_eq. reflexivity.
  - intros k Hk. rewrite assoc_get_spread by exact Hpatched. simpl own_props.
    unfold patched at 1. rewrite assoc_get_set_ne by exact Hk.
    rewrite !(assoc_get_spread_nil _ _ (Hgroups g Hg)). unfold old.
    match goal with
    | |- match ?x with _ => _ end = _ => destruct x; reflexivity
    end.
  - intros g' Hg' Hne. eexists. split; [apply (merged_group_lookup g' _ _ _ Hg') | ].
    intros k. unfold merge_group.
    assert (Hnone : assoc_get g' [(g, JObj patched)] = None).
    { simpl. rewrite (proj2 (String.eqb_neq g g')) by congruence. reflexivity. }
    rewrite Hnone. unfold spread at 1. simpl.
    apply assoc_get_spread_nil. apply Hgroups. exact Hg'.
  - intros k Hk. unfold theme_groups in Hk. simpl in Hk.
    rewrite !assoc_get_set_ne by (intros ->; tauto).
    rewrite assoc_get_spread
      by (simpl; unfold unique_keys; simpl; repeat constructor; simpl; tauto).
    simpl own_props.
    assert (Hkg : assoc_get k [(g, JObj patched)] = None).
    { simpl. destruct (String.eqb_spec g k) as [<- | ]; [ | reflexivity].
      exfalso. apply Hk. unfold theme_groups in Hg. simpl in Hg. tauto. }
    rewrite Hkg. apply (assoc_get_spread_nil (Some (JObj old))). exact Htheme.
  - reflexivity.
Qed.

(** X21. [handlePaperSizeChange(newSize)] sets [theme.layout.paper] to
    [newSize] and changes nothing else in the theme: every other key of
    [layout], every key of [colors] and [spacing] and every other top-level
    key reads as before; the sections are untouched. *)
Theorem handlePaperSizeChange_sets_paper_only :
  forall (now : Z) (newSize : string) (w : World),
    well_formed_theme (theme (doc (store w))) ->
    exists w' layout',
      handlePaperSizeChange now newSize w = Returned w' /\
      assoc_get "layout" (theme (doc (store w'))) = Some (JObj layout') /\
      assoc_get "paper" layout' = Some (JStr newSize) /\
      (forall k, k <> "paper" ->
         assoc_get k layout' =
         assoc_get k (own_props (assoc_get "layout" (theme (doc (store w)))))) /\
      (forall g', In g' theme_groups -> g' <> "layout" ->
         exists merged',
           assoc_get g' (theme (doc (store w'))) = Some (JObj merged') /\
           forall k, assoc_get k merged' =
                     assoc_get k (own_props (assoc_get g' (theme (doc (store w)))))) /\
      (forall k, ~ In k theme_groups ->
         assoc_get k (theme (doc (store w'))) = assoc_get k (theme (doc (store w)))) /\
      sections (doc (store w')) = sections (doc (store w)).
Proof.
  intros now newSize w Hwf.
  apply (setTheme_one_key_of_group now "layout" "paper" (JStr newSize) w);
    [unfold theme_groups; simpl; auto | exact Hwf].
Qed.

(** X22. [handleSectionSpacingChange(value)] sets [theme.spacing.sectionY]
    to [value] and changes nothing else in the theme: [spacing.itemY] and any
    other key of [spacing], every key of [colors] and [layout] and every other
    top-level key read as before. *)
Theorem handleSectionSpacingChange_sets_sectionY_only :
  forall (now : Z) (value : JValue) (w : World),
    well_formed_theme (theme (doc (store w))) ->
    exists w' spacing',
      handleSectionSpacingChange now value w = Returned w' /\
      assoc_get "spacing" (theme (doc (store w'))) = Some (JObj spacing') /\
      assoc_get "sectionY" spacing' = Some value /\
      (forall k, k <> "sectionY" ->
         assoc_get k spacing' =
         assoc_get k (own_props (assoc_get "spacing" (theme (doc (store w)))))) /\
      (forall g', In g' theme_groups -> g' <> "spacing" ->
         exists merged',
           assoc_get g' (theme (doc (store w'))) = Some (JObj merged') /\
           forall k, assoc_get k merged' =
                     assoc_get k (own_props (assoc_get g' (theme (doc (store w)))))) /\
      (forall k, ~ In k theme_groups ->
         assoc_get k (theme (doc (store w'))) = assoc_get k (theme (doc (store w)))) /\
      sections (doc (store w')) = sections (doc (store w)).
Proof.
  intros now value w Hwf.
  apply (setTheme_one_key_of_group now "spacing" "sectionY" value w);
    [unfold theme_groups; simpl; auto | exact Hwf].
Qed.

Lemma defaultTheme_well_formed : well_formed_theme defaultTheme.
Proof.
  split; [prove_unique_keys | ].
  intros g [<- | [<- | [<- | []]]]; prove_unique_keys.
Qed.

Lemma handlePaperSizeChange_sets_paper_only_witness :
  well_formed_theme
    (theme (doc (store (world_of (sampleResume 1699999990000 1699999990000))))) /\
  exists w' layout',
    handlePaperSizeChange 1700000000000 "Letter"
      (world_of (sampleResume 1699999990000 1699999990000)) = Returned w' /\
    assoc_get "layout" (theme (doc (store w'))) = Some (JObj layout') /\
    assoc_get "paper" layout' = Some (JStr "Letter") /\
    (forall k, k <> "paper" ->
       assoc_get k layout' = assoc_get k (own_props (assoc_get "layout" defaultTheme))) /\
    (forall g', In g' theme_groups -> g' <> "layout" ->
       exists merged',
         assoc_get g' (theme (doc (store w'))) = Some (JObj merged') /\
         forall k, assoc_get k merged' =
                   assoc_get k (own_props (assoc_get g' defaultTheme))) /\
    (forall k, ~ In k theme_groups ->
       assoc_get k (theme (doc (store w'))) = assoc_get k defaultTheme) /\
    sections (doc (store w')) = sections (sampleResume 1699999990000 1699999990000).
Proof.
  split; [exact defaultTheme_well_formed | ].
  exact (handlePaperSizeChange_sets_paper_only 1700000000000%Z "Letter"
           (world_of (sampleResume 1699999990000 1699999990000))
           defaultTheme_well_formed).
Defined.

Lemma handleSectionSpacingChange_sets_sectionY_only_witness :
  well_formed_theme
    (theme (doc (store (world_of (sampleResume 1699999990000 1699999990000))))) /\
  exists w' spacing',
    handleSectionSpacingChange 1700000000000 (JNum 28)
      (world_of (sampleResume 1699999990000 1699999990000)) = Returned w' /\
    assoc_get "spacing" (theme (doc (store w'))) = Some (JObj spacing') /\
    assoc_get "sectionY" spacing' = Some (JNum 28) /\
    (forall k, k <> "sectionY" ->
       assoc_get k spacing' = assoc_get k (own_props (assoc_get "spacing" defaultTheme))) /\
    (forall g', In g' theme_groups -> g' <> "spacing" ->
       exists merged',
         assoc_get g' (theme (doc (store w'))) = Some (JObj merged') /\
         forall k, assoc_get k merged' =
                   assoc_get k (own_props (assoc_get g' defaultTheme))) /\
    (forall k, ~ In k theme_groups ->
       assoc_get k (theme (doc (store w'))) = assoc_get k defaultTheme) /\
    sections (doc (store w')) = sections (sampleResume 1699999990000 1699999990000).
Proof.
  split; [exact defaultTheme_well_formed | ].
  exact (handleSectionSpacingChange_sets_sectionY_only 1700000000000%Z (JNum 28)
           (world_of (sampleResume 1699999990000 1699999990000))
           defaultTheme_well_formed).
Defined.

(** A patch with one top-level key that is not a group. *)
Lemma setTheme_one_top_level_key now key value w :
  ~ In key theme_groups ->
  well_formed_theme (theme (doc (store w))) ->
  exists w',
    setTheme now [(key, value)] w = Returned w' /\
    assoc_get key (theme (doc (store w'))) = Some value /\
    (forall k, k <> key -> ~ In k theme_groups ->
       assoc_get k (theme (doc (store w'))) = assoc_get k (theme (doc (store w)))) /\
    (forall g, In g theme_groups ->
       exists merged,
         assoc_get g (theme (doc (store w'))) = Some (JObj merged) /\
         forall k, assoc_get k merged =
                   assoc_get k (own_props (assoc_get g (theme (doc (store w)))))) /\
    sections (doc (store w')) = sections (doc (store w)).
Proof.
  intros Hkey [Htheme Hgroups].
  assert (Hpatch : unique_keys [(key, value)])
    by (unfold unique_keys; simpl; repeat constructor; simpl; tauto).
  eexists. split; [apply setTheme_returns | ]. simpl.
  assert (Hnongroup : forall k, ~ In k theme_groups ->
            assoc_get k
              (assoc_set
                 (assoc_set
                    (assoc_set
                       (spread (spread [] (Some (JObj (theme (doc (store w))))))
                          (Some (JObj [(key, value)])))
                       "colors" (merge_group "colors" (theme (doc (store w))) [(key, value)]))
                    "spacing" (merge_group "spacing" (theme (doc (store w))) [(key, value)]))
                 "layout" (merge_group "layout" (theme (doc (store w))) [(key, value)]))
            = match assoc_get k [(key, value)] with
              | Some v => Some v
              | None => assoc_get k (theme (doc (store w)))
              end).
  { intros k Hk. unfold theme_groups in Hk. simpl in Hk.
    rewrite !assoc_get_set_ne by (intros ->; tauto).
    rewrite assoc_get_spread by exact Hpatch. simpl own_props.
    destruct (assoc_get k [(key, value)]); [reflexivity | ].
    apply (assoc_get_spread_nil (Some (JObj (theme (doc (store w)))))). exact Htheme. }
  split; [ | split; [ | split]].
  - rewrite (Hnongroup key Hkey). simpl. rewrite String.eqb_refl. reflexivity.
  - intros k Hne Hk. rewrite (Hnongroup k Hk). simpl.
    rewrite (proj2 (String.eqb_neq key k)) by congruence. reflexivity.
  - intros g Hg. eexists. split; [apply (merged_group_lookup g _ _ _ Hg) | ].
    intros k. unfold merge_group.
    assert (Hnone : assoc_get g [(key, value)] = None).
    { simpl. destruct (String.eqb_spec key g) as [-> | ]; [contradiction | reflexivity]. }
    rewrite Hnone. unfold spread at 1. simpl.
    apply assoc_get_spread_nil. apply Hgroups. exact Hg.
  - reflexivity.
Qed.

(** X23. [handleFontFamilyChange(value)] and [handleFontScaleChange(value)]
    replace [theme.fontFamily], respectively [theme.fontScale], by [value]
    and leave the rest of the theme as it reads: the other top-level keys, and
    every key of the groups [colors], [spacing] and [layout]. *)
Theorem font_handlers_replace_one_top_level_key :
  forall (now : Z) (value : JValue) (w : World),
    well_formed_theme (theme (doc (store w))) ->
    (exists w',
       handleFontFamilyChange now value w = Returned w' /\
       assoc_get "fontFamily" (theme (doc (store w'))) = Some value /\
       (forall k, k <> "fontFamily" -> ~ In k theme_groups ->
          assoc_get k (theme (doc (store w'))) = assoc_get k (theme (doc (store w)))) /\
       (forall g, In g theme_groups ->
          exists merged,
            assoc_get g (theme (doc (store w'))) = Some (JObj merged) /\
            forall k, assoc_get k merged =
                      assoc_get k (own_props (assoc_get g (theme (doc (store w)))))))
    /\
    (exists w',
       handleFontScaleChange now value w = Returned w' /\
       assoc_get "fontScale" (theme (doc (store w'))) = Some value /\
       (forall k, k <> "fontScale" -> ~ In k theme_groups ->
          assoc_get k (theme (doc (store w'))) = assoc_get k (theme (doc (store w)))) /\
       (forall g, In g theme_groups ->
          exists merged,
            assoc_get g (theme (doc (store w'))) = Some (JObj merged) /\
            forall k, assoc_get k merged =
                      assoc_get k (own_props (assoc_get g (theme (doc (store w))))))).
Proof.
  intros now value w Hwf. split.
  - destruct (setTheme_one_top_level_key now "fontFamily" value w) as (w' & H1 & H2 & H3 & H4 & _);
      [unfold theme_groups; simpl; intuition discriminate | exact Hwf | ].
    exists w'. repeat split; assumption.
  - destruct (setTheme_one_top_level_key now "fontScale" value w) as (w' & H1 & H2 & H3 & H4 & _);
      [unfold theme_groups; simpl; intuition discriminate | exact Hwf | ].
    exists w'. repeat split; assumption.
Qed.

Lemma font_handlers_replace_one_top_level_key_witness :
  well_formed_theme
    (theme (doc (store (world_of (sampleResume 1699999990000 1699999990000))))) /\
  exists w',
    handleFontFamilyChange 1700000000000 (JStr "EB Garamond, ui-serif, Georgia")
      (world_of (sampleResume 1699999990000 1699999990000)) = Returned w' /\
    assoc_get "fontFamily" (theme (doc (store w')))
      = Some (JStr "EB Garamond, ui-serif, Georgia") /\
    (forall k, k <> "fontFamily" -> ~ In k theme_groups ->
       assoc_get k (theme (doc (store w'))) = assoc_get k defaultTheme) /\
    (forall g, In g theme_groups ->
       exists merged,
         assoc_get g (theme (doc (store w'))) = Some (JObj merged) /\
         forall k, assoc_get k merged =
                   assoc_get k (own_props (assoc_get g defaultTheme))).
Proof.
  split; [exact defaultTheme_well_formed | ].
  exact (proj1 (font_handlers_replace_one_top_level_key 1700000000000%Z
                  (JStr "EB Garamond, ui-serif, Georgia")
                  (world_of (sampleResume 1699999990000 1699999990000))
                  defaultTheme_well_formed)).
Defined.

(** * Reset, reload and the validators *)

Section ResetAndReload.

Variable JSON_stringify : ResumeDoc -> string.
Variable setItem_accepts : string -> bool.
Variables loaded1 loaded2 : Z.
Variable JSON_parse : string -> option JValue.

(** X24. The document that [resetToSample] installs is not saved.  When no
    autosave is pending at the reset, the stored item stays absent however
    much time passes, so loading again gives the built-in sample with its
    constant id and not the document with the id that the reset generated;
    the two ids always differ. *)
Theorem reset_document_is_not_persisted :
  forall (rnd36 : string) (now1 now2 T : Z) (w : World),
    saveTimeout w = None ->
    let w' := run_timers JSON_stringify setItem_accepts T
                (resetToSample loaded1 loaded2 rnd36 now1 now2 w) in
    storage w' = None /\
    writes w' = writes w /\
    loadFromStorage loaded1 loaded2 JSON_parse (Returned (storage w'))
      = doc_to_json (sampleResume loaded1 loaded2) /\
    doc_id (doc (store w')) = "resume_" +:+ slice rnd36 2 10 /\
    doc_id (doc (store w')) <> doc_id (sampleResume loaded1 loaded2) /\
    createdAt (meta (doc (store w'))) = now1 /\
    updatedAt (meta (doc (store w'))) = now2.
Proof.
  intros rnd36 now1 now2 T w Hnone w'. subst w'.
  unfold run_timers. simpl. rewrite Hnone. simpl.
  repeat split. unfold uid. simpl. discriminate.
Qed.

End ResetAndReload.

Lemma reset_document_is_not_persisted_witness :
  saveTimeout (world_of threeSections) = None /\
  let w' := run_timers example_stringify always_accepts 1700000009000
              (resetToSample 1699999990000 1699999990000 "0.4fzyo82mvyr"
                 1700000000000 1700000000000 (world_of threeSections)) in
  storage w' = None /\
  writes w' = writes (world_of threeSections) /\
  loadFromStorage 1699999990000 1699999990000 (parse_table []) (Returned (storage w'))
    = doc_to_json (sampleResume 1699999990000 1699999990000) /\
  doc_id (doc (store w')) = "resume_" +:+ slice "0.4fzyo82mvyr" 2 10 /\
  doc_id (doc (store w')) <> doc_id (sampleResume 1699999990000 1699999990000) /\
  createdAt (meta (doc (store w'))) = 1700000000000%Z /\
  updatedAt (meta (doc (store w'))) = 1700000000000%Z.
Proof.
  split; [reflexivity | ].
  exact (reset_document_is_not_persisted example_stringify always_accepts
           1699999990000%Z 1699999990000%Z (parse_table []) "0.4fzyo82mvyr"
           1700000000000%Z 1700000000000%Z 1700000009000%Z (world_of threeSections)
           eq_refl).
Defined.

(** X25. [addBlock] does not compare the id it generates with the ids in
    the section: when the generated id is already the id of a block there,
    the committed section has two blocks with that id. *)
Theorem addBlock_can_duplicate_a_block_id :
  forall (rnd36 : string) (now : Z) (sectionId : string) (blockTemplate : Block)
         (w : World) (s : Section),
    List.find (has_section_id sectionId) (sections (doc (store w))) = Some s ->
    In (uid rnd36 (Some (block_type blockTemplate))) (map block_id (blocks s)) ->
    exists w' s',
      addBlock rnd36 now sectionId blockTemplate w = Returned w' /\
      List.find (has_section_id sectionId) (sections (doc (store w'))) = Some s' /\
      map block_id (blocks s') =
        map block_id (blocks s) ++ [uid rnd36 (Some (block_type blockTemplate))] /\
      ~ List.NoDup (map block_id (blocks s')).
Proof.
  intros rnd36 now sectionId tpl w s Hfind Hin.
  assert (Hex : existsb (has_section_id sectionId) (sections (doc (store w))) = true).
  { apply find_some in Hfind as [Hs Hp]. apply existsb_exists. eauto. }
  destruct (first_match_split _ _ Hex) as (pre & s0 & post & Hss & Hpre & Hs).
  assert (s0 = s) as ->.
  { rewrite Hss, (find_first_match _ pre post s0 Hpre Hs) in Hfind. congruence. }
  eexists. eexists. split; [ | split; [ | split]].
  - unfold addBlock. apply setDoc_Update. unfold addBlock_updater.
    rewrite JSON_clone_id, Hss, (find_first_match _ pre post s Hpre Hs).
    rewrite (update_first_match _ _ pre post s Hpre Hs). reflexivity.
  - simpl. apply find_first_match; [exact Hpre | exact Hs].
  - simpl. rewrite map_app. reflexivity.
  - simpl. rewrite map_app. simpl. intros Hnd.
    apply NoDup_remove_2 in Hnd. apply Hnd. rewrite app_nil_r. exact Hin.
Qed.

Lemma addBlock_can_duplicate_a_block_id_witness :
  List.find (has_section_id "s2") (sections (doc (store (world_of clashingBlock))))
    = Some (with_blocks (section_named "s2") [block_named "experience_4fzyo82m"]) /\
  In (uid "0.4fzyo82mvyr" (Some (block_type engineerTemplate)))
     (map block_id (blocks (with_blocks (section_named "s2")
                              [block_named "experience_4fzyo82m"]))) /\
  exists w' s',
    addBlock "0.4fzyo82mvyr" 1700000000000 "s2" engineerTemplate
      (world_of clashingBlock) = Returned w' /\
    List.find (has_section_id "s2") (sections (doc (store w'))) = Some s' /\
    map block_id (blocks s') =
      map block_id (blocks (with_blocks (section_named "s2")
                              [block_named "experience_4fzyo82m"]))
      ++ [uid "0.4fzyo82mvyr" (Some (block_type engineerTemplate))] /\
    ~ List.NoDup (map block_id (blocks s')).
Proof.
  assert (H : In (uid "0.4fzyo82mvyr" (Some (block_type engineerTemplate)))
                (map block_id (blocks (with_blocks (section_named "s2")
                                         [block_named "experience_4fzyo82m"]))))
    by (left; reflexivity).
  split; [reflexivity | ]. split; [exact H | ].
  exact (addBlock_can_duplicate_a_block_id "0.4fzyo82mvyr" 1700000000000%Z "s2"
           engineerTemplate (world_of clashingBlock) _ eq_refl H).
Defined.

(** ** The validators *)

Lemma loadFromStorage_uses_storage_check loaded1 loaded2 JSON_parse text parsed :
  text <> EmptyString ->
  JSON_parse text = Some parsed ->
  loadFromStorage loaded1 loaded2 JSON_parse (Returned (Some text)) =
  if storage_check parsed then parsed else doc_to_json (sampleResume loaded1 loaded2).
Proof.
  intros Htext Hparse. unfold loadFromStorage. simpl truthy at 1.
  rewrite (proj2 (String.eqb_neq _ _) Htext), Hparse. reflexivity.
Qed.

Lemma storage_check_object ps :
  storage_check (JObj ps) =
  truthy (assoc_get "id" ps) && is_array (assoc_get "sections" ps).
Proof.
  unfold storage_check, prop. change (truthy (Some (JObj ps))) with true.
  destruct (assoc_get "sections" ps) as [[ | | | | secs | ] | ]; simpl;
    rewrite ?andb_false_r, ?andb_true_r; reflexivity.
Qed.

Lemma storage_check_not_object parsed :
  (forall ps, parsed <> JObj ps) -> storage_check parsed = false.
Proof.
  intros Hno. destruct parsed as [ | b | n | s | items | ps];
    try (unfold storage_check; simpl; rewrite ?andb_false_r; reflexivity).
  now destruct (Hno ps).
Qed.

Lemma printPage_accepts_object ps :
  printPage_accepts (JObj ps) =
  truthy (assoc_get "id" ps) && is_array (assoc_get "sections" ps).
Proof.
  unfold printPage_accepts, prop.
  destruct (truthy (assoc_get "id" ps)), (is_array (assoc_get "sections" ps));
    reflexivity.
Qed.

Lemma validateResumeDoc_object ps :
  validateResumeDoc (Some (JObj ps)) =
  truthy (assoc_get "id" ps)
  && String.eqb (typeof (assoc_get "id" ps)) "string"
  && is_array (assoc_get "sections" ps).
Proof.
  unfold validateResumeDoc, prop. change (not_an_object (Some (JObj ps))) with false.
  destruct (truthy (assoc_get "id" ps)),
    (String.eqb (typeof (assoc_get "id" ps)) "string"),
    (is_array (assoc_get "sections" ps)); reflexivity.
Qed.

Lemma is_array_shape x : is_array x = true <-> exists items, x = Some (JArr items).
Proof.
  split.
  - destruct x as [[ | | | | items | ] | ]; try discriminate. eauto.
  - intros [items ->]. reflexivity.
Qed.

Lemma typeof_string_shape x :
  String.eqb (typeof x) "string" = true <-> exists s, x = Some (JStr s).
Proof.
  split.
  - destruct x as [[ | | | s | | ] | ]; try discriminate. eauto.
  - intros [s ->]. reflexivity.
Qed.

(** X26. The three checks on a parsed document.  The check of the print
    page accepts exactly what the check of [loadFromStorage] accepts: objects
    with a truthy [id] and an array for [sections].  [validateResumeDoc] is
    stricter, it accepts exactly those among them whose [id] is a string; so
    every document it accepts is also loaded and printed, while a document
    with a numeric id is loaded and printed but not valid for it.  Every
    document of the store whose id is not empty passes all three. *)
Theorem validators_compared :
  (forall parsed : JValue,
     printPage_accepts parsed = storage_check parsed /\
     (storage_check parsed = true <->
      exists ps idv secs,
        parsed = JObj ps /\ assoc_get "id" ps = Some idv /\
        truthy (Some idv) = true /\ assoc_get "sections" ps = Some (JArr secs)) /\
     (validateResumeDoc (Some parsed) = true <->
      storage_check parsed = true /\
      exists s, prop (Some parsed) "id" = Some (JStr s)))
  /\
  validateResumeDoc None = false
  /\
  (forall d : ResumeDoc,
     validateResumeDoc (Some (doc_to_json d)) = negb (String.eqb (doc_id d) EmptyString) /\
     storage_check (doc_to_json d) = negb (String.eqb (doc_id d) EmptyString) /\
     printPage_accepts (doc_to_json d) = negb (String.eqb (doc_id d) EmptyString)).
Proof.
  split; [ | split; [reflexivity | ]].
  - intros parsed.
    destruct parsed as [ | b | n | s | items | ps].
    1-5: (split; [ | split]; [ rewrite storage_check_not_object by discriminate; reflexivity
         | rewrite storage_check_not_object by discriminate; split;
             [discriminate | intros (ps & ? & ? & Heq & _); discriminate Heq]
         | split; [ | intros [_ [s' Hs]]; discriminate Hs] ]).
    + discriminate.
    + unfold validateResumeDoc; simpl; destruct (not_an_object _); discriminate.
    + unfold validateResumeDoc; simpl; destruct (not_an_object _); discriminate.
    + unfold validateResumeDoc; simpl; destruct (not_an_object _); discriminate.
    + discriminate.
    + rewrite printPage_accepts_object, storage_check_object, validateResumeDoc_object.
      split; [reflexivity | split].
      * rewrite andb_true_iff, is_array_shape. split.
        -- intros [Hid [secs Hsecs]].
           destruct (assoc_get "id" ps) as [idv | ] eqn:Hidv; [ | discriminate].
           exists ps, idv, secs. repeat split; assumption.
        -- intros (ps' & idv & secs & Heq & Hid & Htruthy & Hsecs).
           injection Heq as <-. rewrite Hid. eauto.
      * rewrite !andb_true_iff, typeof_string_shape. unfold prop. tauto.
  - intros d. unfold doc_to_json. rewrite validateResumeDoc_object, storage_check_object,
      printPage_accepts_object. simpl.
    destruct (String.eqb (doc_id d) EmptyString); repeat split.
Qed.

Lemma validators_compared_witness :
  (storage_check numericIdDoc = true /\
   exists ps idv secs,
     numericIdDoc = JObj ps /\ assoc_get "id" ps = Some idv /\
     truthy (Some idv) = true /\ assoc_get "sections" ps = Some (JArr secs)) /\
  printPage_accepts numericIdDoc = true /\
  validateResumeDoc (Some numericIdDoc) = false.
Proof.
  split; [ | split; reflexivity].
  split; [reflexivity | ].
  exact (proj1 (proj1 (proj2 (proj1 validators_compared numericIdDoc))) eq_refl).
Defined.

(** * Paper size: from the preview to the PDF options *)

Lemma paperSize_of_document (d : ResumeDoc) :
  paperSize (doc_to_json d) =
  Returned match prop (assoc_get "layout" (theme d)) "paper" with
           | Some p => if truthy (Some p) then p else JStr "A4"
           | None => JStr "A4"
           end.
Proof.
  unfold paperSize, doc_to_json. simpl.
  destruct (prop (assoc_get "layout" (theme d)) "paper"); reflexivity.
Qed.

(** X27. The PDF options follow the paper size chosen in the preview.
    After [handlePaperSizeChange(newSize)] on a document with a well-formed
    theme, [exportPdf] computes the Letter options (8.5in by 11in, margins
    of 0.5in) exactly when [newSize] is the string "Letter"; for every other
    value, the empty string, "letter" and "A4" included, it computes the A4
    options with margins of 12mm. *)
Theorem paper_size_of_preview_decides_pdf_options :
  forall (now : Z) (newSize : string) (w : World),
    well_formed_theme (theme (doc (store w))) ->
    exists w',
      handlePaperSizeChange now newSize w = Returned w' /\
      pdfOptions (doc_to_json (doc (store w'))) =
        Returned (if String.eqb newSize "Letter" then letterOptions else a4Options).
Proof.
  intros now newSize w Hwf.
  destruct (setTheme_one_key_of_group now "layout" "paper" (JStr newSize) w)
    as (w' & layout' & Hret & Hlayout & Hpaper & _);
    [unfold theme_groups; simpl; auto | exact Hwf | ].
  exists w'. split; [exact Hret | ].
  unfold pdfOptions. rewrite paperSize_of_document, Hlayout. simpl.
  rewrite Hpaper. simpl.
  destruct (String.eqb_spec newSize EmptyString) as [-> | Hne]; simpl; reflexivity.
Qed.

Lemma paper_size_of_preview_decides_pdf_options_witness :
  well_formed_theme (theme (doc (store (world_of threeSections)))) /\
  exists w',
    handlePaperSizeChange 1700000000000 "Letter" (world_of threeSections) = Returned w' /\
    pdfOptions (doc_to_json (doc (store w'))) =
      Returned (if String.eqb "Letter" "Letter" then letterOptions else a4Options).
Proof.
  assert (Hwf : well_formed_theme (theme (doc (store (world_of threeSections)))))
    by exact defaultTheme_well_formed.
  split; [exact Hwf | ].
  exact (paper_size_of_preview_decides_pdf_options 1700000000000%Z "Letter"
           (world_of threeSections) Hwf).
Defined.

(** X28. Without a usable paper size the PDF is A4: when the document is an
    object whose [theme], [theme.layout] or [theme.layout.paper] is missing,
    [null] or falsy, or whose paper size is anything but the string
    "Letter", [exportPdf] computes the A4 options; it computes the Letter
    options only for the string "Letter". *)
Theorem pdf_options_are_letter_only_for_Letter :
  forall (ps : Props),
    (pdfOptions (JObj ps) = Returned letterOptions <->
     prop (prop (assoc_get "theme" ps) "layout") "paper" = Some (JStr "Letter")) /\
    (pdfOptions (JObj ps) = Returned a4Options <->
     prop (prop (assoc_get "theme" ps) "layout") "paper" <> Some (JStr "Letter")).
Proof.
  intros ps. unfold pdfOptions, paperSize. simpl.
  destruct (prop (prop (assoc_get "theme" ps) "layout") "paper")
    as [[ | b | n | s | items | qs] | ]; simpl;
    try (split; split; (discriminate || reflexivity || (intros _; discriminate))).
  - destruct b; simpl;
      (split; split; (discriminate || reflexivity || (intros _; discriminate))).
  - destruct (Z.eqb n 0); simpl;
      (split; split; (discriminate || reflexivity || (intros _; discriminate))).
  - destruct (String.eqb_spec s EmptyString) as [-> | Hne]; simpl.
    + split; split; (discriminate || reflexivity || (intros _; discriminate)).
    + destruct (String.eqb_spec s "Letter") as [-> | Hs]; simpl.
      * split; split; try reflexivity; try discriminate.
        intros Hno. now destruct Hno.
      * split; split; try reflexivity; try discriminate; congruence.
Qed.

(** * Colours *)

Lemma hex_value_below c v : hex_value c = Some v -> (v < 16)%N.
Proof.
  unfold hex_value.
  destruct ((48 <=? N_of_ascii c) && (N_of_ascii c <=? 57))%N eqn:H1.
  - intros [= <-]. apply andb_true_iff in H1 as [_ H1]. apply N.leb_le in H1. lia.
  - destruct ((97 <=? N_of_ascii c) && (N_of_ascii c <=? 102))%N eqn:H2.
    + intros [= <-]. apply andb_true_iff in H2 as [_ H2]. apply N.leb_le in H2. lia.
    + destruct ((65 <=? N_of_ascii c) && (N_of_ascii c <=? 70))%N eqn:H3;
        [ | discriminate].
      intros [= <-]. apply andb_true_iff in H3 as [_ H3]. apply N.leb_le in H3. lia.
Qed.

Lemma parseInt16_two_digits c1 c2 :
  (parseInt16 (String c1 (String c2 EmptyString)) < 256)%N.
Proof.
  unfold parseInt16. simpl.
  destruct (hex_value c1) as [v1 | ] eqn:H1; [ | lia].
  apply hex_value_below in H1.
  destruct (hex_value c2) as [v2 | ] eqn:H2; [ | lia].
  apply hex_value_below in H2. lia.
Qed.

Lemma six_characters (s : string) :
  String.length s = 6%nat ->
  exists c1 c2 c3 c4 c5 c6,
    s = String c1 (String c2 (String c3 (String c4 (String c5 (String c6 EmptyString))))).
Proof.
  destruct s as [ | c1 [ | c2 [ | c3 [ | c4 [ | c5 [ | c6 [ | c7 s]]]]]]];
    simpl; try discriminate.
  intros _. repeat eexists.
Qed.

Lemma channel_reads_back :
  forallb (fun x => N.eqb (parseInt16 (padStart2 (toString16 x))) x
                    && Nat.eqb (String.length (padStart2 (toString16 x))) 2
                    && forallb is_hex_digit
                         (list_ascii_of_string (padStart2 (toString16 x))))
          (map N.of_nat (seq 0 256)) = true.
Proof. vm_compute. reflexivity. Qed.

Lemma channel_text (x : N) :
  (x < 256)%N ->
  exists c1 c2,
    padStart2 (toString16 x) = String c1 (String c2 EmptyString) /\
    is_hex_digit c1 = true /\ is_hex_digit c2 = true /\
    parseInt16 (String c1 (String c2 EmptyString)) = x.
Proof.
  intros Hx.
  pose proof (proj1 (forallb_forall _ _) channel_reads_back x) as H.
  assert (Hin : In x (map N.of_nat (seq 0 256))).
  { apply in_map_iff. exists (N.to_nat x). split; [apply N2Nat.id | ].
    apply in_seq. lia. }
  specialize (H Hin). apply andb_true_iff in H as [H Hdigits].
  apply andb_true_iff in H as [Hval Hlen].
  apply N.eqb_eq in Hval. apply Nat.eqb_eq in Hlen.
  destruct (padStart2 (toString16 x)) as [ | c1 [ | c2 [ | c3 s]]];
    try discriminate Hlen.
  simpl in Hdigits. rewrite andb_true_r in Hdigits.
  apply andb_true_iff in Hdigits as [Hd1 Hd2].
  exists c1, c2. repeat split; assumption.
Qed.

(** X29. The hexadecimal text that the theme panel builds from three
    channel values below 256 is read back by [hexToRgb], and by [colorToRgb]
    whatever [hslToRgb] does, as exactly those three values. *)
Theorem formatted_colour_is_read_back :
  forall (hslToRgb : string -> Outcome (N * N * N)) (r g b : N),
    (r < 256)%N -> (g < 256)%N -> (b < 256)%N ->
    hexToRgb (formatHex r g b) = Returned (r, g, b) /\
    colorToRgb hslToRgb (formatHex r g b) = Returned (r, g, b).
Proof.
  intros hslToRgb r g b Hr Hg Hb.
  destruct (channel_text r Hr) as (r1 & r2 & Hrt & Hr1 & Hr2 & Hrv).
  destruct (channel_text g Hg) as (g1 & g2 & Hgt & Hg1 & Hg2 & Hgv).
  destruct (channel_text b Hb) as (b1 & b2 & Hbt & Hb1 & Hb2 & Hbv).
  assert (Hhex : hexToRgb (formatHex r g b) = Returned (r, g, b)).
  { unfold formatHex. rewrite Hrt, Hgt, Hbt. unfold hexToRgb, exec_hex. simpl.
    rewrite Hr1, Hr2, Hg1, Hg2, Hb1, Hb2. simpl.
    rewrite Hrv, Hgv, Hbv. reflexivity. }
  split; [exact Hhex | ].
  unfold colorToRgb. unfold formatHex at 1. simpl startsWith_hash. exact Hhex.
Qed.

Lemma formatted_colour_is_read_back_witness :
  (59 < 256)%N /\ (130 < 256)%N /\ (246 < 256)%N /\
  formatHex 59 130 246 = "#3b82f6" /\
  hexToRgb (formatHex 59 130 246) = Returned (59, 130, 246)%N /\
  colorToRgb (fun _ => OffModel) (formatHex 59 130 246) = Returned (59, 130, 246)%N.
Proof.
  assert (Hr : (59 < 256)%N) by reflexivity.
  assert (Hg : (130 < 256)%N) by reflexivity.
  assert (Hb : (246 < 256)%N) by reflexivity.
  split; [exact Hr | ]. split; [exact Hg | ]. split; [exact Hb | ].
  split; [reflexivity | ].
  exact (formatted_colour_is_read_back (fun _ => OffModel) 59 130 246 Hr Hg Hb).
Defined.

(** X30. [hexToRgb] either returns three channel values, each below 256,
    or throws "Invalid hex color: " followed by its argument; it returns
    exactly for six hexadecimal digits with or without "#" in front.
    [colorToRgb] hands every text that starts with "#" to [hexToRgb], a
    "%" in it notwithstanding, and throws "Unsupported color format: "
    followed by its argument for a text with neither "#" in front nor a "%". *)
Theorem hexToRgb_returns_channels_or_throws :
  forall (hex : string),
    (forall r g b, hexToRgb hex = Returned (r, g, b) ->
       (r < 256)%N /\ (g < 256)%N /\ (b < 256)%N /\
       exists body, (hex = body \/ hex = String "#" body) /\
                    String.length body = 6%nat /\
                    forallb is_hex_digit (list_ascii_of_string body) = true) /\
    (forall body, (hex = body \/ hex = String "#" body) ->
       String.length body = 6%nat ->
       forallb is_hex_digit (list_ascii_of_string body) = true ->
       exists r g b, hexToRgb hex = Returned (r, g, b)) /\
    ((forall r g b, hexToRgb hex <> Returned (r, g, b)) ->
       hexToRgb hex = Thrown ("Invalid hex color: " +:+ hex)) /\
    (forall hslToRgb,
       startsWith_hash hex = true -> colorToRgb hslToRgb hex = hexToRgb hex) /\
    (forall hslToRgb,
       startsWith_hash hex = false -> includes_percent hex = false ->
       colorToRgb hslToRgb hex = Thrown ("Unsupported color format: " +:+ hex)).
Proof.
  intros hex. split; [ | split; [ | split; [ | split]]].
  - intros r g b. unfold hexToRgb, exec_hex.
    set (body := match hex with String "#" rest => rest | _ => hex end).
    destruct (String.length body =? 6)%nat eqn:Hlen; simpl; [ | discriminate].
    destruct (forallb is_hex_digit (list_ascii_of_string body)) eqn:Hdigits;
      [ | discriminate].
    apply Nat.eqb_eq in Hlen.
    destruct (six_characters body Hlen) as (c1 & c2 & c3 & c4 & c5 & c6 & Hbody).
    rewrite Hbody. simpl. intros [= <- <- <-].
    split; [apply parseInt16_two_digits | ].
    split; [apply parseInt16_two_digits | ].
    split; [apply parseInt16_two_digits | ].
    exists body. split; [ | split; [exact Hlen | exact Hdigits]].
    subst body. destruct hex as [ | c rest]; [left; reflexivity | ].
    destruct (Ascii.eqb_spec c "#") as [-> | Hc]; [right; reflexivity | ].
    left. destruct c as [[ | ] [ | ] [ | ] [ | ] [ | ] [ | ] [ | ] [ | ]];
      try reflexivity. now destruct Hc.
  - intros body Hhex Hlen Hdigits. unfold hexToRgb, exec_hex.
    assert (Hbody : match hex with String "#" rest => rest | _ => hex end = body).
    { destruct Hhex as [-> | ->]; [ | reflexivity].
      destruct body as [ | c rest]; [reflexivity | ].
      destruct (Ascii.eqb_spec c "#") as [-> | Hc].
      - simpl in Hdigits. discriminate Hdigits.
      - destruct c as [[ | ] [ | ] [ | ] [ | ] [ | ] [ | ] [ | ] [ | ]];
          try reflexivity. now destruct Hc. }
    rewrite Hbody, Hlen, Hdigits. simpl. eauto.
  - intros Hnot. unfold hexToRgb in *.
    destruct (exec_hex hex) as [[[g1 g2] g3] | ]; [ | reflexivity].
    now destruct (Hnot (parseInt16 g1) (parseInt16 g2) (parseInt16 g3)).
  - intros hslToRgb Hhash. unfold colorToRgb. rewrite Hhash. reflexivity.
  - intros hslToRgb Hhash Hpercent. unfold colorToRgb.
    rewrite Hhash, Hpercent. reflexivity.
Qed.

Lemma hexToRgb_returns_channels_or_throws_witness :
  hexToRgb "#FFaa00" = Returned (255, 170, 0)%N /\
  ((255 < 256)%N /\ (170 < 256)%N /\ (0 < 256)%N /\
   exists body, ("#FFaa00" = body \/ "#FFaa00" = String "#" body) /\
                String.length body = 6%nat /\
                forallb is_hex_digit (list_ascii_of_string body) = true) /\
  hexToRgb "#12%" = Thrown "Invalid hex color: #12%" /\
  colorToRgb (fun _ => OffModel) "#12%" = Thrown "Invalid hex color: #12%" /\
  colorToRgb (fun _ => OffModel) "red" = Thrown "Unsupported color format: red".
Proof.
  assert (H : hexToRgb "#FFaa00" = Returned (255, 170, 0)%N) by reflexivity.
  split; [exact H | ].
  split; [exact (proj1 (hexToRgb_returns_channels_or_throws "#FFaa00") _ _ _ H) | ].
  split; [reflexivity | ]. split; reflexivity.
Defined.
